(** * PubSummarizer: scraping, downloading and the per-paper pipeline

    A shallow embedding of [src/sql.py], [src/pdf_scraper.py] and
    [src/main.py].  Python values are embedded as follows:

    - [str] is [string]; one [ascii] stands for one character, by its code
      point, so that the strings of the model are those of characters up
      to U+00FF;
    - an exception raised by a call is the [Raised] case of [result];
    - the browser, the HTTP server, the PDF parser and the summarizer are
      oracles (fields of a record), every call of which may raise;
    - the side effects that the properties speak about (queries, downloads,
      sleeps, console lines) are recorded, in order, in a list of [event]s;
    - the files are a finite map from paths to contents; whether a file can
      be opened for writing, whether a path exists and whether a directory
      can be made are answers of the file system, hence oracles too; the
      table [Paper] is the list of its rows;
    - a loop without a bound of its own takes fuel, and a computation is
      [None] when the fuel runs out. *)

From Stdlib Require Import ZArith List String Ascii Bool Lia DecimalString.
From stdpp Require Import base option list gmap strings.

Import ListNotations.
Local Open Scope string_scope.
Local Open Scope list_scope.
Local Open Scope Z_scope.

(** ** Python values, exceptions and strings *)

Module Py.

(** The exceptions that the modelled code raises itself or lets through.
    [External] is any other subclass of [Exception], named by the oracle
    that raises it. *)
Inductive exn : Type :=
  | TypeError (what : string)
  | ValueError (what : string)
  | IntegrityError (what : string)
  | InvalidRequestError (what : string)
  | External (name : string).

Inductive result (A : Type) : Type :=
  | Ok (a : A)
  | Raised (e : exn).
Arguments Ok {A} a.
Arguments Raised {A} e.

(** The values stored in attributes and passed as keyword arguments. *)
Inductive pyval : Type :=
  | VNone
  | VStr (s : string)
  | VInt (z : Z).

#[global] Instance exn_eq_dec : EqDecision exn.
Proof. solve_decision. Defined.

#[global] Instance pyval_eq_dec : EqDecision pyval.
Proof. solve_decision. Defined.

(** Truth value of an object in a condition ([if x:], [x and y]). *)
Definition truthy (v : pyval) : bool :=
  match v with
  | VNone => false
  | VStr s => negb (String.eqb s "")
  | VInt z => negb (z =? 0)
  end.

(** [str(x)] as used by the replacement fields of an f-string. *)
Definition str_int (z : Z) : string := NilZero.string_of_int (Z.to_int z).

Definition str_opt (o : option string) : string :=
  match o with
  | None => "None"
  | Some s => s
  end.

(** [s.replace(old, new)] for a pattern [old] of one character. *)
Fixpoint replace1 (old : ascii) (new : string) (s : string) : string :=
  match s with
  | EmptyString => EmptyString
  | String c rest =>
      if Ascii.eqb c old then new +:+ replace1 old new rest
      else String c (replace1 old new rest)
  end.

(** [s.lower()] on the ASCII letters. *)
Definition lower_char (c : ascii) : ascii :=
  let n := nat_of_ascii c in
  if ((65 <=? n) && (n <=? 90))%nat then ascii_of_nat (n + 32) else c.

Fixpoint lower (s : string) : string :=
  match s with
  | EmptyString => EmptyString
  | String c rest => String (lower_char c) (lower rest)
  end.

(** [c.isspace()] for a character up to U+00FF: tab, line feed, vertical
    tab, form feed, carriage return, the four separators 28..31, the space,
    the next-line control U+0085 and the no-break space U+00A0. *)
Definition isspace (c : ascii) : bool :=
  let n := nat_of_ascii c in
  ((9 <=? n) && (n <=? 13) || (28 <=? n) && (n <=? 32)
   || (n =? 133) || (n =? 160))%nat.

(** [s.strip()]: whitespace removed at both ends. *)
Fixpoint lstrip (s : string) : string :=
  match s with
  | EmptyString => EmptyString
  | String c rest => if isspace c then lstrip rest else s
  end.

Fixpoint rstrip (s : string) : string :=
  match s with
  | EmptyString => EmptyString
  | String c rest =>
      match rstrip rest with
      | EmptyString => if isspace c then EmptyString else String c EmptyString
      | r => String c r
      end
  end.

Definition strip (s : string) : string := rstrip (lstrip s).

(** [sub in s]. *)
Definition contains (sub s : string) : bool :=
  match String.index 0 sub s with
  | Some _ => true
  | None => false
  end.

(** [s[:n]]: the first [n] characters, and for a negative [n] all but the
    last [-n]. *)
Definition slice_to (s : string) (n : Z) : string :=
  let len := Z.of_nat (String.length s) in
  let stop := if n <? 0 then Z.max 0 (len + n) else n in
  String.substring 0 (Z.to_nat (Z.min stop len)) s.

(** [os.path.join(a, b)] of [posixpath]. *)
Definition ends_with_sep (a : string) : bool :=
  match String.get (String.length a - 1)%nat a with
  | Some c => Ascii.eqb c "/"
  | None => false
  end.

Definition path_join (a b : string) : string :=
  if String.prefix "/" b then b
  else if String.eqb a "" || ends_with_sep a then a +:+ b
  else a +:+ "/" +:+ b.

End Py.

(** ** Effects: the event log and the state-and-exception monad *)

Module Eff.
Import Py.

(** The observable calls, in the order in which the program makes them. *)
Inductive event : Type :=
  | EPrint (line : string)                 (* print(...) *)
  | ESleep (secs : Z)                      (* time.sleep(secs) *)
  | ESetupDriver (attempt : nat)           (* setup_firefox_driver() *)
  | ENavigate (url : string)               (* driver.get(url) *)
  | EWait                                  (* WebDriverWait(driver, 20).until(...) *)
  | EScript (script : string)              (* driver.execute_script(script) *)
  | EFindNotes                             (* driver.find_elements(By.CLASS_NAME, "note") *)
  | EClick                                 (* next_button.click() *)
  | EQuit (driver : nat)                   (* driver.quit() *)
  | EQuery (filters : list (string * pyval)) (* db.get_papers(filters=...) *)
  | EHttpGet (url : string)                (* requests.get(url) *)
  | EWriteFile (path : string)             (* open(path, 'wb').write(...) *)
  | EParse (path : string)                 (* parse_and_clean_pdf(path) *)
  | ESummarize (content : string)          (* summarize_text(..., content, ...) *)
  | EInsert (id : pyval)                   (* db.add_entry(paper) *)
  | EMakeDirs (path : string).             (* os.makedirs(path) *)

#[global] Instance event_eq_dec : EqDecision event.
Proof. solve_decision. Defined.

(** A computation over a state [S]: [None] when a loop ran out of fuel,
    otherwise the value returned or the exception raised, with the state
    reached at that point. *)
Definition M (S A : Type) : Type := S -> option (result A * S).

Definition ret {S A} (a : A) : M S A := fun s => Some (Ok a, s).

Definition raise {S A} (e : exn) : M S A := fun s => Some (Raised e, s).

Definition out_of_fuel {S A} : M S A := fun _ => None.

Definition bind {S A B} (m : M S A) (k : A -> M S B) : M S B :=
  fun s =>
    match m s with
    | None => None
    | Some (Ok a, s') => k a s'
    | Some (Raised e, s') => Some (Raised e, s')
    end.

(** [try: m  except Exception as e: h e] *)
Definition try_except {S A} (m : M S A) (h : exn -> M S A) : M S A :=
  fun s =>
    match m s with
    | None => None
    | Some (Ok a, s') => Some (Ok a, s')
    | Some (Raised e, s') => h e s'
    end.

(** [try: m  finally: f]: [f] runs on every way out of [m]; an exception of
    [f] replaces the outcome of [m]. *)
Definition try_finally {S A} (m : M S A) (f : M S unit) : M S A :=
  fun s =>
    match m s with
    | None => None
    | Some (r, s') =>
        match f s' with
        | None => None
        | Some (Ok _, s'') => Some (r, s'')
        | Some (Raised e, s'') => Some (Raised e, s'')
        end
    end.

Definition lift {S A} (r : result A) : M S A := fun s => Some (r, s).

End Eff.

Declare Scope py_scope.
Delimit Scope py_scope with py.
Notation "x <- m ;; k" := (Eff.bind m (fun x => k))
  (at level 100, m at next level, right associativity) : py_scope.
Notation "m ;; k" := (Eff.bind m (fun _ => k))
  (at level 100, right associativity) : py_scope.

(** ** The record store of [sql.py] *)

Module Sql.
Import Py.

(** [class Paper(Base)]: the mapped columns, in the order of the class body.
    An instance is the dictionary of its attributes. *)
Definition Paper_columns : list string :=
  ["id"; "platform"; "collection"; "title";
   "pdf_url"; "pdf_path"; "content"; "summary"].

Abbreviation Paper := (gmap string pyval).

(** [paper.k] for a mapped column [k]: [None] when it was never set. *)
Definition attr (p : Paper) (k : string) : pyval := default VNone (p !! k).

(** What [getattr(Paper, k)] is: a mapped column, or some other object. *)
Inductive attribute : Type :=
  | Column
  | Plain (value : option pyval).  (* its value when it is a [str], an [int] or
                                      [None]; [None] for any other object *)

(** The attributes of the class [Paper]: the columns, [__tablename__] and
    [__repr__] of the class body, and what the declarative base gives:
    [metadata] (used at line 33), [registry], [__init__], [__table__] and
    [__mapper__].  Any other name is taken to be no attribute; this is so
    for the names that do not begin with an underscore, and the names that
    begin with one and are not listed here are outside the model. *)
Definition Paper_namespace (k : string) : option attribute :=
  if bool_decide (k ∈ Paper_columns) then Some Column
  else if String.eqb k "__tablename__" then Some (Plain (Some (VStr "Paper")))
  else if bool_decide (k ∈ ["metadata"; "registry"; "__repr__"; "__init__";
                            "__table__"; "__mapper__"])
       then Some (Plain None)
  else None.

(** [Paper(k1=v1, ...)]: [Paper] defines no [__init__], so it has the
    constructor that [declarative_base()] gives to every mapped class, which
    goes through the keywords in order, raises [TypeError] at the first one
    that is not an attribute of the class, and sets the others; one that
    is no column becomes an attribute of the object only. *)
Fixpoint Paper_init (self : Paper) (kwargs : list (string * pyval)) : result Paper :=
  match kwargs with
  | [] => Ok self
  | (k, v) :: rest =>
      match Paper_namespace k with
      | Some Column => Paper_init (<[k := v]> self) rest
      | Some (Plain _) => Paper_init self rest
      | None =>
          Raised (TypeError ("'" +:+ k +:+ "' is an invalid keyword argument for Paper"))
      end
  end.

Definition Paper_new (kwargs : list (string * pyval)) : result Paper :=
  Paper_init ∅ kwargs.

(** The table [Paper], rows in insertion order. *)
Abbreviation table := (list (gmap string pyval)).

Definition has_id (db : table) (v : pyval) : bool :=
  existsb (fun row => bool_decide (attr row "id" = v)) db.

(** [Database.add_entry]: [session.add(paper); session.commit()] issues one
    INSERT.  The primary key column [id] is NOT NULL and unique, so the
    INSERT fails with [IntegrityError], the table being left as it was, when
    [paper.id] is [None] or is the [id] of a stored row. *)
Definition add_entry (db : table) (paper : Paper) : result unit * table :=
  if bool_decide (attr paper "id" = VNone) then
    (Raised (IntegrityError "NOT NULL constraint failed: Paper.id"), db)
  else if has_id db (attr paper "id") then
    (Raised (IntegrityError "UNIQUE constraint failed: Paper.id"), db)
  else (Ok tt, db ++ [paper]).

(** One criterion of [filter_by], [getattr(Paper, k) == v]: on a column it
    is a comparison that the database makes row by row; on any other
    attribute it is the comparison of two Python objects, [True] or [False]
    for all the rows at once. *)
Definition criterion (row : Paper) (kv : string * pyval) : bool :=
  match Paper_namespace kv.1 with
  | Some Column => bool_decide (attr row kv.1 = kv.2)
  | Some (Plain value) => bool_decide (value = Some kv.2)
  | None => false
  end.

Definition matches (filters : list (string * pyval)) (row : Paper) : bool :=
  forallb (criterion row) filters.

Definition no_attribute (kv : string * pyval) : bool :=
  match Paper_namespace kv.1 with
  | None => true
  | Some _ => false
  end.

(** [Database.get_papers]: all rows when [filters] is empty (or [None]),
    else [filter_by] with those keywords: a filter on a name that is no
    attribute of [Paper] raises [InvalidRequestError], which here carries
    that name (the wording of the message is that of the installed
    SQLAlchemy); otherwise the rows that meet every criterion are
    returned. *)
Definition get_papers (db : table) (filters : list (string * pyval)) : result table :=
  match filters with
  | [] => Ok db
  | _ =>
      match List.find no_attribute filters with
      | Some kv =>
          Raised (InvalidRequestError kv.1)
      | None => Ok (List.filter (matches filters) db)
      end
  end.

(** The invariant of the store: [id] is a key. *)
Definition unique_ids (db : table) : Prop :=
  NoDup (List.map (fun row => attr row "id") db).

End Sql.

(** ** The listing fetcher of [pdf_scraper.py] *)

Module Scraper.
Import Py Eff.
Local Open Scope py_scope.

(** *** The browser, as seen through the calls of the module *)

(** One element of class [note]. *)
Record Note : Type := {
  h4_text : result string;                 (* find_element(By.TAG_NAME, "h4").text *)
  pdf_links : result (list (result (option string)))
    (* the links titled Download PDF, with get_attribute("href") of each,
       which is [None] for a link without that attribute *)
}.

(** The next-page control. *)
Record NextButton : Type := {
  parent_class : result string;  (* class attribute of the parent element *)
  click : result unit
}.

(** One page of the listing.  The scripts are indexed by the number of
    earlier calls of the same script on that page. *)
Record Page : Type := {
  wait_for_note : result unit;
  scroll_height : nat -> result Z;     (* "return document.body.scrollHeight" *)
  scroll_to_bottom : nat -> result unit; (* "window.scrollTo(0, ...)" *)
  find_notes : result (list Note);
  find_next_button : result NextButton
}.

(** One browser session: what happens when it is set up, and what it shows. *)
Record Session : Type := {
  firefox_version : result string;   (* subprocess.check_output(['firefox-esr', ...]) *)
  geckodriver_path : result string;  (* GeckoDriverManager().install() *)
  new_firefox : result unit;         (* FirefoxService(...) and webdriver.Firefox(...) *)
  sys_platform : string;
  sys_version : string;
  driver_get : string -> result unit;
  pages : nat -> Page;               (* the page shown after so many clicks on next *)
  driver_quit : result unit
}.

(** The session that the [n]-th call of [setup_firefox_driver] opens. *)
Definition Browser : Type := nat -> Session.

(** The local state of [scrape_openreview]: the variable [driver] (the number
    of the session it refers to) and the log. *)
Record sstate : Type := {
  driver : option nat;
  log : list event
}.

Definition emit (ev : event) : M sstate unit :=
  fun s => Some (Ok tt, {| driver := driver s; log := log s ++ [ev] |}).

Definition print (line : string) : M sstate unit := emit (EPrint line).

Definition set_driver (d : nat) : M sstate unit :=
  fun s => Some (Ok tt, {| driver := Some d; log := log s |}).

(** A call of the browser: logged, then its outcome. *)
Definition call {A} (ev : event) (r : result A) : M sstate A := emit ev ;; lift r.

Definition sleep (secs : Z) : M sstate unit := emit (ESleep secs).

Definition str_exn (e : exn) : string :=
  match e with
  | TypeError w | ValueError w | IntegrityError w | InvalidRequestError w => w
  | External n => n
  end.

(** *** [check_firefox_installation] and [setup_firefox_driver] *)

Definition check_firefox_installation (b : Session) : M sstate bool :=
  try_except
    (version <- lift (firefox_version b) ;;
     print ("Firefox ESR version: " +:+ strip version) ;;
     driver_path <- lift (geckodriver_path b) ;;
     print ("Geckodriver path: " +:+ driver_path) ;;
     ret true)
    (fun e =>
       if bool_decide (e = External "FileNotFoundError") then
         print "Firefox ESR is not installed or not in PATH" ;; ret false
       else
         print ("Error checking Firefox ESR installation: " +:+ str_exn e) ;; ret false).

Definition setup_firefox_driver (attempt : nat) (b : Session) : M sstate nat :=
  emit (ESetupDriver attempt) ;;
  installed <- check_firefox_installation b ;;
  if negb installed then
    raise (External "Firefox ESR is not properly installed. Please install Firefox ESR first.")
  else
    try_except
      (print "Setting up Firefox ESR driver..." ;;
       _ <- lift (geckodriver_path b) ;;
       lift (new_firefox b) ;;
       print "Firefox ESR driver successfully initialized" ;;
       ret attempt)
      (fun e =>
         print ("Failed to initialize Firefox ESR driver: " +:+ str_exn e) ;;
         print ("System platform: " +:+ sys_platform b) ;;
         print ("Python version: " +:+ sys_version b) ;;
         raise e).

(** *** The scroll loop (lines 125 to 136) *)

Definition max_scroll_attempts : Z := 10.

Definition scroll_script : string := "window.scrollTo(0, document.body.scrollHeight);".
Definition height_script : string := "return document.body.scrollHeight".

(** [while scroll_attempts < max_scroll_attempts: ...], one unit of [fuel]
    for each pass through the body. *)
Fixpoint scroll_loop (fuel : nat) (pg : Page) (last_height scroll_attempts : Z)
  : M sstate unit :=
  if scroll_attempts <? max_scroll_attempts then
    match fuel with
    | O => out_of_fuel
    | S fuel' =>
        call (EScript scroll_script) (scroll_to_bottom pg (Z.to_nat scroll_attempts)) ;;
        sleep 3 ;;
        new_height <- call (EScript height_script)
                           (scroll_height pg (S (Z.to_nat scroll_attempts))) ;;
        if new_height =? last_height then ret tt
        else scroll_loop fuel' pg new_height (scroll_attempts + 1)
    end
  else ret tt.

(** Lines 125 to 136 as a whole; the fuel is the cap of the loop. *)
Definition scroll_page (pg : Page) : M sstate unit :=
  last_height <- call (EScript height_script) (scroll_height pg 0) ;;
  scroll_loop (Z.to_nat max_scroll_attempts) pg last_height 0.

(** *** Extraction of the entries of a page (lines 140 to 152) *)

Definition extract_note (n : Note) (papers : list (string * option string))
  : M sstate (list (string * option string)) :=
  try_except
    (title <- lift (h4_text n) ;;
     let title := strip title in
     links <- lift (pdf_links n) ;;
     match links with
     | href :: _ =>
         if (0 <? Z.of_nat (String.length (strip title))) then
           pdf_url <- lift href ;;
           print ("Found paper: " +:+ title) ;;
           ret (papers ++ [(title, pdf_url)])
         else ret papers
     | [] => ret papers
     end)
    (fun e => print ("Error extracting paper info: " +:+ str_exn e) ;; ret papers).

Fixpoint extract_notes (notes : list Note) (papers : list (string * option string))
  : M sstate (list (string * option string)) :=
  match notes with
  | [] => ret papers
  | n :: rest => papers' <- extract_note n papers ;; extract_notes rest papers'
  end.

(** *** The page loop (lines 115 to 167) *)

(** Lines 155 to 167: [true] when the loop goes on with the next page. *)
Definition next_page (pg : Page) : M sstate bool :=
  try_except
    (next_button <- lift (find_next_button pg) ;;
     cls <- lift (parent_class next_button) ;;
     if negb (contains "disabled" cls) then
       print "Moving to the next page..." ;;
       call EClick (click next_button) ;;
       sleep 3 ;;
       ret true
     else
       print "Reached the last page." ;; ret false)
    (fun _ => print "No more pages or error finding next button." ;; ret false).

(** [while True: ...], one unit of [fuel] for each page. *)
Fixpoint page_loop (fuel : nat) (b : Session) (page_number : Z)
    (papers : list (string * option string)) : M sstate (list (string * option string)) :=
  match fuel with
  | O => out_of_fuel
  | S fuel' =>
      let pg := pages b (Z.to_nat (page_number - 1)) in
      print ("Processing page " +:+ str_int page_number) ;;
      print "Waiting for content to load..." ;;
      call EWait (wait_for_note pg) ;;
      print "Scrolling through page..." ;;
      scroll_page pg ;;
      print "Extracting paper information..." ;;
      notes <- call EFindNotes (find_notes pg) ;;
      papers' <- extract_notes notes papers ;;
      more <- next_page pg ;;
      if more then page_loop fuel' b (page_number + 1) papers'
      else ret papers'
  end.

(** *** The retry loop (lines 96 to 185) *)

Definition base_url (conference : string) (year : Z) (track : string)
    (submission_type : option string) : string :=
  let url := "https://openreview.net/group?id=" +:+ conference +:+ ".cc/"
             +:+ str_int year +:+ "/" +:+ track in
  match submission_type with
  | Some t => url +:+ "#" +:+ t
  | None => url
  end.

Definition newline : string := String (ascii_of_nat 10) EmptyString.

(** The body of the [try] (lines 105 to 169) for the attempt that starts
    with [retry_count]. *)
Definition attempt (page_fuel : nat) (br : Browser) (url : string)
    (max_retries retry_count : Z) : M sstate (list (string * option string)) :=
  let n := Z.to_nat retry_count in
  print (newline +:+ "Attempt " +:+ str_int (retry_count + 1) +:+ " of "
         +:+ str_int max_retries) ;;
  print "Initializing Firefox driver..." ;;
  d <- setup_firefox_driver n (br n) ;;
  set_driver d ;;
  print ("Navigating to URL: " +:+ url) ;;
  call (ENavigate url) (driver_get (br n) url) ;;
  page_loop page_fuel (br n) 1 [].

(** The [finally] clause (lines 180 to 185). *)
Definition teardown (br : Browser) : M sstate unit :=
  fun s =>
    match driver s with
    | Some d =>
        try_except (call (EQuit d) (driver_quit (br d)))
          (fun e => print ("Error closing driver: " +:+ str_exn e)) s
    | None => ret tt s
    end.

(** How one pass through the body of the retry loop ends. *)
Inductive control : Type :=
  | Return (papers : list (string * option string))  (* [return papers] *)
  | Again (retry_count : Z).                  (* back to the loop test *)

(** The [except] clause (lines 171 to 179). *)
Definition on_error (max_retries retry_count : Z) (e : exn) : M sstate control :=
  print ("Error during scraping (attempt " +:+ str_int (retry_count + 1) +:+ "): "
         +:+ str_exn e) ;;
  let retry_count := retry_count + 1 in
  if retry_count <? max_retries then
    print "Retrying..." ;;
    sleep 5 ;;
    ret (Again retry_count)
  else
    print "Max retries reached. Giving up." ;;
    raise e.

(** [while retry_count < max_retries: try ... except ... finally ...]; the
    value is [None] when the loop ends without a [return]. *)
Fixpoint retry_loop (fuel page_fuel : nat) (br : Browser) (url : string)
    (max_retries retry_count : Z) : M sstate (option (list (string * option string))) :=
  if retry_count <? max_retries then
    match fuel with
    | O => out_of_fuel
    | S fuel' =>
        c <- try_finally
               (try_except
                  (papers <- attempt page_fuel br url max_retries retry_count ;;
                   ret (Return papers))
                  (on_error max_retries retry_count))
               (teardown br) ;;
        match c with
        | Return papers => ret (Some papers)
        | Again retry_count' =>
            retry_loop fuel' page_fuel br url max_retries retry_count'
        end
    end
  else ret None.

(** [max_retries=3] in the signature. *)
Definition default_max_retries : Z := 3.

Definition scrape_openreview (page_fuel : nat) (br : Browser)
    (conference : string) (year : Z) (track : string)
    (submission_type : option string) (max_retries : Z)
  : M sstate (option (list (string * option string))) :=
  fun s =>
    retry_loop (Z.to_nat max_retries) page_fuel br
      (base_url conference year track submission_type) max_retries 0
      {| driver := None; log := log s |}.

End Scraper.

(** ** The text cleaner of [pdf_parser.py] *)

Module PdfParser.
Import Py.

(** The printable ASCII range: the codes 32 to 126. *)
Definition printable (c : ascii) : bool :=
  let n := nat_of_ascii c in ((32 <=? n) && (n <=? 126))%nat.

Fixpoint strip_unprintable (s : string) : string :=
  match s with
  | EmptyString => EmptyString
  | String c rest =>
      if printable c then String c (strip_unprintable rest)
      else strip_unprintable rest
  end.

(** Every run of whitespace becomes one space; [in_run] tells that the
    character before was whitespace. *)
Fixpoint collapse_whitespace (in_run : bool) (s : string) : string :=
  match s with
  | EmptyString => EmptyString
  | String c rest =>
      if isspace c then
        if in_run then collapse_whitespace true rest
        else String " " (collapse_whitespace true rest)
      else String c (collapse_whitespace false rest)
  end.

(** Modelled from the spec: [clean_text] of [pdf_parser.py], a module that
    [main.py] imports and that is not among the sources.  Section 4.3 has
    the title normalized "by stripping characters outside the printable
    ASCII range, collapse/replace whitespace with a single separator"; the
    replacement by the separator is in [main.py], the stripping and the
    collapse of the whitespace are taken to be [clean_text]. *)
Definition clean_text (s : string) : string :=
  collapse_whitespace false (strip_unprintable s).

End PdfParser.

(** ** The pipeline of [main.py], with [download_pdf] of [pdf_scraper.py] *)

Module Main.
Import Py Eff Sql.
Local Open Scope py_scope.

(** The configuration file, after [yaml.safe_load]. *)
Record Config : Type := {
  platform : string;
  conference : string;
  year : Z;
  track : string;
  submission_type : option string;
  delay : Z;
  output_dir : string;
  content_cap : option Z;
  provider : string;
  model_name : string;
  prefix : string;
  suffix : string;
  param : list (string * pyval)
}.

Record response : Type := {
  status_code : Z;
  content : list Byte.byte
}.

(** Everything outside the program.  [parse_and_clean_pdf] and
    [summarize_text] belong to modules that are not among the sources; they
    are taken as they come, any function of their arguments (and of the
    files, for the parser) that returns a text or raises.  The last three
    fields are the answers of the file system: of [open(path, 'wb')], which
    raises when the directory of the path is missing or may not be written,
    of [os.path.exists] and of [os.makedirs]. *)
Record World : Type := {
  browser : Scraper.Browser;
  requests_get : string -> result response;
  parse_and_clean_pdf : string -> gmap string (list Byte.byte) -> result string;
  summarize_text :
    string -> string -> string -> string -> string -> list (string * pyval) ->
    result string;
  open_wb : string -> result unit;
  path_exists : string -> bool;
  makedirs : string -> result unit
}.

(** The table, the files under [output_dir] and the log. *)
Record state : Type := {
  db : table;
  fs : gmap string (list Byte.byte);
  trace : list event
}.

Definition emit (ev : event) : M state unit :=
  fun s => Some (Ok tt, {| db := db s; fs := fs s; trace := trace s ++ [ev] |}).

Definition print (line : string) : M state unit := emit (EPrint line).

(** [time.sleep(secs)] raises on a negative length. *)
Definition sleep (secs : Z) : M state unit :=
  if secs <? 0 then raise (ValueError "sleep length must be non-negative")
  else emit (ESleep secs).

(** [with open(path, 'wb') as f: f.write(data)]: an exception of [open]
    leaves the files as they were. *)
Definition write_file (w : World) (path : string) (data : list Byte.byte)
  : M state unit :=
  lift (open_wb w path) ;;
  fun s =>
    Some (Ok tt, {| db := db s; fs := <[path := data]> (fs s);
                    trace := trace s ++ [EWriteFile path] |}).

(** [requests.get(url)]: the address is [None] for an entry whose link had
    no [href]; [requests] then finds no scheme in it and raises. *)
Definition requests_get_py (w : World) (url : option string) : result response :=
  match url with
  | Some u => requests_get w u
  | None => Raised (External "MissingSchema")
  end.

(** [download_pdf] ([pdf_scraper.py], lines 188 to 203). *)
Definition download_pdf (w : World) (filename : string) (url : option string)
    (output_dir : string) : M state (option string) :=
  emit (EHttpGet (str_opt url)) ;;
  response <- lift (requests_get_py w url) ;;
  if status_code response =? 200 then
    let filepath := path_join output_dir filename in
    write_file w filepath (content response) ;;
    ret (Some filepath)
  else ret None.

(** [db.get_papers] and [db.add_entry] on the table of the state. *)
Definition db_get_papers (filters : list (string * pyval)) : M state table :=
  emit (EQuery filters) ;;
  fun s => Some (get_papers (db s) filters, s).

Definition db_add_entry (paper : Paper) : M state unit :=
  emit (EInsert (attr paper "id")) ;;
  fun s =>
    let '(r, db') := add_entry (db s) paper in
    Some (r, {| db := db'; fs := fs s; trace := trace s |}).

(** Lines 50 to 52. *)
Definition derive_id (cfg : Config) (title : string) : string :=
  let processed_id := PdfParser.clean_text title in
  replace1 " " "_" processed_id +:+ "_" +:+ conference cfg +:+ "_"
    +:+ str_int (year cfg) +:+ "_" +:+ track cfg +:+ "_"
    +:+ str_opt (submission_type cfg) +:+ "_" +:+ platform cfg.

(** [existing_papers and existing_papers[0].summary] *)
Definition already_processed (existing_papers : table) : bool :=
  match existing_papers with
  | [] => false
  | first :: _ => truthy (attr first "summary")
  end.

(** [not pdf_path] *)
Definition no_path (pdf_path : option string) : bool :=
  match pdf_path with
  | None => true
  | Some p => String.eqb p ""
  end.

(** Lines 68 and 69. *)
Definition cap_content (cfg : Config) (text : string) : string :=
  match content_cap cfg with
  | None => text
  | Some cap => if cap =? 0 then text else slice_to text cap
  end.

Definition pyval_opt (o : option string) : pyval :=
  match o with
  | None => VNone
  | Some s => VStr s
  end.

(** The keywords of [Paper(...)] at lines 78 to 90, in the order written. *)
Definition paper_kwargs (cfg : Config) (processed_id processed_title : string)
    (url : option string) (pdf_path text summary : string) : list (string * pyval) :=
  [("id", VStr processed_id);
   ("title", VStr processed_title);
   ("conference", VStr (conference cfg));
   ("year", VInt (year cfg));
   ("track", VStr (track cfg));
   ("submission_type", pyval_opt (submission_type cfg));
   ("platform", VStr (platform cfg));
   ("pdf_url", pyval_opt url);
   ("pdf_path", VStr pdf_path);
   ("content", VStr text);
   ("summary", VStr summary)].

(** How the body of the loop ends for one entry. *)
Inductive outcome : Type :=
  | Skipped          (* [continue] at line 58 *)
  | DownloadFailed   (* [continue] at line 64 *)
  | Persisted.       (* the end of the body, line 96 *)

(** The body of the loop (lines 49 to 96) for the entry [(title, url)]. *)
Definition process_paper (w : World) (cfg : Config) (entry : string * option string)
  : M state outcome :=
  let '(title, url) := entry in
  let processed_title := PdfParser.clean_text title in
  let processed_id := derive_id cfg title in
  existing_papers <- db_get_papers [("id", VStr processed_id)] ;;
  if already_processed existing_papers then
    print ("Skipping " +:+ title +:+ ", already processed.") ;;
    ret Skipped
  else
    pdf_path <- download_pdf w (processed_id +:+ ".pdf") url (output_dir cfg) ;;
    if no_path pdf_path then
      print ("Failed to download " +:+ title +:+ ".") ;;
      ret DownloadFailed
    else
      let pdf_path := default "" pdf_path in
      emit (EParse pdf_path) ;;
      text <- (fun s => Some (parse_and_clean_pdf w pdf_path (fs s), s)) ;;
      let text := cap_content cfg text in
      emit (ESummarize text) ;;
      summary <- lift (summarize_text w (prefix cfg) (suffix cfg) text
                         (provider cfg) (model_name cfg) (param cfg)) ;;
      paper_entry <- lift (Paper_new (paper_kwargs cfg processed_id processed_title
                                        url pdf_path text summary)) ;;
      db_add_entry paper_entry ;;
      sleep (delay cfg) ;;
      ret Persisted.

(** The loop of line 48; the value lists how each entry ended. *)
Fixpoint process_papers (w : World) (cfg : Config) (papers : list (string * option string))
  : M state (list outcome) :=
  match papers with
  | [] => ret []
  | entry :: rest =>
      o <- process_paper w cfg entry ;;
      os <- process_papers w cfg rest ;;
      ret (o :: os)
  end.

(** [scrape_openreview] run from [main]: its log goes to the trace. *)
Definition run_scraper {A} (m : M Scraper.sstate A) : M state A :=
  fun s =>
    match m {| Scraper.driver := None; Scraper.log := trace s |} with
    | None => None
    | Some (r, s') => Some (r, {| db := db s; fs := fs s; trace := Scraper.log s' |})
    end.

(** [os.path.exists(p)] and [os.makedirs(p)]: the empty path does not exist
    and cannot be made. *)
Definition os_path_exists (w : World) (p : string) : bool :=
  if String.eqb p "" then false else path_exists w p.

Definition os_makedirs (w : World) (p : string) : result unit :=
  if String.eqb p "" then Raised (External "FileNotFoundError") else makedirs w p.

(** Lines 43 to 45. *)
Definition ensure_output_dir (w : World) (cfg : Config) : M state unit :=
  if os_path_exists w (output_dir cfg) then ret tt
  else emit (EMakeDirs (output_dir cfg)) ;; lift (os_makedirs w (output_dir cfg)).

(** [main] from line 37 on, for a loaded configuration and a created table.
    [scrape_openreview] is called without [max_retries], hence with the
    default. *)
Definition main (page_fuel : nat) (w : World) (cfg : Config) : M state (list outcome) :=
  if String.eqb (lower (platform cfg)) "openreview" then
    papers <- run_scraper
                (Scraper.scrape_openreview page_fuel (browser w) (conference cfg)
                   (year cfg) (track cfg) (submission_type cfg)
                   Scraper.default_max_retries) ;;
    ensure_output_dir w cfg ;;
    match papers with
    | None => raise (TypeError "'NoneType' object is not iterable")
    | Some papers =>
        os <- process_papers w cfg papers ;;
        print "All papers processed." ;;
        ret os
    end
  else raise (ValueError ("Unsupported platform: " +:+ platform cfg)).

End Main.

(** * Properties *)

(** ** The record store *)

Module SqlFacts.
Import Py Sql.

Lemma has_id_true (db : table) (v : pyval) :
  has_id db v = true <-> exists row, row ∈ db /\ attr row "id" = v.
Proof.
  unfold has_id. rewrite existsb_exists. split.
  - intros (row & Hin & Heq). exists row. split.
    + by apply list_elem_of_In.
    + by apply bool_decide_eq_true in Heq.
  - intros (row & Hin & Heq). exists row. split.
    + by apply list_elem_of_In.
    + by apply bool_decide_eq_true.
Qed.

(** A query by [id] never raises: [id] is a column. *)
Lemma get_papers_by_id (db : table) (v : pyval) :
  get_papers db [("id", v)]
  = Ok (List.filter (fun row => bool_decide (attr row "id" = v)) db).
Proof.
  unfold get_papers.
  change (List.find no_attribute [("id", v)]) with (@None (string * pyval)).
  f_equal. induction db as [|row db IH]; [done|].
  cbn [List.filter]. rewrite IH.
  change (matches [("id", v)] row) with (bool_decide (attr row "id" = v) && true).
  by rewrite andb_true_r.
Qed.

(** With [id] a key, the query by the [id] of a stored row gives that row
    alone. *)
Lemma filter_key_singleton (db : table) (stored : Paper) :
  unique_ids db -> stored ∈ db ->
  List.filter (fun row => bool_decide (attr row "id" = attr stored "id")) db = [stored].
Proof.
  unfold unique_ids. induction db as [|row db IH]; intros Hnd Hin.
  - by apply elem_of_nil in Hin.
  - simpl in Hnd. apply NoDup_cons in Hnd as [Hnotin Hnd].
    assert (Hnone : forall r, r ∈ db -> attr r "id" = attr row "id" -> False).
    { intros r Hr Heq. apply Hnotin. rewrite <- Heq.
      apply list_elem_of_fmap. by exists r. }
    apply elem_of_cons in Hin as [-> | Hin]; simpl.
    + rewrite bool_decide_eq_true_2 by done. f_equal.
      clear IH Hnd Hnotin. induction db as [|r db IH]; simpl; [done|].
      rewrite bool_decide_eq_false_2.
      * apply IH. intros r' Hr'. apply Hnone. by right.
      * intros Heq. eapply Hnone; [by left | done].
    + rewrite bool_decide_eq_false_2; [by apply IH|].
      intros Heq. eapply Hnone; [exact Hin | by symmetry].
Qed.

(** [add_entry] keeps [id] a key. *)
Lemma add_entry_unique_ids (db db' : table) (paper : Paper) (r : result unit) :
  unique_ids db -> add_entry db paper = (r, db') -> unique_ids db'.
Proof.
  unfold add_entry, unique_ids. intros Hnd.
  case_bool_decide; [intros [= _ <-]; done|].
  destruct (has_id db (attr paper "id")) eqn:Hid; intros [= _ <-]; [done|].
  change (NoDup ((fun row : Paper => attr row "id") <$> (db ++ [paper]))).
  rewrite fmap_app. apply NoDup_app. split; [exact Hnd|]. split.
  - intros v Hv Hv'. apply list_elem_of_fmap in Hv as (row & -> & Hrow).
    apply list_elem_of_singleton in Hv'.
    assert (has_id db (attr paper "id") = true); [|congruence].
    apply has_id_true. by exists row.
  - apply NoDup_singleton.
Qed.

(** C10. [Database.add_entry] is an insert and never an update: when the
    [id] of the record is the [id] of a stored row (a partial record with an
    empty summary that is being processed again, say) the insert fails on
    the primary key with [IntegrityError] and the table is left as it was,
    the stored row included; and when it succeeds the table is the old one
    with the record appended, which then had a new [id]. *)
Theorem add_entry_inserts_never_updates :
  (forall (db : table) (paper stored : Paper),
      stored ∈ db -> attr stored "id" = attr paper "id" ->
      (exists what, add_entry db paper = (Raised (IntegrityError what), db))
      /\ stored ∈ (add_entry db paper).2)
  /\ (forall (db db' : table) (paper : Paper),
      add_entry db paper = (Ok tt, db') ->
      db' = db ++ [paper] /\ has_id db (attr paper "id") = false).
Proof.
  split.
  - intros db paper stored Hin Heq.
    assert (Hid : has_id db (attr paper "id") = true).
    { apply has_id_true. by exists stored. }
    unfold add_entry. case_bool_decide; [by eauto|].
    rewrite Hid. by eauto.
  - intros db db' paper. unfold add_entry.
    case_bool_decide; [done|].
    destruct (has_id db (attr paper "id")); [done|].
    by intros [= <-].
Qed.

End SqlFacts.

(** ** The pipeline *)

Module MainFacts.
Import Py Eff Sql Main.
Local Open Scope py_scope.

(** The query that opens the body of the loop. *)
Definition id_filter (cfg : Config) (title : string) : list (string * pyval) :=
  [("id", VStr (derive_id cfg title))].

(** What the query returns for [title]. *)
Definition existing (cfg : Config) (s : state) (title : string) : table :=
  List.filter (fun row => bool_decide (attr row "id" = VStr (derive_id cfg title))) (db s).

Definition logged (s : state) (evs : list event) : state :=
  {| db := db s; fs := fs s; trace := trace s ++ evs |}.

Lemma logged_app (s : state) (evs evs' : list event) :
  logged (logged s evs) evs' = logged s (evs ++ evs').
Proof. unfold logged. simpl. by rewrite <- app_assoc. Qed.

Lemma db_get_papers_id (cfg : Config) (title : string) (s : state) :
  db_get_papers (id_filter cfg title) s
  = Some (Ok (existing cfg s title), logged s [EQuery (id_filter cfg title)]).
Proof.
  unfold db_get_papers, bind, emit, id_filter. cbv beta iota. cbn [db].
  by rewrite SqlFacts.get_papers_by_id.
Qed.

(** The body of the loop, after the query. *)
Lemma process_paper_unfold (w : World) (cfg : Config) (title : string)
    (url : option string) (s : state) :
  process_paper w cfg (title, url) s
  = (existing_papers <- db_get_papers (id_filter cfg title) ;;
     if already_processed existing_papers then
       print ("Skipping " +:+ title +:+ ", already processed.") ;; ret Skipped
     else
       pdf_path <- download_pdf w (derive_id cfg title +:+ ".pdf") url (output_dir cfg) ;;
       if no_path pdf_path then
         print ("Failed to download " +:+ title +:+ ".") ;; ret DownloadFailed
       else
         let pdf_path := default "" pdf_path in
         emit (EParse pdf_path) ;;
         text <- (fun s => Some (parse_and_clean_pdf w pdf_path (fs s), s)) ;;
         let text := cap_content cfg text in
         emit (ESummarize text) ;;
         summary <- lift (summarize_text w (prefix cfg) (suffix cfg) text
                            (provider cfg) (model_name cfg) (param cfg)) ;;
         paper_entry <- lift (Paper_new (paper_kwargs cfg (derive_id cfg title)
                                           (PdfParser.clean_text title)
                                           url pdf_path text summary)) ;;
         db_add_entry paper_entry ;;
         sleep (delay cfg) ;;
         ret Persisted) s.
Proof. reflexivity. Qed.

(** The skip: a stored row with the [id] of the entry and a summary. *)
Lemma process_paper_skipped (w : World) (cfg : Config) (title : string)
    (url : option string) (s : state) :
  already_processed (existing cfg s title) = true ->
  process_paper w cfg (title, url) s
  = Some (Ok Skipped,
          logged s [EQuery (id_filter cfg title);
                    EPrint ("Skipping " +:+ title +:+ ", already processed.")]).
Proof.
  intros Hskip. rewrite process_paper_unfold.
  unfold bind at 1. rewrite db_get_papers_id, Hskip.
  unfold bind, print, emit, ret, logged. simpl. by rewrite <- app_assoc.
Qed.

Lemma existing_stored (cfg : Config) (s : state) (title : string) (stored : Paper) :
  unique_ids (db s) -> stored ∈ db s ->
  attr stored "id" = VStr (derive_id cfg title) ->
  existing cfg s title = [stored].
Proof.
  intros Hkey Hin Hid. unfold existing. rewrite <- Hid.
  by apply SqlFacts.filter_key_singleton.
Qed.

(** Line 78 always raises: [conference] is no column of [Paper]. *)
Lemma paper_kwargs_rejected (cfg : Config) (processed_id processed_title : string)
    (url : option string) (pdf_path text summary : string) :
  Paper_new (paper_kwargs cfg processed_id processed_title url pdf_path text summary)
  = Raised (TypeError "'conference' is an invalid keyword argument for Paper").
Proof. reflexivity. Qed.

(** C1. Resume skip law: when the store, in which [id] is a key, holds a
    record with the [id] derived from a listing entry and with a summary
    that is not empty, the body of the loop ends as [Skipped] for that
    entry: it makes the query, prints the skip line and nothing else, so
    no download, no text extraction and no summarization happen, the table
    and the files are as before, and the loop goes on with the next entry. *)
Theorem resume_skip_law (w : World) (cfg : Config) (s : state)
    (title : string) (url : option string) (stored : Paper)
    (rest : list (string * option string)) :
  unique_ids (db s) ->
  stored ∈ db s ->
  attr stored "id" = VStr (derive_id cfg title) ->
  truthy (attr stored "summary") = true ->
  let s' := logged s [EQuery (id_filter cfg title);
                      EPrint ("Skipping " +:+ title +:+ ", already processed.")] in
  process_paper w cfg (title, url) s = Some (Ok Skipped, s')
  /\ db s' = db s /\ fs s' = fs s
  /\ process_papers w cfg ((title, url) :: rest) s
     = (os <- process_papers w cfg rest ;; ret (Skipped :: os)) s'.
Proof.
  intros Hkey Hin Hid Hsum s'.
  assert (Hskip : process_paper w cfg (title, url) s = Some (Ok Skipped, s')).
  { apply process_paper_skipped.
    rewrite (existing_stored cfg s title stored) by done. exact Hsum. }
  split; [exact Hskip|]. split; [done|]. split; [done|].
  cbn [process_papers]. unfold bind at 1. by rewrite Hskip.
Qed.

(** *** The downloader *)

(** The state after a download to [path]. *)
Definition stored_file (s : state) (path : string) (data : list Byte.byte)
    (evs : list event) : state :=
  {| db := db s; fs := <[path := data]> (fs s); trace := trace s ++ evs |}.

Lemma download_pdf_response (w : World) (filename : string) (url : option string)
    (output_dir : string) (s : state) (resp : response) :
  requests_get_py w url = Ok resp ->
  download_pdf w filename url output_dir s
  = if status_code resp =? 200 then
      let path := path_join output_dir filename in
      match open_wb w path with
      | Ok _ =>
          Some (Ok (Some path),
                stored_file s path (content resp)
                  [EHttpGet (str_opt url); EWriteFile path])
      | Raised e => Some (Raised e, logged s [EHttpGet (str_opt url)])
      end
    else Some (Ok None, logged s [EHttpGet (str_opt url)]).
Proof.
  intros Hget. unfold download_pdf, bind, emit, lift. rewrite Hget.
  destruct (status_code resp =? 200); [|reflexivity].
  cbv zeta. unfold write_file, bind, lift.
  destruct (open_wb w (path_join output_dir filename)) as [[]|e]; [|reflexivity].
  unfold ret, stored_file. simpl. by rewrite <- app_assoc.
Qed.

Lemma download_pdf_raises (w : World) (filename : string) (url : option string)
    (output_dir : string) (s : state) (e : exn) :
  requests_get_py w url = Raised e ->
  download_pdf w filename url output_dir s
  = Some (Raised e, logged s [EHttpGet (str_opt url)]).
Proof. intros Hget. unfold download_pdf, bind, emit, lift. by rewrite Hget. Qed.

Lemma path_join_plain (a b : string) :
  String.prefix "/" b = false -> ends_with_sep a = false -> a <> "" ->
  path_join a b = a +:+ "/" +:+ b.
Proof.
  intros Hrel Hsep Hne. unfold path_join. rewrite Hrel, Hsep.
  destruct (String.eqb_spec a ""); done.
Qed.

(** C7. [download_pdf(filename, url, output_dir)], when [requests.get]
    returns a response.  With status 200, if [open] of
    [os.path.join(output_dir, filename)] for writing succeeds, the body of
    the response is what that file holds afterwards, the other files and
    the table are as before and the path is returned; if [open] raises, the
    exception leaves [download_pdf] and files and table are as before.
    With any other status the value is [None], no exception is raised, the
    files are as before and nothing but the request is logged.  The path is
    [output_dir/filename] whenever [filename] is relative and [output_dir]
    is not empty and has no trailing separator. *)
Theorem download_pdf_contract (w : World) (filename url output_dir : string)
    (s : state) (resp : response) :
  requests_get w url = Ok resp ->
  (status_code resp = 200 ->
   open_wb w (path_join output_dir filename) = Ok tt ->
   exists s', download_pdf w filename (Some url) output_dir s
              = Some (Ok (Some (path_join output_dir filename)), s')
              /\ fs s' !! path_join output_dir filename = Some (content resp)
              /\ (forall p, p <> path_join output_dir filename -> fs s' !! p = fs s !! p)
              /\ db s' = db s)
  /\ (forall e, status_code resp = 200 ->
      open_wb w (path_join output_dir filename) = Raised e ->
      exists s', download_pdf w filename (Some url) output_dir s = Some (Raised e, s')
                 /\ fs s' = fs s /\ db s' = db s)
  /\ (status_code resp <> 200 ->
      exists s', download_pdf w filename (Some url) output_dir s = Some (Ok None, s')
                 /\ fs s' = fs s /\ db s' = db s
                 /\ trace s' = trace s ++ [EHttpGet url])
  /\ (String.prefix "/" filename = false -> ends_with_sep output_dir = false ->
      output_dir <> "" ->
      path_join output_dir filename = output_dir +:+ "/" +:+ filename).
Proof.
  intros Hget.
  rewrite (download_pdf_response w filename (Some url) output_dir s resp Hget).
  split; [|split; [|split]].
  - intros -> Hopen. simpl. rewrite Hopen. eexists. split; [reflexivity|]. simpl.
    split; [by rewrite lookup_insert_eq|]. split; [|done].
    intros p Hp. by rewrite lookup_insert_ne.
  - intros e -> Hopen. simpl. rewrite Hopen. eexists. split; [reflexivity|]. done.
  - intros Hst. destruct (Z.eqb_spec (status_code resp) 200); [done|].
    eexists. split; [reflexivity|]. done.
  - apply path_join_plain.
Qed.

(** *** Identifier derivation *)

(** The normalized title in the words of the specification, in one pass:
    a character outside the printable ASCII range is dropped, a run of
    whitespace gives one separator, any other character is kept.  [in_run]
    tells that the separator of the current run is already there. *)
Fixpoint spec_normalize (in_run : bool) (title : string) : string :=
  match title with
  | EmptyString => EmptyString
  | String c rest =>
      if negb (PdfParser.printable c) then spec_normalize in_run rest
      else if isspace c then
        if in_run then spec_normalize true rest
        else String "_" (spec_normalize true rest)
      else String c (spec_normalize false rest)
  end.

Definition spec_normalized_title (title : string) : string :=
  spec_normalize false title.

(** The identifier in the words of the specification. *)
Definition spec_identifier (title conference : string) (year : Z) (track : string)
    (submission_type : option string) (platform : string) : string :=
  spec_normalized_title title +:+ "_" +:+ conference +:+ "_" +:+ str_int year
    +:+ "_" +:+ track +:+ "_" +:+ str_opt submission_type +:+ "_" +:+ platform.

(** A character that is no whitespace is not the space. *)
Lemma not_space (c : ascii) : isspace c = false -> Ascii.eqb c " " = false.
Proof.
  destruct c as [[] [] [] [] [] [] [] []]; vm_compute; congruence.
Qed.

Lemma normalize_agrees (title : string) :
  forall in_run,
    replace1 " " "_"
      (PdfParser.collapse_whitespace in_run (PdfParser.strip_unprintable title))
    = spec_normalize in_run title.
Proof.
  induction title as [|c rest IH]; intros in_run; [reflexivity|].
  cbn [PdfParser.strip_unprintable spec_normalize].
  destruct (PdfParser.printable c); cbn [negb]; [|apply IH].
  cbn [PdfParser.collapse_whitespace].
  destruct (isspace c) eqn:Hsp.
  - destruct in_run; [apply IH|]. cbn. by rewrite IH.
  - cbn [replace1]. by rewrite (not_space c Hsp), IH.
Qed.

Lemma normalized_title_agrees (title : string) :
  replace1 " " "_" (PdfParser.clean_text title) = spec_normalized_title title.
Proof. apply normalize_agrees. Qed.

(** C8. The identifier is a function of the title, the conference, the
    year, the track, the submission type and the platform alone: two
    configurations that agree on these give the same identifier to a title;
    and it is the normalized title (the characters outside the printable
    ASCII range stripped, the whitespace replaced by a single separator [_])
    followed by [_conference_year_track_submissionType_platform]. *)
Theorem derive_id_deterministic_and_shaped :
  (forall (cfg : Config) (title : string),
      derive_id cfg title
      = spec_identifier title (conference cfg) (year cfg) (track cfg)
          (submission_type cfg) (platform cfg))
  /\ (forall (cfg cfg' : Config) (title title' : string),
      (title, conference cfg, year cfg, track cfg, submission_type cfg, platform cfg)
      = (title', conference cfg', year cfg', track cfg', submission_type cfg',
         platform cfg') ->
      derive_id cfg title = derive_id cfg' title').
Proof.
  split.
  - intros cfg title. unfold derive_id, spec_identifier.
    by rewrite normalized_title_agrees.
  - intros cfg cfg' title title' [= -> Hc Hy Ht Hs Hp]. unfold derive_id.
    by rewrite Hc, Hy, Ht, Hs, Hp.
Qed.

(** *** The body of the loop, path by path *)

Lemma append_nonempty (a b : string) : b <> "" -> a +:+ b <> "".
Proof. destruct a; simpl; [done|discriminate]. Qed.

(** The path that [download_pdf] returns to [main] is never empty. *)
Lemma pdf_path_truthy (output_dir processed_id : string) :
  no_path (Some (path_join output_dir (processed_id +:+ ".pdf"))) = false.
Proof.
  assert (Hfile : processed_id +:+ ".pdf" <> "") by (by apply append_nonempty).
  unfold no_path, path_join. apply String.eqb_neq.
  destruct (String.prefix "/" _); [done|].
  destruct (_ || _); repeat apply append_nonempty; done.
Qed.

Definition skip_line (title : string) : event :=
  EPrint ("Skipping " +:+ title +:+ ", already processed.").

Definition failed_line (title : string) : event :=
  EPrint ("Failed to download " +:+ title +:+ ".").

(** Where the file of [title] goes. *)
Definition pdf_path_of (cfg : Config) (title : string) : string :=
  path_join (output_dir cfg) (derive_id cfg title +:+ ".pdf").

(** The body of the loop as a decision tree over what the store, the
    server, the parser and the summarizer answer. *)
Lemma process_paper_paths (w : World) (cfg : Config) (title : string)
    (url : option string) (s : state) :
  process_paper w cfg (title, url) s
  = let q := EQuery (id_filter cfg title) in
    let get := EHttpGet (str_opt url) in
    if already_processed (existing cfg s title) then
      Some (Ok Skipped, logged s [q; skip_line title])
    else
      match requests_get_py w url with
      | Raised e => Some (Raised e, logged s [q; get])
      | Ok resp =>
          if status_code resp =? 200 then
            let path := pdf_path_of cfg title in
            match open_wb w path with
            | Raised e => Some (Raised e, logged s [q; get])
            | Ok _ =>
                let s1 := stored_file s path (content resp)
                            [q; get; EWriteFile path] in
                match parse_and_clean_pdf w path (fs s1) with
                | Raised e => Some (Raised e, logged s1 [EParse path])
                | Ok text =>
                    let text := cap_content cfg text in
                    let s2 := logged s1 [EParse path; ESummarize text] in
                    match summarize_text w (prefix cfg) (suffix cfg) text
                            (provider cfg) (model_name cfg) (param cfg) with
                    | Raised e => Some (Raised e, s2)
                    | Ok _ =>
                        Some (Raised (TypeError
                                "'conference' is an invalid keyword argument for Paper"),
                              s2)
                    end
                end
            end
          else Some (Ok DownloadFailed, logged s [q; get; failed_line title])
      end.
Proof.
  cbv zeta. destruct (already_processed (existing cfg s title)) eqn:Hskip.
  { by apply process_paper_skipped. }
  rewrite process_paper_unfold.
  unfold bind at 1. rewrite db_get_papers_id, Hskip.
  unfold bind at 1.
  destruct (requests_get_py w url) as [resp|e] eqn:Hget.
  2:{ rewrite (download_pdf_raises _ _ _ _ _ _ Hget). by rewrite logged_app. }
  rewrite (download_pdf_response _ _ _ _ _ _ Hget).
  destruct (status_code resp =? 200).
  2:{ rewrite logged_app. unfold bind, print, emit, ret, logged, failed_line. simpl.
      by rewrite <- app_assoc. }
  cbv zeta. fold (pdf_path_of cfg title).
  destruct (open_wb w (pdf_path_of cfg title)) as [[]|e].
  2:{ by rewrite logged_app. }
  unfold pdf_path_of at 1.
  rewrite pdf_path_truthy. fold (pdf_path_of cfg title).
  cbn [default]. unfold bind, emit, lift, ret, stored_file, logged. cbn [db fs trace].
  destruct (parse_and_clean_pdf w _ _) as [text|e]; cbn [db fs trace].
  2:{ by rewrite <- !app_assoc. }
  destruct (summarize_text w _ _ _ _ _ _) as [summary|e]; cbn [db fs trace].
  2:{ by rewrite <- !app_assoc. }
  rewrite paper_kwargs_rejected. by rewrite <- !app_assoc.
Qed.

(** The loop goes on with the state in which the body ended. *)
Lemma process_papers_cons (w : World) (cfg : Config) (entry : string * option string)
    (rest : list (string * option string)) (s s' : state) (o : outcome) :
  process_paper w cfg entry s = Some (Ok o, s') ->
  process_papers w cfg (entry :: rest) s
  = (os <- process_papers w cfg rest ;; ret (o :: os)) s'.
Proof. intros H. cbn [process_papers]. unfold bind at 1. by rewrite H. Qed.

(** An exception in the body ends the loop. *)
Lemma process_papers_raised (w : World) (cfg : Config) (entry : string * option string)
    (rest : list (string * option string)) (s s' : state) (e : exn) :
  process_paper w cfg entry s = Some (Raised e, s') ->
  process_papers w cfg (entry :: rest) s = Some (Raised e, s').
Proof. intros H. cbn [process_papers]. unfold bind at 1. by rewrite H. Qed.

(** *** A listing of two papers *)

Module Scenario.
Import Scraper.

Definition url_a : string := "http://x/a.pdf".
Definition url_b : string := "http://x/b.pdf".

Definition cfg : Config := {|
  platform := "openreview"; conference := "ICLR"; year := 2024;
  track := "Conference"; submission_type := Some "oral";
  delay := 2; output_dir := "papers"; content_cap := Some 9;
  provider := "openai"; model_name := "gpt"; prefix := "Summarize:"; suffix := "";
  param := []
|}.

Definition note (title url : string) : Note :=
  {| h4_text := Ok title; pdf_links := Ok [Ok (Some url)] |}.

(** One page with the two papers, whose height settles after one scroll and
    which has no next-page control. *)
Definition page : Page := {|
  wait_for_note := Ok tt;
  scroll_height := fun k => Ok (if (k =? 0)%nat then 900 else 1800);
  scroll_to_bottom := fun _ => Ok tt;
  find_notes := Ok [note "Paper A" url_a; note "Paper B" url_b];
  find_next_button := Raised (External "NoSuchElementException")
|}.

Definition session : Session := {|
  firefox_version := Ok "Mozilla Firefox 115.0esr";
  geckodriver_path := Ok "/usr/local/bin/geckodriver";
  new_firefox := Ok tt;
  sys_platform := "linux";
  sys_version := "3.11";
  driver_get := fun _ => Ok tt;
  pages := fun _ => page;
  driver_quit := Ok tt
|}.

Definition pdf : list Byte.byte := [Byte.x25; Byte.x50; Byte.x44; Byte.x46].

(** Every request answered with [status] and the same body. *)
Definition server (status : Z) (url : string) : result response :=
  Ok {| status_code := status; content := pdf |}.

(** All collaborators succeed. *)
Definition world_ok : World := {|
  browser := fun _ => session;
  requests_get := server 200;
  parse_and_clean_pdf := fun _ _ => Ok "Text of the paper.";
  summarize_text := fun _ _ _ _ _ _ => Ok "A summary.";
  open_wb := fun _ => Ok tt;
  path_exists := fun _ => true;
  makedirs := fun _ => Ok tt
|}.

(** The server answers 404. *)
Definition world_404 : World := {|
  browser := fun _ => session;
  requests_get := server 404;
  parse_and_clean_pdf := fun _ _ => Ok "Text of the paper.";
  summarize_text := fun _ _ _ _ _ _ => Ok "A summary.";
  open_wb := fun _ => Ok tt;
  path_exists := fun _ => true;
  makedirs := fun _ => Ok tt
|}.

(** The text extractor raises. *)
Definition world_bad_pdf : World := {|
  browser := fun _ => session;
  requests_get := server 200;
  parse_and_clean_pdf := fun _ _ => Raised (External "PdfReadError");
  summarize_text := fun _ _ _ _ _ _ => Ok "A summary.";
  open_wb := fun _ => Ok tt;
  path_exists := fun _ => true;
  makedirs := fun _ => Ok tt
|}.

(** The summarizer raises. *)
Definition world_bad_llm : World := {|
  browser := fun _ => session;
  requests_get := server 200;
  parse_and_clean_pdf := fun _ _ => Ok "Text of the paper.";
  summarize_text := fun _ _ _ _ _ _ => Raised (External "RateLimitError");
  open_wb := fun _ => Ok tt;
  path_exists := fun _ => true;
  makedirs := fun _ => Ok tt
|}.

(** The directory [papers] is there and has no subdirectory: a file is
    opened for writing when its path is [papers/name] for a [name] without
    separator, and [open] raises for any other path. *)
Definition in_papers (path : string) : bool :=
  String.prefix "papers/" path
  && negb (contains "/" (String.substring 7 (String.length path) path)).

Definition world_flat : World := {|
  browser := fun _ => session;
  requests_get := server 200;
  parse_and_clean_pdf := fun _ _ => Ok "Text of the paper.";
  summarize_text := fun _ _ _ _ _ _ => Ok "A summary.";
  open_wb := fun path =>
    if in_papers path then Ok tt else Raised (External "FileNotFoundError");
  path_exists := fun _ => true;
  makedirs := fun _ => Ok tt
|}.

Definition id_a : string := "Paper_A_ICLR_2024_Conference_oral_openreview".

(** A stored row for Paper A with the given summary. *)
Definition row_a (summary : string) : Paper :=
  <["id" := VStr id_a]> (<["title" := VStr "Paper A"]> (<["summary" := VStr summary]> ∅)).

Definition store (rows : table) : state := {| db := rows; fs := ∅; trace := [] |}.

Definition empty_store : state := store [].
Definition partial_store : state := store [row_a ""].
Definition done_store : state := store [row_a "Done."].

End Scenario.

(** C7, as stated, fails.  The server answers 200 with the body of a PDF.
    For the file name [a/b.pdf] and the output directory [papers], which
    has no subdirectory [a], [open] raises [FileNotFoundError]:
    [download_pdf] ends with that exception, not with a path, and writes
    nothing.  For the file name [/tmp/b.pdf], [os.path.join] drops the
    output directory: the body is written at [/tmp/b.pdf] and nothing at
    [papers/tmp/b.pdf]. *)
Lemma download_pdf_open_raises :
  requests_get Scenario.world_flat Scenario.url_a
  = Ok {| status_code := 200; content := Scenario.pdf |}
  /\ (exists s', download_pdf Scenario.world_flat "a/b.pdf" (Some Scenario.url_a)
                   "papers" Scenario.empty_store
                 = Some (Raised (External "FileNotFoundError"), s')
                 /\ fs s' = ∅)
  /\ (exists s', download_pdf Scenario.world_ok "/tmp/b.pdf" (Some Scenario.url_a)
                   "papers" Scenario.empty_store
                 = Some (Ok (Some "/tmp/b.pdf"), s')
                 /\ fs s' !! "/tmp/b.pdf" = Some Scenario.pdf
                 /\ fs s' !! "papers/tmp/b.pdf" = None
                 /\ fs s' !! "papers//tmp/b.pdf" = None).
Proof.
  split; [reflexivity|].
  split; eexists; (split; [vm_compute; reflexivity|]).
  - reflexivity.
  - repeat split; vm_compute; reflexivity.
Qed.

(** C2. At a listing entry for which the store holds nothing, or holds a
    record with an empty summary, and for which the download, the text
    extraction and the summarization all succeed, the body of the loop
    makes the query, the download and the calls of the extractor and of the
    summarizer, and then raises [TypeError] where it builds the record: no
    record is written, and the partial record stays as it was. *)
Theorem retry_ends_in_type_error :
  let tr := [EQuery [("id", VStr Scenario.id_a)];
             EHttpGet Scenario.url_a;
             EWriteFile ("papers/" +:+ Scenario.id_a +:+ ".pdf");
             EParse ("papers/" +:+ Scenario.id_a +:+ ".pdf");
             ESummarize "Text of t"] in
  let e := TypeError "'conference' is an invalid keyword argument for Paper" in
  (exists s', process_papers Scenario.world_ok Scenario.cfg
                [("Paper A", Some Scenario.url_a)] Scenario.empty_store
              = Some (Raised e, s')
              /\ db s' = [] /\ trace s' = tr)
  /\ (exists s', process_papers Scenario.world_ok Scenario.cfg
                   [("Paper A", Some Scenario.url_a)] Scenario.partial_store
                 = Some (Raised e, s')
                 /\ db s' = [Scenario.row_a ""] /\ trace s' = tr).
Proof.
  cbv zeta. split; eexists; (split; [vm_compute; reflexivity|]);
    split; vm_compute; reflexivity.
Qed.

(** What the body of the loop emits, whatever way it ends: the events come
    after those of the state it started in, none is an insert or a sleep,
    and the table is not touched. *)
Definition quiet (ev : event) : Prop :=
  (forall d, ev <> ESleep d) /\ (forall v, ev <> EInsert v).

Lemma process_paper_footprint (w : World) (cfg : Config) (entry : string * option string)
    (s : state) :
  exists r s' evs,
    process_paper w cfg entry s = Some (r, s')
    /\ r <> Ok Persisted
    /\ db s' = db s
    /\ trace s' = trace s ++ evs
    /\ Forall quiet evs.
Proof.
  destruct entry as [title url]. rewrite process_paper_paths. cbv zeta.
  assert (Hq : forall evs, Forall quiet evs ->
                 Forall quiet (EQuery (id_filter cfg title) :: evs)).
  { intros evs H. constructor; [done|exact H]. }
  destruct (already_processed _).
  { eexists _, _, _. split; [reflexivity|]. repeat split; try done.
    apply Hq. repeat constructor; done. }
  destruct (requests_get_py w url) as [resp|e].
  2:{ eexists _, _, _. split; [reflexivity|]. repeat split; try done.
      apply Hq. repeat constructor; done. }
  destruct (status_code resp =? 200).
  2:{ eexists _, _, _. split; [reflexivity|]. repeat split; try done.
      apply Hq. repeat constructor; done. }
  destruct (open_wb w _) as [[]|e].
  2:{ eexists _, _, _. split; [reflexivity|]. repeat split; try done.
      apply Hq. repeat constructor; done. }
  destruct (parse_and_clean_pdf w _ _) as [text|e].
  2:{ eexists _, _, _. split; [reflexivity|]. split; [done|]. split; [done|].
      split; [cbn; by rewrite <- app_assoc|].
      apply Forall_app. split; [apply Hq|]; repeat constructor; done. }
  destruct (summarize_text w _ _ _ _ _ _) as [summary|e];
    (eexists _, _, _; split; [reflexivity|]; split; [done|]; split; [done|];
     split; [cbn; by rewrite <- app_assoc|];
     apply Forall_app; split; [apply Hq|]; repeat constructor; done).
Qed.

(** C9. The record is built at line 78 with the keywords [id], [title],
    [conference], [year], [track], [submission_type], [platform], [pdf_url],
    [pdf_path], [content] and [summary].  The class [Paper] has no column
    [conference], [year], [track] or [submission_type], so the constructor
    raises [TypeError] at [conference], whatever the values; hence no entry
    ends as [Persisted] and no run of the body changes the table. *)
Theorem record_construction_raises :
  (forall cfg processed_id processed_title url pdf_path text summary,
      List.map fst (paper_kwargs cfg processed_id processed_title url pdf_path
                      text summary)
      = ["id"; "title"; "conference"; "year"; "track"; "submission_type";
         "platform"; "pdf_url"; "pdf_path"; "content"; "summary"]
      /\ Paper_new (paper_kwargs cfg processed_id processed_title url pdf_path
                      text summary)
         = Raised (TypeError "'conference' is an invalid keyword argument for Paper"))
  /\ List.filter (fun k => negb (bool_decide (k ∈ Paper_columns)))
       ["id"; "title"; "conference"; "year"; "track"; "submission_type";
        "platform"; "pdf_url"; "pdf_path"; "content"; "summary"]
     = ["conference"; "year"; "track"; "submission_type"]
  /\ (forall w cfg entry s,
      exists r s', process_paper w cfg entry s = Some (r, s')
                   /\ r <> Ok Persisted /\ db s' = db s)
  /\ (exists s', process_papers Scenario.world_ok Scenario.cfg
                   [("Paper A", Some Scenario.url_a); ("Paper B", Some Scenario.url_b)]
                   Scenario.empty_store
                 = Some (Raised (TypeError
                           "'conference' is an invalid keyword argument for Paper"), s')
                 /\ db s' = []).
Proof.
  split; [|split; [|split]].
  - intros. split; reflexivity.
  - vm_compute. reflexivity.
  - intros w cfg entry s.
    destruct (process_paper_footprint w cfg entry s) as (r & s' & evs & H & ? & ? & _).
    by exists r, s'.
  - eexists. split; vm_compute; reflexivity.
Qed.

(** *** Failures within the batch *)

(** C3, as stated, fails.  The listing of two papers is fetched, the text
    extractor raises on the first paper, and [main] ends with that
    exception: the second paper is not looked up and not downloaded, and
    the line that closes the batch is not printed. *)
Lemma extractor_failure_aborts_batch :
  exists s',
    main 5 Scenario.world_bad_pdf Scenario.cfg Scenario.empty_store
    = Some (Raised (External "PdfReadError"), s')
    /\ db s' = []
    /\ (EHttpGet Scenario.url_a ∈ trace s')
    /\ (EHttpGet Scenario.url_b ∉ trace s')
    /\ (EPrint "Found paper: Paper B" ∈ trace s')
    /\ (EPrint "All papers processed." ∉ trace s').
Proof.
  eexists. split; [vm_compute; reflexivity|]. split; [reflexivity|].
  repeat split; (apply (bool_decide_unpack _); vm_compute; exact I).
Qed.

(** C3, amended.  For an entry that is not skipped, at the head of a batch:
    a response with a status other than 200 ends the entry as
    [DownloadFailed], with no record written and no file, and the loop goes
    on with the rest of the batch; once the file of a 200 response is
    written, an exception of the text extractor, or of the summarizer, is
    not caught: it ends the loop there, with no record written and nothing
    done for the rest of the batch. *)
Theorem per_paper_failures (w : World) (cfg : Config) (title url : string)
    (rest : list (string * option string)) (s : state) (resp : response) :
  already_processed (existing cfg s title) = false ->
  requests_get w url = Ok resp ->
  let q := EQuery (id_filter cfg title) in
  let path := pdf_path_of cfg title in
  let s1 := stored_file s path (content resp) [q; EHttpGet url; EWriteFile path] in
  (status_code resp <> 200 ->
   process_papers w cfg ((title, Some url) :: rest) s
   = (os <- process_papers w cfg rest ;; ret (DownloadFailed :: os))
       (logged s [q; EHttpGet url; failed_line title]))
  /\ (forall e, status_code resp = 200 ->
      open_wb w path = Ok tt ->
      parse_and_clean_pdf w path (fs s1) = Raised e ->
      process_papers w cfg ((title, Some url) :: rest) s
      = Some (Raised e, logged s1 [EParse path])
      /\ db (logged s1 [EParse path]) = db s)
  /\ (forall e text, status_code resp = 200 ->
      open_wb w path = Ok tt ->
      parse_and_clean_pdf w path (fs s1) = Ok text ->
      summarize_text w (prefix cfg) (suffix cfg) (cap_content cfg text)
        (provider cfg) (model_name cfg) (param cfg) = Raised e ->
      process_papers w cfg ((title, Some url) :: rest) s
      = Some (Raised e, logged s1 [EParse path; ESummarize (cap_content cfg text)])
      /\ db (logged s1 [EParse path; ESummarize (cap_content cfg text)]) = db s).
Proof.
  intros Hfresh Hget q path s1.
  pose proof (process_paper_paths w cfg title (Some url) s) as Hpaths.
  cbv zeta in Hpaths. cbn [requests_get_py str_opt] in Hpaths.
  rewrite Hfresh, Hget in Hpaths.
  split; [|split].
  - intros Hst. apply process_papers_cons. rewrite Hpaths.
    destruct (Z.eqb_spec (status_code resp) 200); done.
  - intros e Hst Hopen Hparse. split; [|done]. apply process_papers_raised.
    rewrite Hpaths, Hst. simpl (200 =? 200). cbv iota.
    fold path q. rewrite Hopen. fold s1. by rewrite Hparse.
  - intros e text Hst Hopen Hparse Hsum. split; [|done]. apply process_papers_raised.
    rewrite Hpaths, Hst. simpl (200 =? 200). cbv iota.
    fold path q. rewrite Hopen. fold s1. by rewrite Hparse, Hsum.
Qed.

(** *** The delay *)

(** C4, as stated, fails.  With a delay of 2 seconds configured, the paper
    that is skipped as already processed is followed by no sleep, and
    neither is the paper whose download fails: the whole trace of the batch
    is the query and the skip line in the first case, the query, the request
    and the failure line in the second. *)
Lemma no_pause_after_skip_or_failure :
  delay Scenario.cfg = 2
  /\ (exists s', process_papers Scenario.world_ok Scenario.cfg
                   [("Paper A", Some Scenario.url_a)] Scenario.done_store
                 = Some (Ok [Skipped], s')
                 /\ trace s' = [EQuery [("id", VStr Scenario.id_a)];
                                EPrint "Skipping Paper A, already processed."])
  /\ (exists s', process_papers Scenario.world_404 Scenario.cfg
                   [("Paper A", Some Scenario.url_a)] Scenario.empty_store
                 = Some (Ok [DownloadFailed], s')
                 /\ trace s' = [EQuery [("id", VStr Scenario.id_a)];
                                EHttpGet Scenario.url_a;
                                EPrint "Failed to download Paper A."]).
Proof.
  split; [reflexivity|].
  split; eexists; (split; [vm_compute; reflexivity|]); vm_compute; reflexivity.
Qed.

(** What a batch logs when every entry is skipped. *)
Definition skip_events (cfg : Config) (papers : list (string * option string)) : list event :=
  flat_map (fun entry => [EQuery (id_filter cfg entry.1); skip_line entry.1]) papers.

Lemma skip_events_no_sleep (cfg : Config) (papers : list (string * option string)) (d : Z) :
  ESleep d ∉ skip_events cfg papers.
Proof.
  induction papers as [|entry rest IH]; cbn [skip_events flat_map].
  - apply not_elem_of_nil.
  - intros Hin. apply elem_of_app in Hin as [Hin|Hin]; [|by apply IH].
    apply elem_of_cons in Hin as [Heq|Hin]; [done|].
    apply elem_of_cons in Hin as [Heq|Hin]; [done|].
    by apply elem_of_nil in Hin.
Qed.

(** C4, amended.  An entry that is skipped as already processed is followed
    by no pause.  When the store holds a summarized record for every entry
    of a batch, the loop ends every entry as [Skipped] and adds to the trace
    the query and the skip line of each entry, one entry after the other,
    and nothing else: no sleep, whatever delay is configured. *)
Theorem no_pause_after_skipped (w : World) (cfg : Config)
    (papers : list (string * option string)) (s : state) :
  Forall (fun entry => already_processed (existing cfg s entry.1) = true) papers ->
  process_papers w cfg papers s
  = Some (Ok (List.map (fun _ => Skipped) papers), logged s (skip_events cfg papers))
  /\ forall d, ESleep d ∉ skip_events cfg papers.
Proof.
  intros Hall. split; [|intros d; apply skip_events_no_sleep].
  revert s Hall. induction papers as [|[title url] rest IH]; intros s Hall.
  - cbn. unfold logged. rewrite app_nil_r. by destruct s.
  - apply Forall_cons in Hall as [Hhead Hrest]. cbn [fst] in Hhead.
    rewrite (process_papers_cons _ _ _ _ _ _ _
               (process_paper_skipped w cfg title url s Hhead)).
    unfold bind. rewrite IH by exact Hrest. by rewrite logged_app.
Qed.

End MainFacts.

(** ** The listing fetcher *)

Module ScraperFacts.
Import Py Eff Scraper.
Local Open Scope py_scope.

(** The state with more events in the log. *)
Definition slog (s : sstate) (evs : list event) : sstate :=
  {| driver := driver s; log := log s ++ evs |}.

Lemma slog_nil (s : sstate) : slog s [] = s.
Proof. destruct s. unfold slog. simpl. by rewrite app_nil_r. Qed.

Lemma slog_app (s : sstate) (evs evs' : list event) :
  slog (slog s evs) evs' = slog s (evs ++ evs').
Proof. unfold slog. simpl. by rewrite <- app_assoc. Qed.

Lemma call_ok {A} (ev : event) (a : A) (s : sstate) :
  call ev (Ok a) s = Some (Ok a, slog s [ev]).
Proof. reflexivity. Qed.

Lemma call_raised {A} (ev : event) (e : exn) (s : sstate) :
  call (A := A) ev (Raised e) s = Some (Raised e, slog s [ev]).
Proof. reflexivity. Qed.

(** *** The scroll loop *)

(** One pass through the body of the scroll loop: scroll, pause, read. *)
Definition scroll_round : list event :=
  [EScript scroll_script; ESleep 3; EScript height_script].

Fixpoint rounds (n : nat) : list event :=
  match n with
  | O => []
  | S n' => scroll_round ++ rounds n'
  end.

(** The number of scrolls in a list of events. *)
Definition scrolls (evs : list event) : nat :=
  length (List.filter (fun ev => bool_decide (ev = EScript scroll_script)) evs).

Lemma scrolls_app (evs evs' : list event) :
  scrolls (evs ++ evs') = (scrolls evs + scrolls evs')%nat.
Proof. unfold scrolls. by rewrite List.filter_app, length_app. Qed.

Lemma scrolls_rounds (n : nat) : scrolls (rounds n) = n.
Proof.
  induction n as [|n IH]; [reflexivity|].
  cbn [rounds]. rewrite scrolls_app, IH. reflexivity.
Qed.

(** One pass through the loop, below the cap. *)
Lemma scroll_loop_step (fuel : nat) (pg : Page) (last_height scroll_attempts : Z)
    (s : sstate) :
  scroll_attempts < max_scroll_attempts ->
  scroll_loop (S fuel) pg last_height scroll_attempts s
  = match scroll_to_bottom pg (Z.to_nat scroll_attempts) with
    | Raised e => Some (Raised e, slog s [EScript scroll_script])
    | Ok _ =>
        match scroll_height pg (S (Z.to_nat scroll_attempts)) with
        | Raised e => Some (Raised e, slog s scroll_round)
        | Ok new_height =>
            if new_height =? last_height then Some (Ok tt, slog s scroll_round)
            else scroll_loop fuel pg new_height (scroll_attempts + 1)
                   (slog s scroll_round)
        end
    end.
Proof.
  intros Hlt. cbn [scroll_loop].
  destruct (Z.ltb_spec scroll_attempts max_scroll_attempts) as [_|Hge]; [|lia].
  unfold bind at 1.
  destruct (scroll_to_bottom pg _) as [[]|e]; [rewrite call_ok|by rewrite call_raised].
  unfold bind at 1. unfold sleep at 1, emit at 1. cbn [driver log].
  unfold bind at 1.
  destruct (scroll_height pg _) as [new_height|e].
  - rewrite call_ok. unfold slog, ret, scroll_round. cbn [driver log].
    rewrite <- !app_assoc. cbn [app].
    destruct (new_height =? last_height); reflexivity.
  - rewrite call_raised. unfold slog, scroll_round. cbn [driver log].
    by rewrite <- !app_assoc.
Qed.

(** At the cap the loop is over. *)
Lemma scroll_loop_done (fuel : nat) (pg : Page) (last_height scroll_attempts : Z)
    (s : sstate) :
  max_scroll_attempts <= scroll_attempts ->
  scroll_loop fuel pg last_height scroll_attempts s = Some (Ok tt, s).
Proof.
  intros Hge. destruct fuel; cbn [scroll_loop];
    destruct (Z.ltb_spec scroll_attempts max_scroll_attempts); (lia || reflexivity).
Qed.

(** The loop ends whatever the page does: with [n] passes left below the
    cap, [n] units of fuel are enough, more fuel changes nothing, and at
    most [n] scrolls are made. *)
Lemma scroll_loop_bounded (pg : Page) (n : nat) :
  forall (fuel : nat) (last_height scroll_attempts : Z) (s : sstate),
    0 <= scroll_attempts ->
    max_scroll_attempts - scroll_attempts <= Z.of_nat n ->
    (n <= fuel)%nat ->
    exists r evs,
      scroll_loop fuel pg last_height scroll_attempts s = Some (r, slog s evs)
      /\ scroll_loop n pg last_height scroll_attempts s = Some (r, slog s evs)
      /\ (scrolls evs <= n)%nat.
Proof.
  induction n as [|n IH]; intros fuel last_height a s Hpos Hrem Hfuel.
  - exists (Ok tt), []. rewrite slog_nil.
    rewrite !scroll_loop_done by lia. done.
  - destruct (Z.ltb_spec a max_scroll_attempts) as [Hlt|Hge].
    2:{ exists (Ok tt), []. rewrite slog_nil.
        rewrite !scroll_loop_done by lia. split; [done|]. split; [done|]. cbn. lia. }
    destruct fuel as [|fuel]; [lia|].
    rewrite !scroll_loop_step by done.
    destruct (scroll_to_bottom pg _) as [[]|e].
    2:{ exists (Raised e), [EScript scroll_script]. split; [done|]. split; [done|].
        change (scrolls [EScript scroll_script]) with 1%nat. lia. }
    destruct (scroll_height pg _) as [new_height|e].
    2:{ exists (Raised e), scroll_round. split; [done|]. split; [done|].
        change (scrolls scroll_round) with 1%nat. lia. }
    destruct (new_height =? last_height).
    { exists (Ok tt), scroll_round. split; [done|]. split; [done|].
      change (scrolls scroll_round) with 1%nat. lia. }
    destruct (IH fuel new_height (a + 1) (slog s scroll_round))
      as (r & evs & H1 & H2 & Hn); [lia..|].
    exists r, (scroll_round ++ evs). rewrite H1, H2, slog_app.
    split; [done|]. split; [done|].
    rewrite scrolls_app. change (scrolls scroll_round) with 1%nat. lia.
Qed.

Section Heights.
(** A page on which no script raises, with the heights [h 0], [h 1], ...
    read one after the other. *)
Variable pg : Page.
Variable h : nat -> Z.
Hypothesis scroll_ok : forall j, scroll_to_bottom pg j = Ok tt.
Hypothesis height_ok : forall j, scroll_height pg j = Ok (h j).

Lemma scroll_loop_next (fuel a : nat) (s : sstate) :
  (a < 10)%nat ->
  scroll_loop (S fuel) pg (h a) (Z.of_nat a) s
  = if h (S a) =? h a then Some (Ok tt, slog s scroll_round)
    else scroll_loop fuel pg (h (S a)) (Z.of_nat (S a)) (slog s scroll_round).
Proof.
  intros Ha. rewrite scroll_loop_step by (unfold max_scroll_attempts; lia).
  rewrite Nat2Z.id, scroll_ok, height_ok.
  by replace (Z.of_nat a + 1) with (Z.of_nat (S a)) by lia.
Qed.

(** The height is first unchanged at the scroll number [a + m]. *)
Lemma scroll_loop_settles (m : nat) :
  forall (a fuel : nat) (s : sstate),
    (a + m < 10)%nat -> (m < fuel)%nat ->
    (forall j, (a <= j < a + m)%nat -> h (S j) <> h j) ->
    h (S (a + m)) = h (a + m) ->
    scroll_loop fuel pg (h a) (Z.of_nat a) s = Some (Ok tt, slog s (rounds (S m))).
Proof.
  induction m as [|m IH]; intros a fuel s Hcap Hfuel Hgrow Hsame;
    (destruct fuel as [|fuel]; [lia|]); rewrite scroll_loop_next by lia.
  - rewrite Nat.add_0_r in Hsame. rewrite Hsame, Z.eqb_refl.
    cbn [rounds]. by rewrite app_nil_r.
  - destruct (Z.eqb_spec (h (S a)) (h a)) as [Heq|_].
    { exfalso. apply (Hgrow a); [lia|done]. }
    rewrite (IH (S a) fuel); [by rewrite slog_app|lia|lia| |].
    + intros j Hj. apply Hgrow. lia.
    + by replace (S a + m)%nat with (a + S m)%nat by lia.
Qed.

(** The height changes at every scroll up to the cap. *)
Lemma scroll_loop_capped (m : nat) :
  forall (a fuel : nat) (s : sstate),
    (a + m = 10)%nat -> (m <= fuel)%nat ->
    (forall j, (a <= j < 10)%nat -> h (S j) <> h j) ->
    scroll_loop fuel pg (h a) (Z.of_nat a) s = Some (Ok tt, slog s (rounds m)).
Proof.
  induction m as [|m IH]; intros a fuel s Hcap Hfuel Hgrow.
  - rewrite scroll_loop_done by (unfold max_scroll_attempts; lia).
    by rewrite slog_nil.
  - destruct fuel as [|fuel]; [lia|]. rewrite scroll_loop_next by lia.
    destruct (Z.eqb_spec (h (S a)) (h a)) as [Heq|_].
    { exfalso. apply (Hgrow a); [lia|done]. }
    rewrite (IH (S a) fuel); [by rewrite slog_app|lia|lia|].
    intros j Hj. apply Hgrow. lia.
Qed.

Lemma scroll_page_first_read (s : sstate) :
  scroll_page pg s
  = scroll_loop (Z.to_nat max_scroll_attempts) pg (h 0%nat) 0
      (slog s [EScript height_script]).
Proof. unfold scroll_page, bind. by rewrite height_ok, call_ok. Qed.
End Heights.

(** C6. The scroll loop of a page always ends.  Whatever the scripts
    return or raise, the loop started below the cap ends with 10 units of
    fuel, one for each pass, more fuel giving the same outcome, and it makes
    at most 10 scrolls; so do, as a whole, lines 125 to 136.  On a page
    whose scripts do not raise, the loop stops right after the first scroll
    that leaves the height unchanged, and when the height changes at every
    scroll it stops after exactly 10 passes. *)
Theorem scroll_loop_terminates (pg : Page) (s : sstate) :
  (forall (fuel : nat) (last_height : Z),
      (10 <= fuel)%nat ->
      exists r evs,
        scroll_loop fuel pg last_height 0 s = Some (r, slog s evs)
        /\ scroll_loop (Z.to_nat max_scroll_attempts) pg last_height 0 s
           = Some (r, slog s evs)
        /\ (scrolls evs <= 10)%nat)
  /\ (exists r evs, scroll_page pg s = Some (r, slog s evs) /\ (scrolls evs <= 10)%nat)
  /\ (forall (h : nat -> Z),
      (forall j, scroll_to_bottom pg j = Ok tt) ->
      (forall j, scroll_height pg j = Ok (h j)) ->
      (forall k, (k < 10)%nat ->
                 (forall j, (j < k)%nat -> h (S j) <> h j) ->
                 h (S k) = h k ->
                 scroll_page pg s
                 = Some (Ok tt, slog s (EScript height_script :: rounds (S k))))
      /\ ((forall j, (j < 10)%nat -> h (S j) <> h j) ->
          scroll_page pg s
          = Some (Ok tt, slog s (EScript height_script :: rounds 10)))).
Proof.
  split; [|split].
  - intros fuel last_height Hfuel.
    apply (scroll_loop_bounded pg 10); unfold max_scroll_attempts; lia.
  - unfold scroll_page, bind.
    destruct (scroll_height pg 0) as [last_height|e].
    + rewrite call_ok.
      destruct (scroll_loop_bounded pg 10 10 last_height 0
                  (slog s [EScript height_script]))
        as (r & evs & _ & H & Hn); [unfold max_scroll_attempts; lia..|].
      exists r, (EScript height_script :: evs).
      change (Z.to_nat max_scroll_attempts) with 10%nat.
      rewrite H, slog_app. split; [done|].
      change (EScript height_script :: evs) with ([EScript height_script] ++ evs).
      rewrite scrolls_app. change (scrolls [EScript height_script]) with 0%nat. lia.
    + rewrite call_raised. exists (Raised e), [EScript height_script].
      split; [done|]. change (scrolls [EScript height_script]) with 0%nat. lia.
  - intros h Hscroll Hheight. split.
    + intros k Hk Hgrow Hsame.
      rewrite (scroll_page_first_read pg h Hheight).
      rewrite (scroll_loop_settles pg h Hscroll Hheight k 0%nat);
        [by rewrite slog_app| simpl; lia | unfold max_scroll_attempts; simpl; lia | |].
      * intros j Hj. apply Hgrow. lia.
      * done.
    + intros Hgrow.
      rewrite (scroll_page_first_read pg h Hheight).
      rewrite (scroll_loop_capped pg h Hscroll Hheight 10 0%nat);
        [by rewrite slog_app| done | done |].
      intros j Hj. apply Hgrow. lia.
Qed.

(** *** The retry loop *)

(** The events that make the schedule of the retries: the calls of
    [setup_firefox_driver] and the sleeps of 5 seconds. *)
Definition key (ev : event) : bool :=
  match ev with
  | ESetupDriver _ => true
  | ESleep secs => secs =? 5
  | _ => false
  end.

Definition skeleton (evs : list event) : list event := List.filter key evs.

Lemma skeleton_app (evs evs' : list event) :
  skeleton (evs ++ evs') = skeleton evs ++ skeleton evs'.
Proof. apply List.filter_app. Qed.

(** [marks sk m]: whatever way [m] ends, it only adds events to the log, and
    those of the schedule among them are [sk]. *)
Definition marks {A} (sk : list event) (m : M sstate A) : Prop :=
  forall s r s', m s = Some (r, s') ->
                 exists evs, log s' = log s ++ evs /\ skeleton evs = sk.

Abbreviation silent := (marks []).

Lemma silent_ret {A} (a : A) : silent (ret a).
Proof. intros s r s' [= <- <-]. exists []. by rewrite app_nil_r. Qed.

Lemma silent_raise {A} (e : exn) : silent (raise (A := A) e).
Proof. intros s r s' [= <- <-]. exists []. by rewrite app_nil_r. Qed.

Lemma silent_lift {A} (x : result A) : silent (lift x).
Proof. intros s r s' [= <- <-]. exists []. by rewrite app_nil_r. Qed.

Lemma silent_emit (ev : event) : key ev = false -> silent (emit ev).
Proof.
  intros Hk s r s' [= <- <-]. exists [ev]. split; [done|].
  unfold skeleton. simpl. by rewrite Hk.
Qed.

Lemma silent_print (line : string) : silent (print line).
Proof. by apply silent_emit. Qed.

Lemma silent_set_driver (d : nat) : silent (set_driver d).
Proof. intros s r s' [= <- <-]. exists []. by rewrite app_nil_r. Qed.

Lemma marks_bind {A B} (sk : list event) (m : M sstate A) (k : A -> M sstate B) :
  marks sk m -> (forall a, silent (k a)) -> marks sk (bind m k).
Proof.
  intros Hm Hk s r s' Hrun. unfold bind in Hrun.
  destruct (m s) as [[[a|e] s1]|] eqn:Hms; [| |done].
  - destruct (Hm _ _ _ Hms) as (evs1 & Hl1 & Hs1).
    destruct (Hk a _ _ _ Hrun) as (evs2 & Hl2 & Hs2).
    exists (evs1 ++ evs2). split.
    + by rewrite Hl2, Hl1, app_assoc.
    + by rewrite skeleton_app, Hs1, Hs2, app_nil_r.
  - injection Hrun as <- <-. by apply (Hm _ _ _ Hms).
Qed.

Lemma silent_try_except {A} (m : M sstate A) (h : exn -> M sstate A) :
  silent m -> (forall e, silent (h e)) -> silent (try_except m h).
Proof.
  intros Hm Hh s r s' Hrun. unfold try_except in Hrun.
  destruct (m s) as [[[a|e] s1]|] eqn:Hms; [| |done].
  - injection Hrun as <- <-. by apply (Hm _ _ _ Hms).
  - destruct (Hm _ _ _ Hms) as (evs1 & Hl1 & Hs1).
    destruct (Hh e _ _ _ Hrun) as (evs2 & Hl2 & Hs2).
    exists (evs1 ++ evs2). split.
    + by rewrite Hl2, Hl1, app_assoc.
    + by rewrite skeleton_app, Hs1, Hs2.
Qed.

(** An event of the schedule, then a silent computation. *)
Lemma marks_emit_then {A} (ev : event) (k : M sstate A) :
  key ev = true -> silent k -> marks [ev] (emit ev ;; k)%py.
Proof.
  intros Hk Hs s r s' Hrun. unfold bind, emit in Hrun.
  destruct (Hs _ _ _ Hrun) as (evs & Hl & Hsk). cbn [log] in Hl.
  exists (ev :: evs). split.
  - by rewrite Hl, <- app_assoc.
  - unfold skeleton in *. simpl. by rewrite Hk, Hsk.
Qed.

(** A line printed first changes nothing to the schedule. *)
Lemma marks_print_then {A} (sk : list event) (line : string) (k : M sstate A) :
  marks sk k -> marks sk (print line ;; k)%py.
Proof.
  intros Hm s r s' Hrun. unfold bind, print, emit in Hrun.
  destruct (Hm _ _ _ Hrun) as (evs & Hl & Hsk). cbn [log] in Hl.
  exists (EPrint line :: evs). split.
  - by rewrite Hl, <- app_assoc.
  - unfold skeleton in *. by simpl.
Qed.

Create HintDb silent.
#[local] Hint Resolve silent_ret silent_raise silent_lift silent_print
  silent_set_driver : silent.

Ltac silence :=
  repeat match goal with
         | |- marks [] (bind _ _) => apply marks_bind; [|intro]
         | |- marks [] (try_except _ _) => apply silent_try_except; [|intro]
         | |- marks [] (call _ _) => unfold call
         | |- marks [] (sleep _) => unfold sleep
         | |- marks [] (emit _) => apply silent_emit; reflexivity
         | |- marks [] (if ?b then _ else _) => destruct b
         | |- marks [] (match ?x with _ => _ end) => destruct x
         | |- marks [] _ => solve [auto with silent]
         end.

Lemma silent_scroll_loop (pg : Page) (fuel : nat) :
  forall last_height scroll_attempts,
    silent (scroll_loop fuel pg last_height scroll_attempts).
Proof.
  induction fuel as [|fuel IH]; intros last_height a; cbn [scroll_loop].
  - destruct (a <? max_scroll_attempts); [done|apply silent_ret].
  - silence; apply IH.
Qed.

Lemma silent_scroll_page (pg : Page) : silent (scroll_page pg).
Proof. unfold scroll_page. silence; apply silent_scroll_loop. Qed.

Lemma silent_extract_notes (notes : list Note) :
  forall papers, silent (extract_notes notes papers).
Proof.
  induction notes as [|n notes IH]; intros papers; cbn [extract_notes].
  - apply silent_ret.
  - apply marks_bind; [|intros; apply IH]. unfold extract_note. silence.
Qed.

Lemma silent_next_page (pg : Page) : silent (next_page pg).
Proof. unfold next_page. silence. Qed.

Lemma silent_page_loop (b : Session) (fuel : nat) :
  forall page_number papers, silent (page_loop fuel b page_number papers).
Proof.
  induction fuel as [|fuel IH]; intros page_number papers; cbn [page_loop].
  - done.
  - silence; auto using silent_scroll_page, silent_extract_notes, silent_next_page.
Qed.

Lemma silent_check_firefox_installation (b : Session) :
  silent (check_firefox_installation b).
Proof. unfold check_firefox_installation. silence. Qed.

(** Every attempt calls [setup_firefox_driver] once, and does not sleep
    5 seconds. *)
Lemma attempt_marks (page_fuel : nat) (br : Browser) (url : string)
    (max_retries : Z) (i : nat) :
  marks [ESetupDriver i] (attempt page_fuel br url max_retries (Z.of_nat i)).
Proof.
  unfold attempt. rewrite Nat2Z.id.
  do 2 apply marks_print_then.
  apply marks_bind.
  - unfold setup_firefox_driver. apply marks_emit_then; [done|].
    apply marks_bind; [apply silent_check_firefox_installation|].
    intros installed. silence.
  - intros d. silence; apply silent_page_loop.
Qed.

(** What the [finally] clause logs, by the value of [driver]. *)
Definition teardown_events (br : Browser) (d : option nat) : list event :=
  match d with
  | None => []
  | Some d =>
      match driver_quit (br d) with
      | Ok _ => [EQuit d]
      | Raised e => [EQuit d; EPrint ("Error closing driver: " +:+ str_exn e)]
      end
  end.

(** The [finally] clause never raises. *)
Lemma teardown_run (br : Browser) (s : sstate) :
  teardown br s = Some (Ok tt, slog s (teardown_events br (driver s))).
Proof.
  unfold teardown, teardown_events. destruct (driver s) as [d|].
  - unfold try_except. destruct (driver_quit (br d)) as [[]|e].
    + by rewrite call_ok.
    + rewrite call_raised. unfold print, emit, slog. cbn [driver log].
      by rewrite <- app_assoc.
  - unfold ret. by rewrite slog_nil.
Qed.

Lemma teardown_events_silent (br : Browser) (d : option nat) :
  skeleton (teardown_events br d) = [].
Proof.
  unfold teardown_events. destruct d as [d|]; [|done].
  destruct (driver_quit (br d)); done.
Qed.

Definition error_line (retry_count : Z) (e : exn) : event :=
  EPrint ("Error during scraping (attempt " +:+ str_int (retry_count + 1) +:+ "): "
          +:+ str_exn e).

(** One pass through the retry loop when the attempt raises [e]. *)
Lemma failed_pass (page_fuel : nat) (br : Browser) (url : string)
    (max_retries retry_count : Z) (s s1 : sstate) (e : exn) :
  attempt page_fuel br url max_retries retry_count s = Some (Raised e, s1) ->
  try_finally
    (try_except
       (papers <- attempt page_fuel br url max_retries retry_count ;;
        ret (Return papers))
       (on_error max_retries retry_count))
    (teardown br) s
  = if retry_count + 1 <? max_retries then
      Some (Ok (Again (retry_count + 1)),
            slog s1 ([error_line retry_count e; EPrint "Retrying..."; ESleep 5]
                     ++ teardown_events br (driver s1)))
    else
      Some (Raised e,
            slog s1 ([error_line retry_count e;
                      EPrint "Max retries reached. Giving up."]
                     ++ teardown_events br (driver s1))).
Proof.
  intros Hfail. unfold try_finally, try_except, bind at 1. rewrite Hfail.
  unfold on_error. fold (error_line retry_count e).
  destruct (retry_count + 1 <? max_retries).
  - unfold bind, print, sleep, emit, ret. cbn [driver log].
    rewrite teardown_run. cbn [driver]. unfold slog. cbn [driver log].
    by rewrite <- !app_assoc.
  - unfold bind, print, emit, raise. cbn [driver log].
    rewrite teardown_run. cbn [driver]. unfold slog. cbn [driver log].
    by rewrite <- !app_assoc.
Qed.

(** The schedule of [remaining] failed attempts, the first of which has the
    number [first]: a call of [setup_firefox_driver] for each, and a sleep
    of 5 seconds between two of them. *)
Fixpoint backoff_schedule (first remaining : nat) : list event :=
  match remaining with
  | O => []
  | S O => [ESetupDriver first]
  | S r => ESetupDriver first :: ESleep 5 :: backoff_schedule (S first) r
  end.

Definition is_setup (ev : event) : bool :=
  match ev with ESetupDriver _ => true | _ => false end.

Definition is_backoff (ev : event) : bool := bool_decide (ev = ESleep 5).

Lemma backoff_schedule_counts (remaining : nat) :
  forall first,
    length (List.filter is_setup (backoff_schedule first remaining)) = remaining
    /\ length (List.filter is_backoff (backoff_schedule first remaining))
       = (remaining - 1)%nat.
Proof.
  induction remaining as [|[|r] IH]; intros first; [done|done|].
  destruct (IH (S first)) as [H1 H2].
  change (backoff_schedule first (S (S r)))
    with (ESetupDriver first :: ESleep 5 :: backoff_schedule (S first) (S r)).
  cbn [List.filter is_setup]. change (is_backoff (ESetupDriver first)) with false.
  change (is_backoff (ESleep 5)) with true. cbn [length]. rewrite H1, H2. lia.
Qed.

(** The schedule keeps the setups and the sleeps of 5 seconds. *)
Lemma setups_skeleton (evs : list event) :
  List.filter is_setup (skeleton evs) = List.filter is_setup evs.
Proof.
  induction evs as [|ev evs IH]; [done|].
  unfold skeleton in *. destruct ev; simpl; rewrite ?IH; try done.
  destruct (secs =? 5); simpl; by rewrite ?IH.
Qed.

Lemma backoffs_skeleton (evs : list event) :
  List.filter is_backoff (skeleton evs) = List.filter is_backoff evs.
Proof.
  induction evs as [|ev evs IH]; [done|].
  unfold skeleton in *. destruct ev; simpl; rewrite ?IH; try done.
  destruct (Z.eqb_spec secs 5) as [->|Hne]; simpl; rewrite ?IH; [done|].
  unfold is_backoff at 2. by rewrite bool_decide_eq_false_2 by congruence.
Qed.

Section AllAttemptsFail.
Variables (page_fuel : nat) (br : Browser) (url : string) (max_retries : Z).
Variable exc : nat -> exn.

(** The attempt number [i] raises [exc i], for every [i] below
    [max_retries]. *)
Hypothesis attempts_fail :
  forall (i : nat) (s : sstate),
    Z.of_nat i < max_retries ->
    exists s', attempt page_fuel br url max_retries (Z.of_nat i) s
               = Some (Raised (exc i), s').

Lemma retry_loop_exhausts (remaining : nat) :
  forall (i fuel : nat) (s : sstate),
    Z.of_nat (i + remaining) = max_retries ->
    (1 <= remaining <= fuel)%nat ->
    exists s' evs,
      retry_loop fuel page_fuel br url max_retries (Z.of_nat i) s
      = Some (Raised (exc (i + remaining - 1)), s')
      /\ log s' = log s ++ evs
      /\ skeleton evs = backoff_schedule i remaining.
Proof.
  induction remaining as [|remaining IH]; intros i fuel s Hsum Hfuel; [lia|].
  destruct fuel as [|fuel]; [lia|]. cbn [retry_loop].
  destruct (Z.ltb_spec (Z.of_nat i) max_retries) as [Hlt|Hge]; [|lia].
  destruct (attempts_fail i s Hlt) as (s1 & Hfail).
  destruct (attempt_marks page_fuel br url max_retries i _ _ _ Hfail)
    as (evs1 & Hlog1 & Hsk1).
  unfold bind at 1. rewrite (failed_pass _ _ _ _ _ _ _ _ Hfail).
  destruct (Z.ltb_spec (Z.of_nat i + 1) max_retries) as [Hmore|Hlast].
  - destruct remaining as [|remaining]; [lia|].
    replace (Z.of_nat i + 1) with (Z.of_nat (S i)) by lia.
    edestruct (IH (S i) fuel) as (s' & evs & Hrun & Hlog & Hsk); [lia|lia|].
    exists s', (evs1 ++ ([error_line (Z.of_nat i) (exc i); EPrint "Retrying...";
                          ESleep 5] ++ teardown_events br (driver s1)) ++ evs).
    split; [|split].
    + rewrite Hrun.
      by replace (i + S (S remaining) - 1)%nat with (S i + S remaining - 1)%nat by lia.
    + rewrite Hlog. cbn [slog log]. rewrite Hlog1. by rewrite <- !app_assoc.
    + rewrite !skeleton_app, Hsk1, teardown_events_silent, Hsk. reflexivity.
  - assert (remaining = 0)%nat as -> by lia.
    eexists _, (evs1 ++ _). split; [|split].
    + by replace (i + 1 - 1)%nat with i by lia.
    + cbn [slog log]. rewrite Hlog1. by rewrite <- !app_assoc.
    + rewrite !skeleton_app, Hsk1, teardown_events_silent. reflexivity.
Qed.
End AllAttemptsFail.

(** C5. When every attempt raises, [scrape_openreview] with [max_retries]
    at least 1 (3 unless the caller says otherwise) raises the exception of
    the last attempt, after exactly [max_retries] attempts, each of which
    asks [setup_firefox_driver] for a session of its own, and with one sleep
    of 5 seconds between two attempts and none after the last.  The
    [finally] clause never raises: a failure of [driver.quit()] is printed
    and the clause ends normally. *)
Theorem retry_exhaustion (page_fuel : nat) (br : Browser) (conference : string)
    (year : Z) (track : string) (submission_type : option string)
    (max_retries : Z) (exc : nat -> exn) (s : sstate) :
  1 <= max_retries ->
  (forall (i : nat) (s : sstate),
      Z.of_nat i < max_retries ->
      exists s', attempt page_fuel br (base_url conference year track submission_type)
                   max_retries (Z.of_nat i) s
                 = Some (Raised (exc i), s')) ->
  (exists s' evs,
      scrape_openreview page_fuel br conference year track submission_type
        max_retries s
      = Some (Raised (exc (Z.to_nat max_retries - 1)%nat), s')
      /\ log s' = log s ++ evs
      /\ skeleton evs = backoff_schedule 0 (Z.to_nat max_retries)
      /\ length (List.filter is_setup evs) = Z.to_nat max_retries
      /\ length (List.filter is_backoff evs) = (Z.to_nat max_retries - 1)%nat)
  /\ (forall s d e,
      driver s = Some d -> driver_quit (br d) = Raised e ->
      teardown br s
      = Some (Ok tt, slog s [EQuit d; EPrint ("Error closing driver: " +:+ str_exn e)])).
Proof.
  intros Hpos Hfail. split.
  - unfold scrape_openreview.
    destruct (retry_loop_exhausts page_fuel br _ max_retries exc Hfail
                (Z.to_nat max_retries) 0 (Z.to_nat max_retries)
                {| driver := None; log := log s |})
      as (s' & evs & Hrun & Hlog & Hsk); [lia|lia|].
    exists s', evs. split; [exact Hrun|]. split; [exact Hlog|]. split; [exact Hsk|].
    destruct (backoff_schedule_counts (Z.to_nat max_retries) 0%nat) as [H1 H2].
    rewrite <- Hsk, setups_skeleton in H1. rewrite <- Hsk, backoffs_skeleton in H2.
    by split.
  - intros s0 d e Hd Hquit. rewrite teardown_run. unfold teardown_events.
    by rewrite Hd, Hquit.
Qed.

End ScraperFacts.

(** ** The properties at work on the listing of two papers *)

Module Examples.
Import Py Eff Sql Main MainFacts.

(** Paper A is in the store with its summary: it is skipped, and the loop
    goes on with Paper B. *)
Lemma resume_skip_law_witness :
  unique_ids (db Scenario.done_store)
  /\ truthy (attr (Scenario.row_a "Done.") "summary") = true
  /\ process_paper Scenario.world_ok Scenario.cfg ("Paper A", Some Scenario.url_a)
       Scenario.done_store
     = Some (Ok Skipped,
             logged Scenario.done_store
               [EQuery (id_filter Scenario.cfg "Paper A");
                EPrint "Skipping Paper A, already processed."]).
Proof.
  assert (Hkey : unique_ids (db Scenario.done_store)).
  { apply NoDup_singleton. }
  split; [exact Hkey|]. split; [reflexivity|].
  refine (proj1 (resume_skip_law Scenario.world_ok Scenario.cfg Scenario.done_store
                   "Paper A" (Some Scenario.url_a) (Scenario.row_a "Done.")
                   [("Paper B", Some Scenario.url_b)] Hkey _ _ _)).
  - apply list_elem_of_here.
  - vm_compute. reflexivity.
  - reflexivity.
Defined.

(** A row for Paper A is in the store: the insert of a second one fails and
    the store keeps the first. *)
Lemma add_entry_inserts_never_updates_witness :
  (exists what,
      add_entry [Scenario.row_a ""] (Scenario.row_a "A summary.")
      = (Raised (IntegrityError what), [Scenario.row_a ""]))
  /\ add_entry [] (Scenario.row_a "A summary.") = (Ok tt, [Scenario.row_a "A summary."]).
Proof.
  split.
  - refine (proj1 (proj1 SqlFacts.add_entry_inserts_never_updates
                     [Scenario.row_a ""] (Scenario.row_a "A summary.")
                     (Scenario.row_a "") _ _)).
    + apply list_elem_of_here.
    + vm_compute. reflexivity.
  - assert (H : add_entry [] (Scenario.row_a "A summary.")
                = (Ok tt, [Scenario.row_a "A summary."])) by (vm_compute; reflexivity).
    destruct (proj2 SqlFacts.add_entry_inserts_never_updates _ _ _ H) as [_ _].
    exact H.
Defined.

(** A 200 with a file that can be opened, a 200 with one that cannot, and
    a 404. *)
Lemma download_pdf_contract_witness :
  (exists s', download_pdf Scenario.world_flat "a.pdf" (Some Scenario.url_a) "papers"
                Scenario.empty_store
              = Some (Ok (Some "papers/a.pdf"), s')
              /\ fs s' !! "papers/a.pdf" = Some Scenario.pdf)
  /\ (exists s', download_pdf Scenario.world_flat "a/b.pdf" (Some Scenario.url_a)
                   "papers" Scenario.empty_store
                 = Some (Raised (External "FileNotFoundError"), s')
                 /\ fs s' = fs Scenario.empty_store)
  /\ (exists s', download_pdf Scenario.world_404 "a.pdf" (Some Scenario.url_a) "papers"
                   Scenario.empty_store
                 = Some (Ok None, s')
                 /\ fs s' = fs Scenario.empty_store).
Proof.
  split; [|split].
  - destruct (proj1 (download_pdf_contract Scenario.world_flat "a.pdf" Scenario.url_a
                       "papers" Scenario.empty_store _ eq_refl) eq_refl eq_refl)
      as (s' & Hrun & Hfile & _).
    exists s'. split; [exact Hrun|exact Hfile].
  - destruct (proj1 (proj2 (download_pdf_contract Scenario.world_flat "a/b.pdf"
                              Scenario.url_a "papers" Scenario.empty_store _ eq_refl))
                (External "FileNotFoundError") eq_refl eq_refl)
      as (s' & Hrun & Hfs & _).
    exists s'. split; [exact Hrun|exact Hfs].
  - destruct (proj1 (proj2 (proj2 (download_pdf_contract Scenario.world_404 "a.pdf"
                              Scenario.url_a "papers" Scenario.empty_store _ eq_refl))))
      as (s' & Hrun & Hfs & _).
    + vm_compute. discriminate.
    + exists s'. split; [exact Hrun|exact Hfs].
Defined.

(** Another delay, the same identifier. *)
Definition slow_cfg : Config := {|
  platform := "openreview"; conference := "ICLR"; year := 2024;
  track := "Conference"; submission_type := Some "oral";
  delay := 60; output_dir := "elsewhere"; content_cap := None;
  provider := "openai"; model_name := "gpt"; prefix := ""; suffix := "";
  param := []
|}.

Lemma derive_id_deterministic_and_shaped_witness :
  derive_id Scenario.cfg "Paper A" = derive_id slow_cfg "Paper A"
  /\ derive_id Scenario.cfg "Paper A" = Scenario.id_a.
Proof.
  split.
  - apply (proj2 derive_id_deterministic_and_shaped). reflexivity.
  - rewrite (proj1 derive_id_deterministic_and_shaped). vm_compute. reflexivity.
Defined.

(** A character outside ASCII and a run of two spaces in the title. *)
Example derive_id_of_spaced_title :
  derive_id Scenario.cfg ("Paper" +:+ String (ascii_of_nat 233) "  A")
  = "Paper_A_ICLR_2024_Conference_oral_openreview".
Proof. vm_compute. reflexivity. Qed.

(** A 404 for Paper A and the loop goes on with Paper B; an exception of the
    extractor or of the summarizer on Paper A and the loop is over. *)
Lemma per_paper_failures_witness :
  process_papers Scenario.world_404 Scenario.cfg
    [("Paper A", Some Scenario.url_a); ("Paper B", Some Scenario.url_b)] Scenario.empty_store
  = Eff.bind (process_papers Scenario.world_404 Scenario.cfg
                [("Paper B", Some Scenario.url_b)])
      (fun os => Eff.ret (DownloadFailed :: os))
      (logged Scenario.empty_store
         [EQuery (id_filter Scenario.cfg "Paper A"); EHttpGet Scenario.url_a;
          failed_line "Paper A"])
  /\ (exists s', process_papers Scenario.world_bad_pdf Scenario.cfg
                   [("Paper A", Some Scenario.url_a); ("Paper B", Some Scenario.url_b)]
                   Scenario.empty_store
                 = Some (Raised (External "PdfReadError"), s')
                 /\ db s' = [])
  /\ (exists s', process_papers Scenario.world_bad_llm Scenario.cfg
                   [("Paper A", Some Scenario.url_a); ("Paper B", Some Scenario.url_b)]
                   Scenario.empty_store
                 = Some (Raised (External "RateLimitError"), s')
                 /\ db s' = []).
Proof.
  split; [|split].
  - apply (proj1 (per_paper_failures Scenario.world_404 Scenario.cfg "Paper A"
                    Scenario.url_a [("Paper B", Some Scenario.url_b)] Scenario.empty_store
                    _ eq_refl eq_refl)).
    vm_compute. discriminate.
  - eexists.
    apply (proj1 (proj2 (per_paper_failures Scenario.world_bad_pdf Scenario.cfg
                           "Paper A" Scenario.url_a [("Paper B", Some Scenario.url_b)]
                           Scenario.empty_store _ eq_refl eq_refl))
             (External "PdfReadError")); vm_compute; reflexivity.
  - eexists.
    apply (proj2 (proj2 (per_paper_failures Scenario.world_bad_llm Scenario.cfg
                           "Paper A" Scenario.url_a [("Paper B", Some Scenario.url_b)]
                           Scenario.empty_store _ eq_refl eq_refl))
             (External "RateLimitError") "Text of the paper."); vm_compute; reflexivity.
Defined.

(** Paper A is in the store with its summary and is listed twice, with a
    delay of 2 seconds configured: two skips and no sleep. *)
Lemma no_pause_after_skipped_witness :
  process_papers Scenario.world_ok Scenario.cfg
    [("Paper A", Some Scenario.url_a); ("Paper A", Some Scenario.url_a)] Scenario.done_store
  = Some (Ok [Skipped; Skipped],
          logged Scenario.done_store
            [EQuery (id_filter Scenario.cfg "Paper A"); skip_line "Paper A";
             EQuery (id_filter Scenario.cfg "Paper A"); skip_line "Paper A"])
  /\ delay Scenario.cfg = 2.
Proof.
  split; [|reflexivity].
  apply (proj1 (no_pause_after_skipped Scenario.world_ok Scenario.cfg
                  [("Paper A", Some Scenario.url_a); ("Paper A", Some Scenario.url_a)]
                  Scenario.done_store
                  ltac:(repeat constructor))).
Defined.

End Examples.

Module ScraperExamples.
Import Py Eff Scraper ScraperFacts.

(** A browser that starts, fails to load the listing and fails to quit. *)
Definition flaky_session : Session := {|
  firefox_version := Ok "Mozilla Firefox 115.0esr";
  geckodriver_path := Ok "/usr/local/bin/geckodriver";
  new_firefox := Ok tt;
  sys_platform := "linux";
  sys_version := "3.11";
  driver_get := fun _ => Raised (External "WebDriverException");
  pages := fun _ => MainFacts.Scenario.page;
  driver_quit := Raised (External "InvalidSessionIdException")
|}.

Definition start : sstate := {| driver := None; log := [] |}.

Lemma retry_exhaustion_witness :
  (exists s' evs,
      scrape_openreview 5 (fun _ => flaky_session) "ICLR" 2024 "Conference"
        (Some "oral") default_max_retries start
      = Some (Raised (External "WebDriverException"), s')
      /\ log s' = log start ++ evs
      /\ skeleton evs
         = [ESetupDriver 0; ESleep 5; ESetupDriver 1; ESleep 5; ESetupDriver 2])
  /\ teardown (fun _ => flaky_session) {| driver := Some 2%nat; log := [] |}
     = Some (Ok tt, {| driver := Some 2%nat;
                       log := [EQuit 2;
                               EPrint "Error closing driver: InvalidSessionIdException"] |}).
Proof.
  assert (Hfail : forall (i : nat) (s : sstate),
             Z.of_nat i < 3 ->
             exists s', attempt 5 (fun _ => flaky_session)
                          (base_url "ICLR" 2024 "Conference" (Some "oral")) 3
                          (Z.of_nat i) s
                        = Some (Raised (External "WebDriverException"), s')).
  { intros i s _. eexists. reflexivity. }
  destruct (retry_exhaustion 5 (fun _ => flaky_session) "ICLR" 2024 "Conference"
              (Some "oral") 3 (fun _ => External "WebDriverException") start
              ltac:(lia) Hfail) as [(s' & evs & Hrun & Hlog & Hsk & _) Hquit].
  split.
  - exists s', evs. split; [exact Hrun|]. split; [exact Hlog|exact Hsk].
  - apply (Hquit {| driver := Some 2%nat; log := [] |} 2%nat
             (External "InvalidSessionIdException")); reflexivity.
Defined.

(** A page that grows by 100 at every scroll. *)
Definition endless_page : Page := {|
  wait_for_note := Ok tt;
  scroll_height := fun k => Ok (Z.of_nat k * 100);
  scroll_to_bottom := fun _ => Ok tt;
  find_notes := Ok [];
  find_next_button := Raised (External "NoSuchElementException")
|}.

Lemma scroll_loop_terminates_witness :
  scroll_page MainFacts.Scenario.page start
  = Some (Ok tt, slog start (EScript height_script :: rounds 2))
  /\ scroll_page endless_page start
     = Some (Ok tt, slog start (EScript height_script :: rounds 10)).
Proof.
  split.
  - destruct (proj2 (proj2 (scroll_loop_terminates MainFacts.Scenario.page start))
                (fun k => if (k =? 0)%nat then 900 else 1800)) as [Hsettle _].
    + intros j. reflexivity.
    + intros j. reflexivity.
    + apply (Hsettle 1%nat); [lia| |reflexivity].
      intros j Hj. assert (j = 0)%nat as -> by lia. vm_compute. discriminate.
  - destruct (proj2 (proj2 (scroll_loop_terminates endless_page start))
                (fun k => Z.of_nat k * 100)) as [_ Hgrow].
    + intros j. reflexivity.
    + intros j. reflexivity.
    + apply Hgrow. intros j _. lia.
Defined.

End ScraperExamples.

(** * The rest of the code *)

(** ** [Database.update_paper] and [Database.delete_paper] *)

Module Maintenance.
Import Py Sql.

(** [query(Paper).filter_by(id=paper_id).first()] *)
Definition first_with_id (db : table) (paper_id : pyval) : option Paper :=
  List.find (fun row => bool_decide (attr row "id" = paper_id)) db.

(** [for key, value in updates.items(): setattr(paper, key, value)], as the
    row sees it: a key that is a column changes the column, any other key
    becomes an attribute of the object only and is not stored. *)
Definition set_attrs (paper : Paper) (updates : list (string * pyval)) : Paper :=
  fold_left
    (fun p kv => if bool_decide (kv.1 ∈ Paper_columns) then <[kv.1 := kv.2]> p else p)
    updates paper.

(** The table with [new] in the place of the first row with [paper_id]. *)
Fixpoint replace_first (db : table) (paper_id : pyval) (new : Paper) : table :=
  match db with
  | [] => []
  | row :: rest =>
      if bool_decide (attr row "id" = paper_id) then new :: rest
      else row :: replace_first rest paper_id new
  end.

(** The table without the first row with [paper_id]. *)
Fixpoint remove_first (db : table) (paper_id : pyval) : table :=
  match db with
  | [] => []
  | row :: rest =>
      if bool_decide (attr row "id" = paper_id) then rest
      else row :: remove_first rest paper_id
  end.

(** [Database.update_paper] (lines 50 to 57): nothing happens when no row has
    the [id]; else the commit issues one UPDATE of that row, which fails with
    [IntegrityError], the table being left as it was, when it would make
    [id] null or equal to the [id] of another row. *)
Definition update_paper (db : table) (paper_id : pyval)
    (updates : list (string * pyval)) : result unit * table :=
  match first_with_id db paper_id with
  | None => (Ok tt, db)
  | Some paper =>
      let paper' := set_attrs paper updates in
      if bool_decide (attr paper' "id" = attr paper "id") then
        (Ok tt, replace_first db paper_id paper')
      else if bool_decide (attr paper' "id" = VNone) then
        (Raised (IntegrityError "NOT NULL constraint failed: Paper.id"), db)
      else if has_id db (attr paper' "id") then
        (Raised (IntegrityError "UNIQUE constraint failed: Paper.id"), db)
      else (Ok tt, replace_first db paper_id paper')
  end.

(** [Database.delete_paper] (lines 59 to 65). *)
Definition delete_paper (db : table) (paper_id : pyval) : result unit * table :=
  match first_with_id db paper_id with
  | None => (Ok tt, db)
  | Some _ => (Ok tt, remove_first db paper_id)
  end.

End Maintenance.

Module SqlMore.
Import Py Sql Maintenance.

Abbreviation id_of := (fun row : gmap string pyval => attr row "id").

Abbreviation with_id v := (fun row : gmap string pyval => bool_decide (attr row "id" = v)).

Lemma first_with_id_none (db : table) (v : pyval) :
  first_with_id db v = None <-> has_id db v = false.
Proof.
  unfold first_with_id, has_id. induction db as [|row db IH]; simpl; [done|].
  destruct (bool_decide (attr row "id" = v)); simpl; [done|exact IH].
Qed.

Lemma first_with_id_some (db : table) (v : pyval) (row : Paper) :
  first_with_id db v = Some row -> row ∈ db /\ attr row "id" = v.
Proof.
  unfold first_with_id. intros H. apply List.find_some in H as [Hin Hid].
  split; [by apply list_elem_of_In|by apply bool_decide_eq_true in Hid].
Qed.

(** With [id] a key, the first row with an [id] is the row with that [id]. *)
Lemma first_with_id_stored (db : table) (stored : Paper) :
  unique_ids db -> stored ∈ db ->
  first_with_id db (attr stored "id") = Some stored.
Proof.
  unfold unique_ids, first_with_id. induction db as [|row db IH]; intros Hnd Hin.
  - by apply elem_of_nil in Hin.
  - simpl in Hnd. apply NoDup_cons in Hnd as [Hnotin Hnd]. simpl.
    apply elem_of_cons in Hin as [->|Hin]; [by rewrite bool_decide_eq_true_2|].
    rewrite bool_decide_eq_false_2; [by apply IH|].
    intros Heq. apply Hnotin. rewrite Heq. apply list_elem_of_fmap. by exists stored.
Qed.

Lemma filter_absent (db : table) (v : pyval) :
  v ∉ List.map id_of db -> List.filter (with_id v) db = [].
Proof.
  induction db as [|row db IH]; intros Hnot; simpl; [done|].
  rewrite bool_decide_eq_false_2.
  - apply IH. intros Hin. apply Hnot. simpl. by right.
  - intros Heq. apply Hnot. simpl. rewrite Heq. by left.
Qed.

Lemma has_id_elem (db : table) (v : pyval) :
  has_id db v = true <-> v ∈ List.map id_of db.
Proof.
  rewrite SqlFacts.has_id_true. split.
  - intros (row & Hin & <-). apply list_elem_of_fmap. by exists row.
  - intros Hin. apply list_elem_of_fmap in Hin as (row & -> & Hin). by exists row.
Qed.

Lemma ids_replace_same (db : table) (v : pyval) (new : Paper) :
  attr new "id" = v -> List.map id_of (replace_first db v new) = List.map id_of db.
Proof.
  intros Hid. induction db as [|row db IH]; simpl; [done|].
  case_bool_decide as Hrow; simpl; [by rewrite Hid, Hrow|by rewrite IH].
Qed.

Lemma unique_replace_fresh (db : table) (v : pyval) (new : Paper) :
  unique_ids db -> attr new "id" ∉ List.map id_of db ->
  unique_ids (replace_first db v new).
Proof.
  unfold unique_ids. induction db as [|row db IH]; intros Hnd Hfresh; simpl; [done|].
  simpl in Hnd, Hfresh. apply NoDup_cons in Hnd as [Hnotin Hnd].
  apply not_elem_of_cons in Hfresh as [Hne Hfresh].
  case_bool_decide as Hrow; simpl; apply NoDup_cons.
  - split; [exact Hfresh|exact Hnd].
  - split; [|by apply IH].
    intros Hin. clear IH Hnd. revert Hin Hnotin Hne.
    induction db as [|r db IHdb]; simpl; [done|].
    apply not_elem_of_cons in Hfresh as [Hne' Hfresh].
    case_bool_decide; simpl; intros Hin Hnotin Hne.
    + apply elem_of_cons in Hin as [Heq|Hin]; [congruence|].
      apply Hnotin. by right.
    + apply elem_of_cons in Hin as [Heq|Hin].
      * apply Hnotin. rewrite Heq. by left.
      * apply IHdb; [done|done| |done]. intros Hx. apply Hnotin. by right.
Qed.

Lemma ids_remove_sublist (db : table) (v : pyval) :
  sublist (List.map id_of (remove_first db v)) (List.map id_of db).
Proof.
  induction db as [|row db IH]; simpl; [done|].
  case_bool_decide; simpl.
  - by apply sublist_cons.
  - by apply sublist_skip.
Qed.

Lemma unique_remove (db : table) (v : pyval) :
  unique_ids db -> unique_ids (remove_first db v).
Proof.
  unfold unique_ids. intros Hnd.
  eapply sublist_NoDup; [exact Hnd|apply ids_remove_sublist].
Qed.

Lemma filter_replace_same (db : table) (v : pyval) (new : Paper) :
  unique_ids db -> v ∈ List.map id_of db -> attr new "id" = v ->
  List.filter (with_id v) (replace_first db v new) = [new].
Proof.
  unfold unique_ids. induction db as [|row db IH]; intros Hnd Hin Hid.
  - by apply elem_of_nil in Hin.
  - simpl in Hnd, Hin. apply NoDup_cons in Hnd as [Hnotin Hnd]. simpl.
    case_bool_decide as Hrow; simpl.
    + rewrite bool_decide_eq_true_2 by done. f_equal.
      apply filter_absent. by rewrite <- Hrow.
    + rewrite bool_decide_eq_false_2 by done. apply IH; [done| |done].
      apply elem_of_cons in Hin as [Heq|Hin]; [congruence|done].
Qed.



Lemma filter_remove_same (db : table) (v : pyval) :
  unique_ids db -> List.filter (with_id v) (remove_first db v) = [].
Proof.
  unfold unique_ids. induction db as [|row db IH]; intros Hnd; simpl; [done|].
  simpl in Hnd. apply NoDup_cons in Hnd as [Hnotin Hnd].
  case_bool_decide as Hrow; simpl.
  - apply filter_absent. by rewrite <- Hrow.
  - rewrite bool_decide_eq_false_2 by done. by apply IH.
Qed.

Lemma filter_remove_other (db : table) (v v' : pyval) :
  v' <> v ->
  List.filter (with_id v') (remove_first db v) = List.filter (with_id v') db.
Proof.
  intros Hne. induction db as [|row db IH]; simpl; [done|].
  case_bool_decide as Hrow; simpl.
  - rewrite bool_decide_eq_false_2 by congruence. done.
  - by rewrite IH.
Qed.

Lemma length_remove_first (db : table) (v : pyval) :
  has_id db v = true -> S (length (remove_first db v)) = length db.
Proof.
  unfold has_id. induction db as [|row db IH]; simpl; [done|].
  case_bool_decide; simpl; [done|]. intros Hrest. by rewrite IH.
Qed.

(** What [setattr] leaves and what it sets. *)
Lemma set_attrs_other (updates : list (string * pyval)) :
  forall (paper : Paper) (k : string),
    k ∉ List.map fst updates -> set_attrs paper updates !! k = paper !! k.
Proof.
  unfold set_attrs. induction updates as [|[k' v'] updates IH]; intros paper k Hk;
    simpl; [done|].
  simpl in Hk. apply not_elem_of_cons in Hk as [Hne Hk].
  rewrite IH by done. case_bool_decide; [by rewrite lookup_insert_ne|done].
Qed.


Lemma set_attrs_assigned (updates : list (string * pyval)) :
  forall (paper : Paper) (k : string) (v : pyval),
    NoDup (List.map fst updates) -> (k, v) ∈ updates -> k ∈ Paper_columns ->
    set_attrs paper updates !! k = Some v.
Proof.
  induction updates as [|[k' v'] updates IH]; intros paper k v Hnd Hin Hcol.
  - by apply elem_of_nil in Hin.
  - simpl in Hnd. apply NoDup_cons in Hnd as [Hnotin Hnd].
    apply elem_of_cons in Hin as [[= -> ->]|Hin].
    + change (set_attrs paper ((k', v') :: updates))
        with (set_attrs (if bool_decide (k' ∈ Paper_columns)
                         then <[k' := v']> paper else paper) updates).
      rewrite set_attrs_other by done.
      rewrite bool_decide_eq_true_2 by done. apply lookup_insert_eq.
    + change (set_attrs paper ((k', v') :: updates))
        with (set_attrs (if bool_decide (k' ∈ Paper_columns)
                         then <[k' := v']> paper else paper) updates).
      by apply IH.
Qed.

(** X1. Each of the three operations that write the table keeps [id] a key:
    after [add_entry], [update_paper] or [delete_paper], whether it
    succeeded or raised, no two rows have the same [id]. *)
Theorem writes_keep_id_a_key (db : table) :
  unique_ids db ->
  (forall paper, unique_ids (add_entry db paper).2)
  /\ (forall paper_id updates, unique_ids (update_paper db paper_id updates).2)
  /\ (forall paper_id, unique_ids (delete_paper db paper_id).2).
Proof.
  intros Hkey. split; [|split].
  - intros paper. destruct (add_entry db paper) as [r db'] eqn:Hadd.
    by apply (SqlFacts.add_entry_unique_ids db db' paper r).
  - intros paper_id updates. unfold update_paper.
    destruct (first_with_id db paper_id) as [paper|] eqn:Hfirst; [|done].
    apply first_with_id_some in Hfirst as [Hin Hid].
    case_bool_decide as Hsame.
    + unfold unique_ids. cbn [snd]. rewrite ids_replace_same; [done|congruence].
    + case_bool_decide; [done|].
      destruct (has_id db _) eqn:Hfresh; [done|].
      apply unique_replace_fresh; [done|].
      rewrite <- has_id_elem. congruence.
  - intros paper_id. unfold delete_paper.
    destruct (first_with_id db paper_id); [|done]. by apply unique_remove.
Qed.

(** X2. Insert and look up: when [add_entry] succeeds, the query by the [id]
    of the record returns that record alone, the queries by any other [id]
    return what they returned before, and the query without filters returns
    the old rows followed by the record. *)
Theorem add_entry_then_get_papers (db db' : table) (paper : Paper) :
  add_entry db paper = (Ok tt, db') ->
  get_papers db' [("id", attr paper "id")] = Ok [paper]
  /\ (forall v, v <> attr paper "id" ->
                get_papers db' [("id", v)] = get_papers db [("id", v)])
  /\ get_papers db' [] = Ok (db ++ [paper]).
Proof.
  unfold add_entry. case_bool_decide; [done|].
  destruct (has_id db (attr paper "id")) eqn:Hfresh; [done|]. intros [= <-].
  assert (Hnot : attr paper "id" ∉ List.map id_of db).
  { rewrite <- has_id_elem. congruence. }
  split; [|split].
  - rewrite SqlFacts.get_papers_by_id, List.filter_app, filter_absent by done.
    simpl. by rewrite bool_decide_eq_true_2.
  - intros v Hv. rewrite !SqlFacts.get_papers_by_id, List.filter_app. simpl.
    rewrite bool_decide_eq_false_2 by congruence. by rewrite app_nil_r.
  - reflexivity.
Qed.






(** After [delete_paper], no row has the [id]. *)
Lemma no_row_after_delete (db : table) (v : pyval) :
  unique_ids db ->
  forall row, row ∈ (delete_paper db v).2 -> attr row "id" = v -> False.
Proof.
  intros Hkey row Hin Hrow. unfold delete_paper in Hin.
  assert (Hfilter : List.filter (with_id v) (delete_paper db v).2 = []).
  { unfold delete_paper. destruct (first_with_id db v) eqn:Hfirst; cbn [snd].
    - by apply filter_remove_same.
    - apply first_with_id_none in Hfirst. apply filter_absent.
      rewrite <- has_id_elem. congruence. }
  unfold delete_paper in Hfilter.
  assert (Hmem : In row (List.filter (with_id v)
                           (match first_with_id db v with
                            | Some _ => (Ok tt, remove_first db v)
                            | None => (Ok tt, db)
                            end).2)).
  { apply List.filter_In. split; [by apply list_elem_of_In|].
    by apply bool_decide_eq_true. }
  by rewrite Hfilter in Hmem.
Qed.

(** X4. On an [id] that no row has, [update_paper] and [delete_paper] do
    nothing and do not raise: the table is returned as it was. *)
Theorem maintenance_of_missing_id (db : table) (paper_id : pyval)
    (updates : list (string * pyval)) :
  has_id db paper_id = false ->
  update_paper db paper_id updates = (Ok tt, db)
  /\ delete_paper db paper_id = (Ok tt, db).
Proof.
  intros Hmiss. apply first_with_id_none in Hmiss.
  unfold update_paper, delete_paper. by rewrite Hmiss.
Qed.


(** X6. [delete_paper] never raises.  With [id] a key, the query by the
    deleted [id] then returns nothing, the queries by any other [id] return
    what they returned before, and the table has one row less when a row
    had the [id]. *)
Theorem delete_paper_then_get_papers (db : table) (paper_id : pyval) :
  unique_ids db ->
  (delete_paper db paper_id).1 = Ok tt
  /\ get_papers (delete_paper db paper_id).2 [("id", paper_id)] = Ok []
  /\ (forall v, v <> paper_id ->
                get_papers (delete_paper db paper_id).2 [("id", v)]
                = get_papers db [("id", v)])
  /\ (has_id db paper_id = true ->
      S (length (delete_paper db paper_id).2) = length db).
Proof.
  intros Hkey. unfold delete_paper.
  destruct (first_with_id db paper_id) as [row|] eqn:Hfirst; cbn [fst snd].
  - split; [done|]. split; [|split].
    + rewrite SqlFacts.get_papers_by_id. by rewrite filter_remove_same.
    + intros v Hv. rewrite !SqlFacts.get_papers_by_id.
      by rewrite filter_remove_other.
    + apply length_remove_first.
  - apply first_with_id_none in Hfirst. split; [done|]. split; [|split].
    + rewrite SqlFacts.get_papers_by_id. apply f_equal, filter_absent.
      rewrite <- has_id_elem. congruence.
    + done.
    + congruence.
Qed.

(** X7. Delete, then insert: with [id] a key, [add_entry] of a record whose
    [id] is not [None] succeeds on the table that [delete_paper] leaves for
    that [id], and appends the record; so a stored record is replaced by
    deleting it first, while [add_entry] alone fails on it. *)
Theorem delete_then_add_entry (db : table) (paper : Paper) :
  unique_ids db -> attr paper "id" <> VNone ->
  add_entry (delete_paper db (attr paper "id")).2 paper
  = (Ok tt, (delete_paper db (attr paper "id")).2 ++ [paper])
  /\ (has_id db (attr paper "id") = true ->
      exists what, add_entry db paper = (Raised (IntegrityError what), db)).
Proof.
  intros Hkey Hid. split.
  - assert (Hgone : has_id (delete_paper db (attr paper "id")).2 (attr paper "id")
                    = false).
    { destruct (has_id _ _) eqn:Hhas; [|done].
      apply SqlFacts.has_id_true in Hhas as (row & Hin & Hrow).
      destruct (no_row_after_delete db (attr paper "id") Hkey row Hin Hrow). }
    unfold add_entry. rewrite bool_decide_eq_false_2 by done. by rewrite Hgone.
  - intros Hhas. unfold add_entry. rewrite bool_decide_eq_false_2 by done.
    rewrite Hhas. by eauto.
Qed.

End SqlMore.

(** ** More on the listing fetcher *)

Module ScraperMore.
Import Py Eff Scraper ScraperFacts.
Local Open Scope py_scope.

(** *** The next-page control *)

Definition is_ok {A} (r : result A) : bool :=
  match r with Ok _ => true | Raised _ => false end.

(** The control is found, its parent is not disabled and the click works. *)
Definition advances (pg : Page) : bool :=
  match find_next_button pg with
  | Ok next_button =>
      match parent_class next_button with
      | Ok cls => negb (contains "disabled" cls) && is_ok (click next_button)
      | Raised _ => false
      end
  | Raised _ => false
  end.

Definition no_more_line : event := EPrint "No more pages or error finding next button.".

(** What lines 155 to 167 log. *)
Definition next_events (pg : Page) : list event :=
  match find_next_button pg with
  | Ok next_button =>
      match parent_class next_button with
      | Ok cls =>
          if contains "disabled" cls then [EPrint "Reached the last page."]
          else if is_ok (click next_button)
               then [EPrint "Moving to the next page..."; EClick; ESleep 3]
               else [EPrint "Moving to the next page..."; EClick; no_more_line]
      | Raised _ => [no_more_line]
      end
  | Raised _ => [no_more_line]
  end.

Lemma next_page_run (pg : Page) (s : sstate) :
  next_page pg s = Some (Ok (advances pg), slog s (next_events pg)).
Proof.
  unfold next_page, advances, next_events, try_except, bind, lift.
  destruct (find_next_button pg) as [next_button|e]; [|reflexivity].
  destruct (parent_class next_button) as [cls|e]; [|reflexivity].
  destruct (contains "disabled" cls); cbn [negb andb]; [reflexivity|].
  unfold print at 1, emit at 1. cbn [driver log].
  destruct (click next_button) as [[]|e]; cbn [is_ok].
  - rewrite call_ok. unfold sleep, emit, ret, slog. cbn [driver log].
    by rewrite <- !app_assoc.
  - rewrite call_raised. unfold print, emit, slog, no_more_line. cbn [driver log].
    by rewrite <- !app_assoc.
Qed.

(** X8. The step to the next page (lines 155 to 167) never raises: whatever
    the browser does, it ends normally, and it tells the page loop to go on
    exactly when the control was found, its parent's class does not contain
    [disabled] and the click did not raise; the pause of 3 seconds is made
    in that case only.  A control that is missing, a class that cannot be
    read and a click that fails all end the listing. *)
Theorem next_page_never_raises (pg : Page) (s : sstate) :
  (exists evs, next_page pg s = Some (Ok (advances pg), slog s evs)
               /\ (ESleep 3 ∈ evs <-> advances pg = true))
  /\ (advances pg = true <->
      exists next_button cls,
        find_next_button pg = Ok next_button
        /\ parent_class next_button = Ok cls
        /\ contains "disabled" cls = false
        /\ click next_button = Ok tt).
Proof.
  split.
  - exists (next_events pg). split; [apply next_page_run|].
    unfold next_events, advances, no_more_line.
    destruct (find_next_button pg) as [nb|e]; [|by rewrite list_elem_of_singleton].
    destruct (parent_class nb) as [cls|e]; [|by rewrite list_elem_of_singleton].
    destruct (contains "disabled" cls); cbn [negb andb];
      [by rewrite list_elem_of_singleton|].
    destruct (click nb); cbn [is_ok].
    + split; [done|]. intros _. do 2 apply list_elem_of_further. apply list_elem_of_here.
    + split; [|done]. intros Hin.
      repeat (apply elem_of_cons in Hin as [Hin|Hin]; [done|]).
      by apply elem_of_nil in Hin.
  - unfold advances. split.
    + destruct (find_next_button pg) as [nb|e]; [|done].
      destruct (parent_class nb) as [cls|e] eqn:Hcls; [|done].
      destruct (contains "disabled" cls) eqn:Hdis; [done|].
      destruct (click nb) as [[]|e] eqn:Hclick; [|done]. intros _. by exists nb, cls.
    + intros (nb & cls & -> & -> & -> & ->). done.
Qed.

(** *** The entries of a page *)

(** The entry that a note gives, if any: the text of its heading, stripped
    and not empty, with the [href] of its first PDF link, which is [None]
    when the link has no such attribute. *)
Definition listed (n : Note) : option (string * option string) :=
  match h4_text n, pdf_links n with
  | Ok title, Ok (Ok href :: _) =>
      if 0 <? Z.of_nat (String.length (strip (strip title))) then Some (strip title, href)
      else None
  | _, _ => None
  end.

Lemma extract_note_run (n : Note) (papers : list (string * option string)) (s : sstate) :
  exists evs,
    extract_note n papers s = Some (Ok (papers ++ option_list (listed n)), slog s evs).
Proof.
  unfold extract_note, listed, try_except, bind, lift.
  destruct (h4_text n) as [title|e].
  2:{ eexists. cbn. by rewrite app_nil_r. }
  destruct (pdf_links n) as [[|href links]|e].
  - exists []. cbn. by rewrite app_nil_r, slog_nil.
  - destruct (0 <? Z.of_nat (String.length (strip (strip title)))).
    + destruct href as [url|e].
      * eexists. reflexivity.
      * eexists. cbn. by rewrite app_nil_r.
    + exists []. cbn. destruct href; by rewrite app_nil_r, slog_nil.
  - eexists. cbn. by rewrite app_nil_r.
Qed.

Lemma strip_empty : strip "" = "".
Proof. reflexivity. Qed.

Lemma listed_title (n : Note) (entry : string * option string) :
  listed n = Some entry -> entry.1 <> "".
Proof.
  unfold listed. destruct (h4_text n) as [title|]; [|done].
  destruct (pdf_links n) as [[|[href|] ?]|]; try done.
  destruct (Z.ltb_spec 0 (Z.of_nat (String.length (strip (strip title)))))
    as [Hlen|]; [|done].
  intros [= <-]. cbn [fst]. intros Hempty. rewrite Hempty, strip_empty in Hlen.
  cbn in Hlen. lia.
Qed.

Lemma extract_notes_run (notes : list Note) :
  forall (papers : list (string * option string)) (s : sstate),
    exists evs, extract_notes notes papers s
                = Some (Ok (papers ++ omap listed notes), slog s evs).
Proof.
  induction notes as [|n notes IH]; intros papers s.
  - exists []. cbn. by rewrite app_nil_r, slog_nil.
  - cbn [extract_notes]. unfold bind.
    destruct (extract_note_run n papers s) as (evs1 & ->).
    destruct (IH (papers ++ option_list (listed n)) (slog s evs1)) as (evs2 & ->).
    exists (evs1 ++ evs2). rewrite slog_app.
    replace (papers ++ omap listed (n :: notes))
      with ((papers ++ option_list (listed n)) ++ omap listed notes); [done|].
    rewrite <- app_assoc. f_equal. cbn. by destruct (listed n).
Qed.

Lemma nonempty_length (x : string) :
  (0 <? Z.of_nat (String.length x)) = negb (String.eqb x "").
Proof. by destruct x. Qed.

(** X9. The extraction of a page (lines 142 to 152) never raises and never
    drops an entry already found: it returns the entries it was given
    followed, in the order of the notes, by the entry of each listed note.
    A note is listed when its heading is found, it has a PDF link, its
    title is not empty once stripped and the lookup of the [href] of its
    first link does not raise; its entry is the stripped title with that
    [href], which is [None] when the link has no such attribute.  A note
    that lacks one of these, or one of whose lookups raises, adds nothing.
    Every title added is not empty.  (Titles are strings of characters up
    to U+00FF; the white space stripped is that of Python among them.) *)
Theorem extract_notes_collects (notes : list Note) (papers : list (string * option string))
    (s : sstate) :
  (exists evs, extract_notes notes papers s
               = Some (Ok (papers ++ omap listed notes), slog s evs))
  /\ Forall (fun entry => entry.1 <> "") (omap listed notes)
  /\ (length (omap listed notes) <= length notes)%nat
  /\ (forall n title href rest,
        h4_text n = Ok title -> pdf_links n = Ok (Ok href :: rest) ->
        strip (strip title) <> "" ->
        listed n = Some (strip title, href))
  /\ (forall n,
        (exists e, h4_text n = Raised e)
        \/ (exists title, h4_text n = Ok title /\ strip (strip title) = "")
        \/ (exists e, pdf_links n = Raised e)
        \/ pdf_links n = Ok []
        \/ (exists e rest, pdf_links n = Ok (Raised e :: rest)) ->
        listed n = None).
Proof.
  split; [|split; [|split; [|split]]].
  - apply extract_notes_run.
  - induction notes as [|n notes IH]; [by constructor|].
    change (omap listed (n :: notes))
      with (match listed n with Some y => y :: omap listed notes
                              | None => omap listed notes end).
    destruct (listed n) as [entry|] eqn:Hn; [|done].
    constructor; [by apply (listed_title n)|done].
  - induction notes as [|n notes IH]; [done|].
    change (omap listed (n :: notes))
      with (match listed n with Some y => y :: omap listed notes
                              | None => omap listed notes end).
    destruct (listed n); cbn [length]; lia.
  - intros n title href rest Htitle Hlinks Hne. unfold listed.
    rewrite Htitle, Hlinks, nonempty_length.
    by destruct (String.eqb_spec (strip (strip title)) "").
  - intros n. unfold listed.
    intros [(e & ->)|[(title & -> & Hempty)|[(e & ->)|[->|(e & rest & ->)]]]];
      try done.
    + destruct (pdf_links n) as [[|[href|] ?]|]; try done.
      by rewrite nonempty_length, Hempty.
    + by destruct (h4_text n).
    + by destruct (h4_text n).
    + by destruct (h4_text n).
Qed.

(** *** The page loop *)

(** One pass through the body of the page loop, up to the decision to go
    on: the entries found so far and whether there is a next page. *)
Definition page_body (b : Session) (page_number : Z) (papers : list (string * option string))
  : M sstate (list (string * option string) * bool) :=
  let pg := pages b (Z.to_nat (page_number - 1)) in
  print ("Processing page " +:+ str_int page_number) ;;
  print "Waiting for content to load..." ;;
  call EWait (wait_for_note pg) ;;
  print "Scrolling through page..." ;;
  scroll_page pg ;;
  print "Extracting paper information..." ;;
  notes <- call EFindNotes (find_notes pg) ;;
  papers' <- extract_notes notes papers ;;
  more <- next_page pg ;;
  ret (papers', more).

Lemma page_loop_S (fuel : nat) (b : Session) (page_number : Z)
    (papers : list (string * option string)) (s : sstate) :
  page_loop (S fuel) b page_number papers s
  = (x <- page_body b page_number papers ;;
     if x.2 then page_loop fuel b (page_number + 1) x.1 else ret x.1) s.
Proof.
  cbn [page_loop]. unfold page_body, bind, ret.
  repeat case_match; simplify_eq; done.
Qed.

(** The scroll loop of a page ends. *)
Lemma scroll_page_ends (pg : Page) (s : sstate) :
  exists r evs, scroll_page pg s = Some (r, slog s evs).
Proof.
  unfold scroll_page, bind.
  destruct (scroll_height pg 0) as [last_height|e].
  - rewrite call_ok.
    destruct (scroll_loop_bounded pg 10 10 last_height 0
                (slog s [EScript height_script]))
      as (r & evs & _ & H & _); [unfold max_scroll_attempts; lia..|].
    change (Z.to_nat max_scroll_attempts) with 10%nat. rewrite H, slog_app. by eauto.
  - rewrite call_raised. by eauto.
Qed.

(** The body of the page loop ends, and when it ends normally it has added
    the entries of the page and says whether the listing goes on. *)
Ltac raised_here :=
  eexists _, _; (split; [reflexivity|]); intros ? ?; discriminate.

Lemma page_body_run (b : Session) (page_number : Z) (papers : list (string * option string))
    (s : sstate) :
  let pg := pages b (Z.to_nat (page_number - 1)) in
  exists r s',
    page_body b page_number papers s = Some (r, s')
    /\ forall x, r = Ok x ->
                 x.2 = advances pg
                 /\ exists notes, find_notes pg = Ok notes
                                  /\ x.1 = papers ++ omap listed notes.
Proof.
  intros pg. unfold page_body. fold pg. unfold bind at 1. unfold print at 1, emit at 1.
  unfold bind at 1. unfold print at 1, emit at 1. cbn [driver log].
  unfold bind at 1.
  destruct (wait_for_note pg) as [[]|e]; [rewrite call_ok|rewrite call_raised; raised_here].
  unfold bind at 1. unfold print at 1, emit at 1. cbn [driver log].
  unfold bind at 1.
  match goal with |- context [scroll_page pg ?s0] =>
    destruct (scroll_page_ends pg s0) as ([[]|e] & evs1 & ->) end; [|raised_here].
  unfold bind at 1. unfold print at 1, emit at 1. cbn [driver log].
  unfold bind at 1.
  destruct (find_notes pg) as [notes|e]; [rewrite call_ok|rewrite call_raised; raised_here].
  unfold bind at 1.
  match goal with |- context [extract_notes notes papers ?s0] =>
    destruct (extract_notes_run notes papers s0) as (evs2 & ->) end.
  unfold bind. rewrite next_page_run. unfold ret.
  eexists _, _. split; [reflexivity|].
  intros x [= <-]. cbn [fst snd]. split; [done|]. by exists notes.
Qed.

(** X10. The page loop ends as soon as a page has no usable next-page
    control.  If, counting from the page the loop starts on, the page number
    [k] has no control, a disabled one or one whose click raises, then
    [k + 1] units of fuel, one for each page, are enough for the loop to
    end, by a return or by an exception, whatever the other calls do, and
    more fuel gives the same outcome. *)
Theorem page_loop_ends_at_last_page (b : Session) (k : nat) :
  forall (fuel : nat) (page_number : Z) (papers : list (string * option string)) (s : sstate),
    1 <= page_number -> (k < fuel)%nat ->
    advances (pages b (Z.to_nat (page_number - 1) + k)) = false ->
    exists r s',
      page_loop fuel b page_number papers s = Some (r, s')
      /\ page_loop (S k) b page_number papers s = Some (r, s').
Proof.
  induction k as [|k IH]; intros fuel n papers s Hn Hfuel Hlast;
    (destruct fuel as [|fuel]; [lia|]); rewrite !page_loop_S; unfold bind;
    destruct (page_body_run b n papers s) as ([[papers' more]|e] & s1 & -> & Hx);
    try (by eauto);
    destruct (Hx _ eq_refl) as [Hmore _]; cbn [fst snd] in *.
  - rewrite Nat.add_0_r in Hlast. rewrite Hmore, Hlast. by eauto.
  - destruct more; [|by eauto].
    apply IH; [lia|lia|].
    replace (Z.to_nat (n + 1 - 1)) with (S (Z.to_nat (n - 1))) by lia.
    by replace (S (Z.to_nat (n - 1)) + k)%nat with (Z.to_nat (n - 1) + S k)%nat by lia.
Qed.

Section Listing.
(** A listing of [N] pages that load and scroll without an error, the
    first [N - 1] of which lead to a next page. *)
Variables (b : Session) (N : nat) (notes_of : nat -> list Note) (h : nat -> nat -> Z).
Hypothesis wait_ok : forall j, (j < N)%nat -> wait_for_note (pages b j) = Ok tt.
Hypothesis scroll_ok : forall j i, (j < N)%nat -> scroll_to_bottom (pages b j) i = Ok tt.
Hypothesis height_ok :
  forall j i, (j < N)%nat -> scroll_height (pages b j) i = Ok (h j i).
Hypothesis notes_ok : forall j, (j < N)%nat -> find_notes (pages b j) = Ok (notes_of j).
Hypothesis next_ok : forall j, (j < N)%nat -> advances (pages b j) = (S j <? N)%nat.

Lemma scroll_loop_ok (j : nat) (m : nat) :
  (j < N)%nat ->
  forall (a fuel : nat) (s : sstate),
    (a + m = 10)%nat -> (m <= fuel)%nat ->
    exists evs, scroll_loop fuel (pages b j) (h j a) (Z.of_nat a) s
                = Some (Ok tt, slog s evs).
Proof.
  intros Hj. induction m as [|m IH]; intros a fuel s Hcap Hfuel.
  - rewrite scroll_loop_done by (unfold max_scroll_attempts; lia).
    exists []. by rewrite slog_nil.
  - destruct fuel as [|fuel]; [lia|].
    rewrite (scroll_loop_next (pages b j) (h j)); [|by auto|by auto|lia].
    destruct (h j (S a) =? h j a); [by eauto|].
    destruct (IH (S a) fuel (slog s scroll_round)) as (evs & ->); [lia|lia|].
    rewrite slog_app. by eauto.
Qed.

Lemma page_body_ok (j : nat) (papers : list (string * option string)) (s : sstate) :
  (j < N)%nat ->
  exists s', page_body b (Z.of_nat j + 1) papers s
             = Some (Ok (papers ++ omap listed (notes_of j), (S j <? N)%nat), s').
Proof.
  intros Hj. unfold page_body.
  replace (Z.to_nat (Z.of_nat j + 1 - 1)) with j by lia.
  unfold bind at 1. unfold print at 1, emit at 1.
  unfold bind at 1. unfold print at 1, emit at 1. cbn [driver log].
  unfold bind at 1. rewrite wait_ok, call_ok by done.
  unfold bind at 1. unfold print at 1, emit at 1. cbn [driver log].
  unfold bind at 1.
  rewrite (scroll_page_first_read (pages b j) (h j)) by auto.
  match goal with |- context [scroll_loop _ _ _ _ ?s0] =>
    destruct (scroll_loop_ok j 10 Hj 0 10 s0) as (evs1 & Hscroll); [lia|lia|] end.
  change (Z.to_nat max_scroll_attempts) with 10%nat.
  change (Z.of_nat 0) with 0 in Hscroll. rewrite Hscroll.
  unfold bind at 1. unfold print at 1, emit at 1. cbn [driver log].
  unfold bind at 1. rewrite notes_ok, call_ok by done.
  unfold bind at 1.
  match goal with |- context [extract_notes _ papers ?s0] =>
    destruct (extract_notes_run (notes_of j) papers s0) as (evs2 & ->) end.
  unfold bind. rewrite next_page_run, next_ok by done. unfold ret. by eauto.
Qed.

Lemma page_loop_collects (m : nat) :
  forall (i fuel : nat) (papers : list (string * option string)) (s : sstate),
    (i + m = N)%nat -> (1 <= m <= fuel)%nat ->
    exists s',
      page_loop fuel b (Z.of_nat i + 1) papers s
      = Some (Ok (papers ++ flat_map (fun j => omap listed (notes_of j)) (seq i m)), s').
Proof.
  induction m as [|m IH]; intros i fuel papers s Hsum Hfuel; [lia|].
  destruct fuel as [|fuel]; [lia|]. rewrite page_loop_S. unfold bind.
  destruct (page_body_ok i papers s) as (s1 & ->); [lia|]. cbn [fst snd].
  destruct (Nat.ltb_spec (S i) N) as [Hmore|Hlast].
  - destruct m as [|m]; [lia|].
    replace (Z.of_nat i + 1 + 1) with (Z.of_nat (S i) + 1) by lia.
    destruct (IH (S i) fuel (papers ++ omap listed (notes_of i)) s1)
      as (s' & ->); [lia|lia|].
    exists s'. do 3 f_equal. cbn [seq flat_map]. by rewrite <- app_assoc.
  - assert (m = 0)%nat as -> by lia. exists s1. unfold ret.
    cbn [seq flat_map]. by rewrite app_nil_r.
Qed.
End Listing.

(** X11. On a listing of [N] pages (at least one) that load and scroll
    without an error, where every page but the last has a usable next-page
    control, the page loop returns the entries of all the pages, in the
    order of the pages and, within a page, of its notes; [N] units of fuel
    are enough.  The entries of two pages are not compared: an entry listed
    on two pages is returned twice. *)
Theorem page_loop_returns_all_pages (b : Session) (N : nat)
    (notes_of : nat -> list Note) (h : nat -> nat -> Z) (fuel : nat) (s : sstate) :
  (forall j, (j < N)%nat -> wait_for_note (pages b j) = Ok tt) ->
  (forall j i, (j < N)%nat -> scroll_to_bottom (pages b j) i = Ok tt) ->
  (forall j i, (j < N)%nat -> scroll_height (pages b j) i = Ok (h j i)) ->
  (forall j, (j < N)%nat -> find_notes (pages b j) = Ok (notes_of j)) ->
  (forall j, (j < N)%nat -> advances (pages b j) = (S j <? N)%nat) ->
  (1 <= N <= fuel)%nat ->
  exists s',
    page_loop fuel b 1 [] s
    = Some (Ok (flat_map (fun j => omap listed (notes_of j)) (seq 0 N)), s').
Proof.
  intros Hwait Hscroll Hheight Hnotes Hnext HN.
  destruct (page_loop_collects b N notes_of h Hwait Hscroll Hheight Hnotes Hnext
              N 0 fuel [] s) as (s' & Hrun); [lia|lia|].
  exists s'. exact Hrun.
Qed.

(** *** Setting up the driver *)

Definition not_installed : exn :=
  External "Firefox ESR is not properly installed. Please install Firefox ESR first.".

(** X12. [setup_firefox_driver] returns a driver exactly when the version
    of Firefox is obtained, geckodriver is installed and the browser starts.
    [check_firefox_installation] swallows whatever goes wrong with the
    first two, and [setup_firefox_driver] then raises its own exception,
    not the original one; a failure to start the browser is raised as it
    is.  In every case the only thing done is printing. *)
Theorem setup_firefox_driver_outcome (attempt : nat) (b : Session) (s : sstate) :
  exists r lines,
    setup_firefox_driver attempt b s
    = Some (r, slog s (ESetupDriver attempt :: List.map EPrint lines))
    /\ (r = Ok attempt <->
        is_ok (firefox_version b) && is_ok (geckodriver_path b)
        && is_ok (new_firefox b) = true)
    /\ (is_ok (firefox_version b) && is_ok (geckodriver_path b) = false ->
        r = Raised not_installed)
    /\ (forall e, is_ok (firefox_version b) && is_ok (geckodriver_path b) = true ->
                  new_firefox b = Raised e -> r = Raised e).
Proof.
  unfold setup_firefox_driver, check_firefox_installation, try_except, bind, lift,
    print, emit, ret, raise, not_installed.
  cbn [driver log].
  destruct (firefox_version b) as [version|e1]; cbn [is_ok andb].
  - destruct (geckodriver_path b) as [path|e2]; cbn [is_ok andb negb driver log].
    + destruct (new_firefox b) as [[]|e3]; cbn [is_ok driver log].
      * eexists _, [_; _; _; _]. split.
        { unfold slog. cbn [driver log List.map]. by rewrite <- !app_assoc. }
        repeat split; try done; try (by intros ? _ [= <-]).
      * eexists _, [_; _; _; _; _; _]. split.
        { unfold slog. cbn [driver log List.map]. by rewrite <- !app_assoc. }
        repeat split; try done; try (by intros ? _ [= <-]).
    + case_bool_decide.
      * eexists _, [_; _]. split.
        { unfold slog. cbn [driver log List.map]. by rewrite <- !app_assoc. }
        repeat split; try done.
      * eexists _, [_; _]. split.
        { unfold slog. cbn [driver log List.map]. by rewrite <- !app_assoc. }
        repeat split; try done.
  - case_bool_decide.
    + eexists _, [_]. split.
      { unfold slog. cbn [driver log List.map]. by rewrite <- !app_assoc. }
      repeat split; try done.
    + eexists _, [_]. split.
      { unfold slog. cbn [driver log List.map]. by rewrite <- !app_assoc. }
      repeat split; try done.
Qed.

(** The driver that [setup_firefox_driver] returns is that of the attempt. *)
Lemma setup_firefox_driver_value (attempt : nat) (b : Session) (s s' : sstate)
    (d : nat) :
  setup_firefox_driver attempt b s = Some (Ok d, s') -> d = attempt.
Proof.
  unfold setup_firefox_driver, check_firefox_installation, try_except, bind, lift,
    print, emit, ret, raise.
  cbn [driver log].
  destruct (firefox_version b); [|by case_bool_decide].
  destruct (geckodriver_path b); cbn [negb]; [|by case_bool_decide].
  destruct (new_firefox b) as [[]|]; [|done]. by intros [= <- _].
Qed.

(** *** The retry loop, in general *)

(** One pass through the retry loop when the attempt returns. *)
Lemma successful_pass (page_fuel : nat) (br : Browser) (url : string)
    (max_retries retry_count : Z) (s s1 : sstate) (papers : list (string * option string)) :
  attempt page_fuel br url max_retries retry_count s = Some (Ok papers, s1) ->
  try_finally
    (try_except
       (papers <- attempt page_fuel br url max_retries retry_count ;;
        ret (Return papers))
       (on_error max_retries retry_count))
    (teardown br) s
  = Some (Ok (Return papers), slog s1 (teardown_events br (driver s1))).
Proof.
  intros Hrun. unfold try_finally, try_except, bind at 1. rewrite Hrun.
  unfold ret. by rewrite teardown_run.
Qed.

Lemma backoff_schedule_S (first remaining : nat) :
  backoff_schedule first (S (S remaining))
  = ESetupDriver first :: ESleep 5 :: backoff_schedule (S first) (S remaining).
Proof. reflexivity. Qed.

Section AnyBrowser.
Variables (page_fuel : nat) (br : Browser) (url : string) (max_retries : Z).

(** Every attempt ends: its page loop does not run out of fuel. *)
Hypothesis attempts_end :
  forall (i : nat) (s : sstate),
    exists r s', attempt page_fuel br url max_retries (Z.of_nat i) s = Some (r, s').

Lemma retry_loop_ends (remaining : nat) :
  forall (i fuel : nat) (s : sstate),
    Z.of_nat (i + remaining) = max_retries ->
    (1 <= remaining <= fuel)%nat ->
    exists r s' evs made,
      retry_loop fuel page_fuel br url max_retries (Z.of_nat i) s = Some (r, s')
      /\ r <> Ok None
      /\ log s' = log s ++ evs
      /\ (1 <= made <= remaining)%nat
      /\ skeleton evs = backoff_schedule i made.
Proof.
  induction remaining as [|remaining IH]; intros i fuel s Hsum Hfuel; [lia|].
  destruct fuel as [|fuel]; [lia|]. cbn [retry_loop].
  destruct (Z.ltb_spec (Z.of_nat i) max_retries) as [Hlt|Hge]; [|lia].
  destruct (attempts_end i s) as (r1 & s1 & Hrun).
  destruct (attempt_marks page_fuel br url max_retries i _ _ _ Hrun)
    as (evs1 & Hlog1 & Hsk1).
  unfold bind at 1. destruct r1 as [papers|e].
  - rewrite (successful_pass _ _ _ _ _ _ _ _ Hrun). unfold ret.
    eexists _, _, (evs1 ++ _), 1%nat. split; [reflexivity|].
    split; [done|]. split; [|split; [lia|]].
    + cbn [slog log]. rewrite Hlog1. by rewrite <- app_assoc.
    + by rewrite skeleton_app, Hsk1, teardown_events_silent.
  - rewrite (failed_pass _ _ _ _ _ _ _ _ Hrun).
    destruct (Z.ltb_spec (Z.of_nat i + 1) max_retries) as [Hmore|Hlast].
    + destruct remaining as [|remaining]; [lia|].
      replace (Z.of_nat i + 1) with (Z.of_nat (S i)) by lia.
      edestruct (IH (S i) fuel) as (r & s' & evs & made & -> & Hr & Hlog & Hmade & Hsk);
        [lia|lia|].
      exists r, s', (evs1 ++ ([error_line (Z.of_nat i) e; EPrint "Retrying...";
                               ESleep 5] ++ teardown_events br (driver s1)) ++ evs),
        (S made).
      split; [done|]. split; [done|]. split; [|split; [lia|]].
      * rewrite Hlog. cbn [slog log]. rewrite Hlog1. by rewrite <- !app_assoc.
      * rewrite !skeleton_app, Hsk1, teardown_events_silent, Hsk.
        destruct made as [|made]; [lia|]. by rewrite backoff_schedule_S.
    + eexists _, _, (evs1 ++ _), 1%nat. split; [reflexivity|].
      split; [done|]. split; [|split; [lia|]].
      * cbn [slog log]. rewrite Hlog1. by rewrite <- !app_assoc.
      * by rewrite !skeleton_app, Hsk1, teardown_events_silent.
Qed.
End AnyBrowser.

(** X13. [scrape_openreview] never makes more than [max_retries] attempts.
    Whatever the browser does, provided each attempt ends, the function
    ends; the calls of [setup_firefox_driver] and the sleeps of 5 seconds
    that it makes are those of [made] attempts, with one sleep between two
    attempts, where [made] is at least 1 and at most [max_retries] when
    [max_retries] is positive; and it returns [None] exactly when
    [max_retries] is 0 or less, in which case no attempt is made and
    nothing at all is done. *)
Theorem scrape_openreview_bounded (page_fuel : nat) (br : Browser)
    (conference : string) (year : Z) (track : string)
    (submission_type : option string) (max_retries : Z) (s : sstate) :
  (forall (i : nat) (s : sstate),
      exists r s', attempt page_fuel br (base_url conference year track submission_type)
                     max_retries (Z.of_nat i) s = Some (r, s')) ->
  exists r s' evs made,
    scrape_openreview page_fuel br conference year track submission_type
      max_retries s = Some (r, s')
    /\ log s' = log s ++ evs
    /\ (r = Ok None <-> max_retries <= 0)
    /\ (max_retries <= 0 -> evs = [])
    /\ (Z.of_nat made <= Z.max 0 max_retries)
    /\ (0 < max_retries -> 1 <= Z.of_nat made <= max_retries)
    /\ (max_retries <= 0 -> made = 0%nat)
    /\ skeleton evs = backoff_schedule 0 made
    /\ length (List.filter is_setup evs) = made
    /\ length (List.filter is_backoff evs) = (made - 1)%nat.
Proof.
  intros Hends. unfold scrape_openreview.
  destruct (Z.le_gt_cases max_retries 0) as [Hnone|Hsome].
  - exists (Ok None), {| driver := None; log := log s |}, [], 0%nat.
    replace (Z.to_nat max_retries) with 0%nat by lia. cbn [retry_loop].
    destruct (Z.ltb_spec 0 max_retries); [lia|].
    split; [done|]. split; [cbn; by rewrite app_nil_r|].
    repeat split; try done; lia.
  - destruct (retry_loop_ends page_fuel br _ max_retries Hends
                (Z.to_nat max_retries) 0 (Z.to_nat max_retries)
                {| driver := None; log := log s |})
      as (r & s' & evs & made & Hrun & Hr & Hlog & Hmade & Hsk); [lia|lia|].
    exists r, s', evs, made. split; [exact Hrun|]. split; [exact Hlog|].
    split; [split; [done|lia]|]. split; [lia|]. split; [lia|].
    split; [lia|]. split; [lia|].
    split; [exact Hsk|].
    destruct (backoff_schedule_counts made 0%nat) as [H1 H2].
    rewrite <- Hsk, setups_skeleton in H1. rewrite <- Hsk, backoffs_skeleton in H2.
    by split.
Qed.

(** The computations of an attempt leave the variable [driver] alone, but
    for the assignment at line 107. *)
Definition keeps_driver {A} (m : M sstate A) : Prop :=
  forall s r s', m s = Some (r, s') -> driver s' = driver s.

Lemma keeps_ret {A} (a : A) : keeps_driver (ret a).
Proof. by intros s r s' [= <- <-]. Qed.

Lemma keeps_raise {A} (e : exn) : keeps_driver (raise (A := A) e).
Proof. by intros s r s' [= <- <-]. Qed.

Lemma keeps_lift {A} (x : result A) : keeps_driver (lift x).
Proof. by intros s r s' [= <- <-]. Qed.

Lemma keeps_emit (ev : event) : keeps_driver (emit ev).
Proof. by intros s r s' [= <- <-]. Qed.

Lemma keeps_bind {A B} (m : M sstate A) (k : A -> M sstate B) :
  keeps_driver m -> (forall a, keeps_driver (k a)) -> keeps_driver (bind m k).
Proof.
  intros Hm Hk s r s' Hrun. unfold bind in Hrun.
  destruct (m s) as [[[a|e] s1]|] eqn:Hms; [| |done].
  - rewrite (Hk a _ _ _ Hrun). by apply (Hm _ _ _ Hms).
  - injection Hrun as <- <-. by apply (Hm _ _ _ Hms).
Qed.

Lemma keeps_try_except {A} (m : M sstate A) (h : exn -> M sstate A) :
  keeps_driver m -> (forall e, keeps_driver (h e)) -> keeps_driver (try_except m h).
Proof.
  intros Hm Hh s r s' Hrun. unfold try_except in Hrun.
  destruct (m s) as [[[a|e] s1]|] eqn:Hms; [| |done].
  - injection Hrun as <- <-. by apply (Hm _ _ _ Hms).
  - rewrite (Hh e _ _ _ Hrun). by apply (Hm _ _ _ Hms).
Qed.

Create HintDb keeps.
#[local] Hint Resolve keeps_ret keeps_raise keeps_lift keeps_emit : keeps.

Ltac keep :=
  repeat match goal with
         | |- keeps_driver (bind _ _) => apply keeps_bind; [|intro]
         | |- keeps_driver (try_except _ _) => apply keeps_try_except; [|intro]
         | |- keeps_driver (call _ _) => unfold call
         | |- keeps_driver (sleep _) => unfold sleep
         | |- keeps_driver (print _) => unfold print
         | |- keeps_driver (if ?b then _ else _) => destruct b
         | |- keeps_driver (match ?x with _ => _ end) => destruct x
         | |- keeps_driver _ => solve [auto with keeps]
         end.

Lemma keeps_scroll_loop (pg : Page) (fuel : nat) :
  forall last_height scroll_attempts,
    keeps_driver (scroll_loop fuel pg last_height scroll_attempts).
Proof.
  induction fuel as [|fuel IH]; intros last_height a; cbn [scroll_loop].
  - destruct (a <? max_scroll_attempts); [done|apply keeps_ret].
  - keep; apply IH.
Qed.

Lemma keeps_extract_notes (notes : list Note) :
  forall papers, keeps_driver (extract_notes notes papers).
Proof.
  induction notes as [|n notes IH]; intros papers; cbn [extract_notes].
  - apply keeps_ret.
  - apply keeps_bind; [|intros; apply IH]. unfold extract_note. keep.
Qed.

Lemma keeps_page_loop (b : Session) (fuel : nat) :
  forall page_number papers, keeps_driver (page_loop fuel b page_number papers).
Proof.
  induction fuel as [|fuel IH]; intros page_number papers; cbn [page_loop].
  - done.
  - unfold scroll_page, next_page.
    keep; auto using keeps_scroll_loop, keeps_extract_notes.
Qed.

Lemma keeps_setup_firefox_driver (n : nat) (b : Session) :
  keeps_driver (setup_firefox_driver n b).
Proof. unfold setup_firefox_driver, check_firefox_installation. keep. Qed.

(** An attempt that returns has assigned its driver to [driver]. *)
Lemma attempt_sets_driver (page_fuel : nat) (br : Browser) (url : string)
    (max_retries : Z) (i : nat) (s s' : sstate) (papers : list (string * option string)) :
  attempt page_fuel br url max_retries (Z.of_nat i) s = Some (Ok papers, s') ->
  driver s' = Some i.
Proof.
  unfold attempt. rewrite Nat2Z.id. unfold bind at 1, print at 1, emit at 1.
  unfold bind at 1, print at 1, emit at 1. cbn [driver log].
  unfold bind at 1.
  destruct (setup_firefox_driver i (br i) _) as [[[d|e] s1]|] eqn:Hsetup; [|done|done].
  assert (d = i) as ->.
  { destruct (setup_firefox_driver_value i (br i) _ _ _ Hsetup). done. }
  unfold bind at 1, set_driver at 1.
  intros Hrest.
  assert (Hk : keeps_driver
                 (print ("Navigating to URL: " +:+ url) ;;
                  call (ENavigate url) (driver_get (br i) url) ;;
                  page_loop page_fuel (br i) 1 [])%py).
  { keep. apply keeps_page_loop. }
  by rewrite (Hk _ _ _ Hrest).
Qed.

Section FirstSuccess.
Variables (page_fuel : nat) (br : Browser) (url : string) (max_retries : Z).
Variables (k : nat) (exc : nat -> exn) (found : list (string * option string)).

(** The attempts before number [k] raise, and number [k] returns. *)
Hypothesis attempts_fail :
  forall (i : nat) (s : sstate),
    (i < k)%nat ->
    exists s', attempt page_fuel br url max_retries (Z.of_nat i) s
               = Some (Raised (exc i), s').
Hypothesis attempt_returns :
  forall s : sstate,
    exists s', attempt page_fuel br url max_retries (Z.of_nat k) s
               = Some (Ok found, s').
Hypothesis in_time : Z.of_nat k < max_retries.

Lemma retry_loop_succeeds (m : nat) :
  forall (i fuel : nat) (s : sstate),
    (i + m = k)%nat -> (m < fuel)%nat ->
    exists s' evs before,
      retry_loop fuel page_fuel br url max_retries (Z.of_nat i) s
      = Some (Ok (Some found), s')
      /\ log s' = log s ++ evs
      /\ skeleton evs = backoff_schedule i (S m)
      /\ evs = before ++ teardown_events br (Some k).
Proof.
  induction m as [|m IH]; intros i fuel s Hsum Hfuel;
    (destruct fuel as [|fuel]; [lia|]); cbn [retry_loop];
    (destruct (Z.ltb_spec (Z.of_nat i) max_retries) as [Hlt|Hge]; [|lia]).
  - assert (i = k) as -> by lia.
    destruct (attempt_returns s) as (s1 & Hrun).
    destruct (attempt_marks page_fuel br url max_retries k _ _ _ Hrun)
      as (evs1 & Hlog1 & Hsk1).
    unfold bind at 1. rewrite (successful_pass _ _ _ _ _ _ _ _ Hrun). unfold ret.
    rewrite (attempt_sets_driver _ _ _ _ _ _ _ _ Hrun).
    eexists _, (evs1 ++ _), evs1. split; [reflexivity|]. split; [|split].
    + cbn [slog log]. rewrite Hlog1. by rewrite <- app_assoc.
    + by rewrite skeleton_app, Hsk1, teardown_events_silent.
    + done.
  - destruct (attempts_fail i s) as (s1 & Hrun); [lia|].
    destruct (attempt_marks page_fuel br url max_retries i _ _ _ Hrun)
      as (evs1 & Hlog1 & Hsk1).
    unfold bind at 1. rewrite (failed_pass _ _ _ _ _ _ _ _ Hrun).
    destruct (Z.ltb_spec (Z.of_nat i + 1) max_retries) as [Hmore|Hlast]; [|lia].
    replace (Z.of_nat i + 1) with (Z.of_nat (S i)) by lia.
    edestruct (IH (S i) fuel) as (s' & evs & before & -> & Hlog & Hsk & Hend);
      [lia|lia|].
    exists s', (evs1 ++ ([error_line (Z.of_nat i) (exc i); EPrint "Retrying...";
                          ESleep 5] ++ teardown_events br (driver s1)) ++ evs),
      (evs1 ++ ([error_line (Z.of_nat i) (exc i); EPrint "Retrying...";
                 ESleep 5] ++ teardown_events br (driver s1)) ++ before).
    split; [done|]. split; [|split].
    + rewrite Hlog. cbn [slog log]. rewrite Hlog1. by rewrite <- !app_assoc.
    + rewrite !skeleton_app, Hsk1, teardown_events_silent, Hsk.
      by rewrite backoff_schedule_S.
    + rewrite Hend. by rewrite <- !app_assoc.
Qed.
End FirstSuccess.


(** X14. Retry until the first success: when the attempts before number
    [k] raise and attempt number [k], with [k] below [max_retries], returns
    a listing, [scrape_openreview] returns that listing after exactly
    [k + 1] attempts with a sleep of 5 seconds between two of them, and no
    further attempt is made.  The last thing it does is to quit the driver
    of the attempt that succeeded, a failure of which is printed. *)
Theorem scrape_openreview_first_success (page_fuel : nat) (br : Browser)
    (conference : string) (year : Z) (track : string)
    (submission_type : option string) (max_retries : Z) (k : nat)
    (exc : nat -> exn) (found : list (string * option string)) (s : sstate) :
  (forall (i : nat) (s : sstate),
      (i < k)%nat ->
      exists s', attempt page_fuel br (base_url conference year track submission_type)
                   max_retries (Z.of_nat i) s = Some (Raised (exc i), s')) ->
  (forall s : sstate,
      exists s', attempt page_fuel br (base_url conference year track submission_type)
                   max_retries (Z.of_nat k) s = Some (Ok found, s')) ->
  Z.of_nat k < max_retries ->
  exists s' evs before,
    scrape_openreview page_fuel br conference year track submission_type
      max_retries s = Some (Ok (Some found), s')
    /\ log s' = log s ++ evs
    /\ skeleton evs = backoff_schedule 0 (S k)
    /\ evs = before ++ teardown_events br (Some k)
    /\ (EQuit k ∈ evs).
Proof.
  intros Hfail Hok Hk. unfold scrape_openreview.
  destruct (retry_loop_succeeds page_fuel br _ max_retries k exc found Hfail Hok Hk
              k 0 (Z.to_nat max_retries) {| driver := None; log := log s |})
    as (s' & evs & before & Hrun & Hlog & Hsk & Hend); [lia|lia|].
  exists s', evs, before. split; [exact Hrun|]. split; [exact Hlog|].
  split; [exact Hsk|]. split; [exact Hend|].
  rewrite Hend. apply elem_of_app. right. unfold teardown_events.
  destruct (driver_quit (br k)); apply list_elem_of_here.
Qed.

End ScraperMore.

(** ** More on the pipeline *)

Module MainMore.
Import Py Eff Sql Main MainFacts.
Local Open Scope py_scope.

(** *** [main] before and after the listing *)

(** The state of the scraper at the start of [main]. *)
Definition scraper_start (s : state) : Scraper.sstate :=
  {| Scraper.driver := None; Scraper.log := trace s |}.

Definition with_trace (s : state) (tr : list event) : state :=
  {| db := db s; fs := fs s; trace := tr |}.

Definition listing (page_fuel : nat) (w : World) (cfg : Config)
  : M Scraper.sstate (option (list (string * option string))) :=
  Scraper.scrape_openreview page_fuel (browser w) (conference cfg) (year cfg)
    (track cfg) (submission_type cfg) Scraper.default_max_retries.

(** Lines 43 to 45 go through when the output directory is there or can be
    made; [os.makedirs] is called, and logged, only when it is not there. *)
Definition output_dir_ready (w : World) (cfg : Config) : Prop :=
  os_path_exists w (output_dir cfg) = true \/ os_makedirs w (output_dir cfg) = Ok tt.

Definition dir_events (w : World) (cfg : Config) : list event :=
  if os_path_exists w (output_dir cfg) then [] else [EMakeDirs (output_dir cfg)].

Lemma ensure_output_dir_ready (w : World) (cfg : Config) (s : state) :
  output_dir_ready w cfg ->
  ensure_output_dir w cfg s = Some (Ok tt, logged s (dir_events w cfg)).
Proof.
  unfold output_dir_ready, ensure_output_dir, dir_events.
  destruct (os_path_exists w (output_dir cfg)).
  - intros _. unfold ret, logged. rewrite app_nil_r. by destruct s.
  - intros [?|Hmade]; [done|]. unfold bind, emit, lift. by rewrite Hmade.
Qed.

Lemma ensure_output_dir_raises (w : World) (cfg : Config) (s : state) (e : exn) :
  os_path_exists w (output_dir cfg) = false ->
  os_makedirs w (output_dir cfg) = Raised e ->
  ensure_output_dir w cfg s = Some (Raised e, logged s [EMakeDirs (output_dir cfg)]).
Proof.
  intros Hmiss Hmake. unfold ensure_output_dir. rewrite Hmiss.
  unfold bind, emit, lift. by rewrite Hmake.
Qed.

Lemma main_listed (page_fuel : nat) (w : World) (cfg : Config) (s : state)
    (papers : list (string * option string)) (s1 : Scraper.sstate) :
  lower (platform cfg) = "openreview" ->
  listing page_fuel w cfg (scraper_start s) = Some (Ok (Some papers), s1) ->
  main page_fuel w cfg s
  = (ensure_output_dir w cfg ;;
     os <- process_papers w cfg papers ;;
     print "All papers processed." ;; ret os) (with_trace s (Scraper.log s1)).
Proof.
  intros Hplat Hscrape. unfold main. rewrite Hplat.
  change (String.eqb "openreview" "openreview") with true. cbv iota.
  unfold bind at 1, run_scraper. unfold listing, scraper_start in Hscrape.
  by rewrite Hscrape.
Qed.

Lemma main_after_listing (page_fuel : nat) (w : World) (cfg : Config) (s : state)
    (papers : list (string * option string)) (s1 : Scraper.sstate) :
  lower (platform cfg) = "openreview" ->
  listing page_fuel w cfg (scraper_start s) = Some (Ok (Some papers), s1) ->
  output_dir_ready w cfg ->
  main page_fuel w cfg s
  = (os <- process_papers w cfg papers ;;
     print "All papers processed." ;; ret os)
      (with_trace s (Scraper.log s1 ++ dir_events w cfg)).
Proof.
  intros Hplat Hscrape Hdir. rewrite (main_listed _ _ _ _ _ _ Hplat Hscrape).
  unfold bind at 1. by rewrite (ensure_output_dir_ready _ _ _ Hdir).
Qed.

Lemma main_listing_raised (page_fuel : nat) (w : World) (cfg : Config) (s : state)
    (e : exn) (s1 : Scraper.sstate) :
  lower (platform cfg) = "openreview" ->
  listing page_fuel w cfg (scraper_start s) = Some (Raised e, s1) ->
  main page_fuel w cfg s = Some (Raised e, with_trace s (Scraper.log s1)).
Proof.
  intros Hplat Hscrape. unfold main. rewrite Hplat.
  change (String.eqb "openreview" "openreview") with true. cbv iota.
  unfold bind at 1, run_scraper. unfold listing, scraper_start in Hscrape.
  by rewrite Hscrape.
Qed.

(** X15. A platform other than [openreview], whatever the case of its
    letters, makes [main] raise [ValueError] with the name as configured,
    before anything is done: the browser is not started, and the table, the
    files and the trace are as they were. *)
Theorem unsupported_platform (page_fuel : nat) (w : World) (cfg : Config) (s : state) :
  lower (platform cfg) <> "openreview" ->
  main page_fuel w cfg s
  = Some (Raised (ValueError ("Unsupported platform: " +:+ platform cfg)), s).
Proof.
  intros Hplat. unfold main.
  destruct (String.eqb_spec (lower (platform cfg)) "openreview"); done.
Qed.

(** X16. When the three attempts of the listing fetcher all raise, [main]
    ends with the exception of the third: no paper is processed, the table
    and the files are as they were, and the closing line is not printed. *)
Theorem listing_failure_aborts_main (page_fuel : nat) (w : World) (cfg : Config)
    (s : state) (exc : nat -> exn) :
  lower (platform cfg) = "openreview" ->
  (forall (i : nat) (s : Scraper.sstate),
      Z.of_nat i < 3 ->
      exists s', Scraper.attempt page_fuel (browser w)
                   (Scraper.base_url (conference cfg) (year cfg) (track cfg)
                      (submission_type cfg)) 3 (Z.of_nat i) s
                 = Some (Raised (exc i), s')) ->
  exists s' evs,
    main page_fuel w cfg s = Some (Raised (exc 2%nat), s')
    /\ db s' = db s /\ fs s' = fs s
    /\ trace s' = trace s ++ evs
    /\ ScraperFacts.skeleton evs
       = [ESetupDriver 0; ESleep 5; ESetupDriver 1; ESleep 5; ESetupDriver 2].
Proof.
  intros Hplat Hfail.
  destruct (ScraperFacts.retry_loop_exhausts page_fuel (browser w) _ 3 exc Hfail
              3 0 3 (scraper_start s)) as (s1 & evs & Hrun & Hlog & Hsk); [lia|lia|].
  exists (with_trace s (Scraper.log s1)), evs.
  split; [|split; [done|split; [done|split; [exact Hlog|exact Hsk]]]].
  apply main_listing_raised; [exact Hplat|]. exact Hrun.
Qed.

(** *** The loop *)

Lemma process_papers_footprint (w : World) (cfg : Config)
    (papers : list (string * option string)) :
  forall s r s',
    process_papers w cfg papers s = Some (r, s') ->
    db s' = db s
    /\ (forall os, r = Ok os -> Forall (fun o => o <> Persisted) os)
    /\ exists evs, trace s' = trace s ++ evs /\ Forall quiet evs.
Proof.
  induction papers as [|entry rest IH]; intros s r s' Hrun.
  - cbn in Hrun. injection Hrun as <- <-. split; [done|]. split.
    + by intros os [= <-].
    + exists []. by rewrite app_nil_r.
  - destruct (process_paper_footprint w cfg entry s)
      as (r1 & s1 & evs1 & Hbody & Hnot & Hdb1 & Htr1 & Hq1).
    cbn [process_papers] in Hrun. unfold bind at 1 in Hrun. rewrite Hbody in Hrun.
    destruct r1 as [o|e].
    + unfold bind at 1 in Hrun.
      destruct (process_papers w cfg rest s1) as [[[os'|e] s2]|] eqn:Hrest; [| |done].
      * unfold ret in Hrun. injection Hrun as <- <-.
        destruct (IH _ _ _ Hrest) as (Hdb2 & Hos & evs2 & Htr2 & Hq2).
        split; [congruence|]. split.
        -- intros os [= <-]. constructor; [congruence|by apply Hos].
        -- exists (evs1 ++ evs2). split; [by rewrite Htr2, Htr1, app_assoc|].
           by apply Forall_app.
      * injection Hrun as <- <-.
        destruct (IH _ _ _ Hrest) as (Hdb2 & _ & evs2 & Htr2 & Hq2).
        split; [congruence|]. split; [done|].
        exists (evs1 ++ evs2). split; [by rewrite Htr2, Htr1, app_assoc|].
        by apply Forall_app.
    + injection Hrun as <- <-. split; [done|]. split; [done|]. by exists evs1.
Qed.

(** X17. The loop of [main] never writes the table.  Whatever the listing,
    the store, the server, the extractor and the summarizer, when the loop
    ends the table is as it was, no entry has ended as [Persisted], and
    among the events of the loop there is no insert and no sleep: every
    entry that gets as far as line 78 ends the loop with the [TypeError] of
    the constructor. *)
Theorem loop_never_writes (w : World) (cfg : Config) (papers : list (string * option string))
    (s s' : state) (r : result (list outcome)) :
  process_papers w cfg papers s = Some (r, s') ->
  db s' = db s
  /\ (forall os, r = Ok os -> Persisted ∉ os)
  /\ exists evs, trace s' = trace s ++ evs
                 /\ forall ev, ev ∈ evs -> (forall v, ev <> EInsert v)
                                           /\ (forall d, ev <> ESleep d).
Proof.
  intros Hrun.
  destruct (process_papers_footprint w cfg papers s r s' Hrun)
    as (Hdb & Hos & evs & Htr & Hq).
  split; [exact Hdb|]. split.
  - intros os Hr Hin. specialize (Hos os Hr). rewrite Forall_forall in Hos.
    by apply (Hos Persisted).
  - exists evs. split; [exact Htr|]. intros ev Hev.
    rewrite Forall_forall in Hq. destruct (Hq ev Hev) as [Hsleep Hins]. by split.
Qed.

(** Whether the body of the loop returns [o]. *)
Definition returns (r : option (result outcome * state)) (o : outcome) : Prop :=
  exists s', r = Some (Ok o, s').

(** X18. How an entry ends is decided by the store and the status alone: it
    is skipped exactly when the first row with its [id] has a summary that
    is not empty, and it ends as a failed download exactly when it is not
    skipped and the server answers with a status other than 200.  The path
    that [download_pdf] returns is never empty, so a response with status
    200 is never taken for a failure. *)
Theorem outcome_of_entry (w : World) (cfg : Config) (title url : string) (s : state) :
  (returns (process_paper w cfg (title, Some url) s) Skipped <->
   already_processed (existing cfg s title) = true)
  /\ (returns (process_paper w cfg (title, Some url) s) DownloadFailed <->
      already_processed (existing cfg s title) = false
      /\ exists resp, requests_get w url = Ok resp /\ status_code resp <> 200).
Proof.
  unfold returns. rewrite process_paper_paths. cbv zeta.
  cbn [requests_get_py str_opt].
  destruct (already_processed (existing cfg s title)).
  { split; split; try (by intros (s' & [=])); try (by intros [[=] _]); by eauto. }
  destruct (requests_get w url) as [resp|e].
  2:{ split; split; try (by intros (s' & [=])); try done.
      by intros [_ (resp & [=] & _)]. }
  destruct (Z.eqb_spec (status_code resp) 200) as [Hst|Hst].
  - split; split; try done.
    + destruct (open_wb w _) as [[]|]; [|by intros (s' & [=])].
      destruct (parse_and_clean_pdf w _ _); [|by intros (s' & [=])].
      destruct (summarize_text w _ _ _ _ _ _); by intros (s' & [=]).
    + destruct (open_wb w _) as [[]|]; [|by intros (s' & [=])].
      destruct (parse_and_clean_pdf w _ _); [|by intros (s' & [=])].
      destruct (summarize_text w _ _ _ _ _ _); by intros (s' & [=]).
    + intros [_ (resp' & [= <-] & Hne)]. done.
  - split; split; try done.
    + by intros (s' & [=]).
    + intros _. split; [done|]. by exists resp.
    + intros _. by eauto.
Qed.

(** X19. An exception of [requests.get] (a refused connection, say) is not
    a failed download: for an entry that is not skipped it is not caught,
    it ends the loop at once, the rest of the batch is not processed, and
    nothing is written, neither to the files nor to the table. *)
Theorem request_exception_ends_loop (w : World) (cfg : Config) (title url : string)
    (rest : list (string * option string)) (s : state) (e : exn) :
  already_processed (existing cfg s title) = false ->
  requests_get w url = Raised e ->
  process_papers w cfg ((title, Some url) :: rest) s
  = Some (Raised e, logged s [EQuery (id_filter cfg title); EHttpGet url])
  /\ fs (logged s [EQuery (id_filter cfg title); EHttpGet url]) = fs s
  /\ db (logged s [EQuery (id_filter cfg title); EHttpGet url]) = db s.
Proof.
  intros Hfresh Hget. split; [|done]. apply process_papers_raised.
  rewrite process_paper_paths. cbv zeta. cbn [requests_get_py str_opt].
  by rewrite Hfresh, Hget.
Qed.

(** *** The content cap *)






(** *** Where the file goes *)

Lemma append_assoc (a b c : string) : (a +:+ b) +:+ c = a +:+ (b +:+ c).
Proof.
  induction a as [|x a IH]; [done|].
  change (String x ((a +:+ b) +:+ c) = String x (a +:+ (b +:+ c))). by rewrite IH.
Qed.

Lemma prefix_append (a b : string) : String.prefix a (a +:+ b) = true.
Proof.
  induction a as [|x a IH]; [by destruct b|].
  change (String.prefix (String x a) (String x (a +:+ b)) = true).
  cbn [String.prefix]. destruct (ascii_dec x x); [exact IH|done].
Qed.

(** X21. The file of a download.  The path that [download_pdf] opens on a
    response with status 200 always ends with the file name.  For a
    relative file name it starts with the output directory; but a file name
    that starts with [/] is taken as it is, the output directory being
    ignored.  When [open] of that path succeeds, the body of the response
    is written there, at the absolute path in the second case; when [open]
    raises, [download_pdf] ends with that exception and no file is
    written. *)
Theorem download_pdf_path (w : World) (filename url output_dir : string)
    (s : state) (resp : response) :
  requests_get w url = Ok resp -> status_code resp = 200 ->
  let path := path_join output_dir filename in
  (open_wb w path = Ok tt ->
   exists s', download_pdf w filename (Some url) output_dir s = Some (Ok (Some path), s')
              /\ fs s' !! path = Some (content resp)
              /\ trace s' = trace s ++ [EHttpGet url; EWriteFile path])
  /\ (forall e, open_wb w path = Raised e ->
      download_pdf w filename (Some url) output_dir s
      = Some (Raised e, logged s [EHttpGet url]))
  /\ (exists before, path = before +:+ filename)
  /\ (String.prefix "/" filename = false -> String.prefix output_dir path = true)
  /\ (String.prefix "/" filename = true -> path = filename).
Proof.
  intros Hget Hst path. split; [|split; [|split; [|split]]].
  - intros Hopen.
    rewrite (download_pdf_response w filename (Some url) output_dir s resp Hget), Hst.
    cbn [Z.eqb Pos.eqb]. cbv zeta. fold path. rewrite Hopen.
    eexists. split; [reflexivity|]. cbn [stored_file fs trace].
    split; [apply lookup_insert_eq|done].
  - intros e Hopen.
    rewrite (download_pdf_response w filename (Some url) output_dir s resp Hget), Hst.
    cbn [Z.eqb Pos.eqb]. cbv zeta. fold path. by rewrite Hopen.
  - unfold path, path_join. destruct (String.prefix "/" filename); [by exists ""|].
    destruct (_ || _); [by exists output_dir|].
    exists (output_dir +:+ "/"). by rewrite append_assoc.
  - intros Hrel. unfold path, path_join. rewrite Hrel.
    destruct (_ || _); apply prefix_append.
  - intros Habs. unfold path, path_join. by rewrite Habs.
Qed.

(** *** Running again over a finished batch *)

Lemma existing_logged (cfg : Config) (s : state) (evs : list event) (title : string) :
  existing cfg (logged s evs) title = existing cfg s title.
Proof. reflexivity. Qed.

Lemma process_papers_all_skipped (w : World) (cfg : Config)
    (papers : list (string * option string)) :
  forall s,
    Forall (fun entry => already_processed (existing cfg s entry.1) = true) papers ->
    process_papers w cfg papers s
    = Some (Ok (List.map (fun _ => Skipped) papers), logged s (skip_events cfg papers)).
Proof.
  induction papers as [|[title url] rest IH]; intros s Hall.
  - cbn. unfold logged. rewrite app_nil_r. by destruct s.
  - apply Forall_cons in Hall as [Hhead Hrest]. cbn [fst] in Hhead.
    rewrite (process_papers_cons _ _ _ _ _ _ _
               (process_paper_skipped w cfg title url s Hhead)).
    unfold bind. rewrite IH by exact Hrest. by rewrite logged_app.
Qed.

(** X22. Running [main] again over a finished batch, when the listing is
    fetched and the store holds a summarized record for every entry of it.
    If the output directory is there, or is not there and [os.makedirs]
    makes it, [main] ends normally with every entry skipped: after the
    events of the listing fetcher, and the call of [os.makedirs] if the
    directory was not there, it only makes the query and prints the skip
    line of each entry, then prints the closing line; it downloads nothing,
    extracts and summarizes nothing, and leaves the table and the files as
    they were.  If the directory is not there and [os.makedirs] raises, as
    it does for an empty [output_dir], [main] ends with that exception
    before any entry is looked up. *)
Theorem main_over_finished_batch (page_fuel : nat) (w : World) (cfg : Config)
    (s : state) (papers : list (string * option string)) (s1 : Scraper.sstate) :
  lower (platform cfg) = "openreview" ->
  listing page_fuel w cfg (scraper_start s) = Some (Ok (Some papers), s1) ->
  Forall (fun entry => already_processed (existing cfg s entry.1) = true) papers ->
  (output_dir_ready w cfg ->
   main page_fuel w cfg s
   = Some (Ok (List.map (fun _ => Skipped) papers),
           with_trace s (Scraper.log s1 ++ dir_events w cfg ++ skip_events cfg papers
                         ++ [EPrint "All papers processed."])))
  /\ (forall e, os_path_exists w (output_dir cfg) = false ->
      os_makedirs w (output_dir cfg) = Raised e ->
      main page_fuel w cfg s
      = Some (Raised e, with_trace s (Scraper.log s1 ++ [EMakeDirs (output_dir cfg)])))
  /\ (output_dir cfg = "" ->
      main page_fuel w cfg s
      = Some (Raised (External "FileNotFoundError"),
              with_trace s (Scraper.log s1 ++ [EMakeDirs ""]))).
Proof.
  intros Hplat Hlist Hall.
  assert (Hraise : forall e, os_path_exists w (output_dir cfg) = false ->
            os_makedirs w (output_dir cfg) = Raised e ->
            main page_fuel w cfg s
            = Some (Raised e,
                    with_trace s (Scraper.log s1 ++ [EMakeDirs (output_dir cfg)]))).
  { intros e Hmiss Hmake. rewrite (main_listed _ _ _ _ _ _ Hplat Hlist).
    unfold bind at 1. by rewrite (ensure_output_dir_raises _ _ _ _ Hmiss Hmake). }
  split; [|split].
  - intros Hdir. rewrite (main_after_listing _ _ _ _ _ _ Hplat Hlist Hdir).
    unfold bind at 1. rewrite process_papers_all_skipped by exact Hall.
    unfold bind, print, emit, ret, logged, with_trace. cbn [db fs trace].
    by rewrite <- !app_assoc.
  - exact Hraise.
  - intros Hempty. rewrite <- Hempty at 2. apply Hraise.
    + unfold os_path_exists. by rewrite Hempty.
    + unfold os_makedirs. by rewrite Hempty.
Qed.

(** *** Maintenance and the resume check *)

(** X23. The maintenance operations steer the resume check.  With [id] a
    key and a record stored for an entry: once [update_paper] has given the
    record a summary that is not empty, the entry is skipped; and once
    [delete_paper] has removed the record, the entry is not skipped any
    more and its download is requested. *)
Theorem maintenance_steers_resume (w : World) (cfg : Config) (s : state)
    (title url : string) (stored : Paper) (summary : string) :
  unique_ids (db s) -> stored ∈ db s ->
  attr stored "id" = VStr (derive_id cfg title) ->
  summary <> "" ->
  let paper_id := VStr (derive_id cfg title) in
  let updated :=
    {| db := (Maintenance.update_paper (db s) paper_id [("summary", VStr summary)]).2;
       fs := fs s; trace := trace s |} in
  let deleted :=
    {| db := (Maintenance.delete_paper (db s) paper_id).2;
       fs := fs s; trace := trace s |} in
  process_paper w cfg (title, Some url) updated
  = Some (Ok Skipped, logged updated [EQuery (id_filter cfg title); skip_line title])
  /\ (exists r s', process_paper w cfg (title, Some url) deleted = Some (r, s')
                   /\ r <> Ok Skipped
                   /\ (EHttpGet url ∈ trace s')).
Proof.
  intros Hkey Hin Hid Hsum paper_id updated deleted. split.
  - apply process_paper_skipped. unfold existing, updated, paper_id. cbn [db].
    unfold Maintenance.update_paper. rewrite <- Hid.
    rewrite SqlMore.first_with_id_stored by done. cbv zeta.
    assert (Hsame : attr (Maintenance.set_attrs stored [("summary", VStr summary)]) "id"
                    = attr stored "id").
    { unfold attr. rewrite SqlMore.set_attrs_other; [done|].
      cbn. by rewrite list_elem_of_singleton. }
    assert (Hset : attr (Maintenance.set_attrs stored [("summary", VStr summary)])
                     "summary" = VStr summary).
    { unfold attr.
      rewrite (SqlMore.set_attrs_assigned _ stored "summary" (VStr summary)); [done| | |].
      - cbn. apply NoDup_singleton.
      - apply list_elem_of_here.
      - apply (bool_decide_unpack _). vm_compute. exact I. }
    rewrite bool_decide_eq_true_2 by exact Hsame. cbn [snd].
    rewrite SqlMore.filter_replace_same; [|done| |done].
    + cbn [already_processed]. rewrite Hset. cbn [truthy].
      by destruct (String.eqb_spec summary "").
    + apply list_elem_of_fmap. by exists stored.
  - assert (Hfresh : already_processed (existing cfg deleted title) = false).
    { unfold existing, deleted. cbn [db]. fold paper_id.
      unfold Maintenance.delete_paper.
      assert (Hpid : attr stored "id" = paper_id) by exact Hid. clearbody paper_id.
      destruct (Maintenance.first_with_id (db s) paper_id) eqn:Hfirst; cbn [snd].
      - by rewrite SqlMore.filter_remove_same.
      - apply SqlMore.first_with_id_none in Hfirst.
        assert (has_id (db s) paper_id = true); [|congruence].
        apply SqlFacts.has_id_true. by exists stored. }
    rewrite process_paper_paths. cbv zeta. cbn [requests_get_py str_opt].
    rewrite Hfresh.
    assert (Hhere : forall evs, EHttpGet url ∈ (trace deleted ++ EQuery (id_filter cfg title)
                                                :: EHttpGet url :: evs)).
    { intros evs. apply elem_of_app. right. right. left. }
    destruct (requests_get w url) as [resp|e].
    2:{ eexists _, _. split; [reflexivity|]. split; [done|]. apply (Hhere []). }
    destruct (status_code resp =? 200).
    2:{ eexists _, _. split; [reflexivity|]. split; [done|]. apply (Hhere [_]). }
    destruct (open_wb w _) as [[]|e].
    2:{ eexists _, _. split; [reflexivity|]. split; [done|]. apply (Hhere []). }
    destruct (parse_and_clean_pdf w _ _) as [text|e].
    2:{ eexists _, _. split; [reflexivity|]. split; [done|].
        cbn [logged stored_file trace]. rewrite <- app_assoc. apply (Hhere [_; _]). }
    destruct (summarize_text w _ _ _ _ _ _);
      (eexists _, _; split; [reflexivity|]; split; [done|];
       cbn [logged stored_file trace]; rewrite <- app_assoc; apply (Hhere [_; _; _])).
Qed.

End MainMore.

(** ** The further properties at work *)

Module MoreExamples.
Import Py Eff Sql Main MainFacts Maintenance.

Definition id_a : pyval := VStr Scenario.id_a.

(** A stored row for Paper B, summarized. *)
Definition row_b : Paper :=
  <["id" := VStr "Paper_B_ICLR_2024_Conference_oral_openreview"]>
    (<["title" := VStr "Paper B"]> (<["summary" := VStr "Done too."]> ∅)).

Lemma one_row_key (row : Paper) : unique_ids [row].
Proof. apply NoDup_singleton. Defined.

Lemma writes_keep_id_a_key_witness :
  unique_ids (add_entry [Scenario.row_a ""] row_b).2
  /\ unique_ids (update_paper [Scenario.row_a ""] id_a [("id", VStr "other")]).2
  /\ unique_ids (delete_paper [Scenario.row_a ""] id_a).2.
Proof.
  destruct (SqlMore.writes_keep_id_a_key [Scenario.row_a ""]
              (one_row_key (Scenario.row_a ""))) as (Hadd & Hupd & Hdel).
  split; [apply Hadd|]. split; [apply Hupd|apply Hdel].
Defined.

Lemma add_entry_then_get_papers_witness :
  get_papers [Scenario.row_a ""; row_b] [("id", attr row_b "id")] = Ok [row_b]
  /\ get_papers [Scenario.row_a ""; row_b] [("id", id_a)]
     = get_papers [Scenario.row_a ""] [("id", id_a)].
Proof.
  destruct (SqlMore.add_entry_then_get_papers [Scenario.row_a ""]
              [Scenario.row_a ""; row_b] row_b) as (Hget & Hother & _).
  - vm_compute. reflexivity.
  - split; [exact Hget|]. apply Hother. vm_compute. discriminate.
Defined.


Lemma maintenance_of_missing_id_witness :
  update_paper [row_b] id_a [("summary", VStr "text")] = (Ok tt, [row_b])
  /\ delete_paper [row_b] id_a = (Ok tt, [row_b]).
Proof.
  apply (SqlMore.maintenance_of_missing_id [row_b] id_a [("summary", VStr "text")]).
  vm_compute. reflexivity.
Defined.


Lemma delete_paper_then_get_papers_witness :
  get_papers (delete_paper [Scenario.row_a ""; row_b] id_a).2 [("id", id_a)] = Ok []
  /\ S (length (delete_paper [Scenario.row_a ""; row_b] id_a).2) = 2%nat.
Proof.
  assert (Hkey : unique_ids [Scenario.row_a ""; row_b]).
  { apply (bool_decide_unpack _). vm_compute. exact I. }
  destruct (SqlMore.delete_paper_then_get_papers [Scenario.row_a ""; row_b] id_a Hkey)
    as (_ & Hget & _ & Hlen).
  split; [exact Hget|]. apply Hlen. vm_compute. reflexivity.
Defined.

Lemma delete_then_add_entry_witness :
  add_entry (delete_paper [Scenario.row_a ""] id_a).2 (Scenario.row_a "A summary.")
  = (Ok tt, (delete_paper [Scenario.row_a ""] id_a).2 ++ [Scenario.row_a "A summary."]).
Proof.
  apply (proj1 (SqlMore.delete_then_add_entry [Scenario.row_a ""]
                  (Scenario.row_a "A summary.")
                  (one_row_key (Scenario.row_a ""))
                  ltac:(vm_compute; discriminate))).
Defined.

(** A first page with one paper and a next-page control, before the page of
    the two papers. *)
Definition first_page : Scraper.Page := {|
  Scraper.wait_for_note := Ok tt;
  Scraper.scroll_height := fun _ => Ok 700;
  Scraper.scroll_to_bottom := fun _ => Ok tt;
  Scraper.find_notes := Ok [Scenario.note "Paper C" "http://x/c.pdf"];
  Scraper.find_next_button :=
    Ok {| Scraper.parent_class := Ok "right-arrow"; Scraper.click := Ok tt |}
|}.

Definition two_pages : Scraper.Session := {|
  Scraper.firefox_version := Ok "Mozilla Firefox 115.0esr";
  Scraper.geckodriver_path := Ok "/usr/local/bin/geckodriver";
  Scraper.new_firefox := Ok tt;
  Scraper.sys_platform := "linux";
  Scraper.sys_version := "3.11";
  Scraper.driver_get := fun _ => Ok tt;
  Scraper.pages := fun j => if (j =? 0)%nat then first_page else Scenario.page;
  Scraper.driver_quit := Ok tt
|}.

(** The first session fails to load the listing, the later ones work. *)
Definition second_time_lucky : Scraper.Browser :=
  fun i => if (i =? 0)%nat then ScraperExamples.flaky_session else Scenario.session.

Definition listing_url : string :=
  Scraper.base_url "ICLR" 2024 "Conference" (Some "oral").

Definition two_papers : list (string * option string) :=
  [("Paper A", Some Scenario.url_a); ("Paper B", Some Scenario.url_b)].

(** Three notes: Paper A; a paper whose title has a no-break space before
    it and whose link has no [href]; and a note with a blank heading. *)
Definition no_href : Scraper.Note :=
  {| Scraper.h4_text := Ok (String (ascii_of_nat 160) "Paper D ");
     Scraper.pdf_links := Ok [Ok None] |}.

Definition blank : Scraper.Note :=
  {| Scraper.h4_text := Ok "   "; Scraper.pdf_links := Ok [Ok (Some "http://x/e.pdf")] |}.

Lemma extract_notes_collects_witness :
  (exists evs,
      Scraper.extract_notes [Scenario.note "Paper A" Scenario.url_a; no_href; blank] []
        ScraperExamples.start
      = Some (Ok [("Paper A", Some Scenario.url_a); ("Paper D", None)],
              ScraperFacts.slog ScraperExamples.start evs))
  /\ ScraperMore.listed no_href = Some ("Paper D", None)
  /\ ScraperMore.listed blank = None.
Proof.
  destruct (ScraperMore.extract_notes_collects
              [Scenario.note "Paper A" Scenario.url_a; no_href; blank] []
              ScraperExamples.start) as ((evs & Hrun) & _ & _ & Hlisted & Hnot).
  split; [|split].
  - exists evs. exact Hrun.
  - apply (Hlisted no_href (String (ascii_of_nat 160) "Paper D ") None []);
      [reflexivity|reflexivity|vm_compute; discriminate].
  - apply Hnot. right. left. exists "   ". split; reflexivity.
Defined.

Lemma page_loop_ends_at_last_page_witness :
  exists r s',
    Scraper.page_loop 7 Scenario.session 1 [] ScraperExamples.start = Some (r, s')
    /\ Scraper.page_loop 1 Scenario.session 1 [] ScraperExamples.start = Some (r, s').
Proof.
  apply (ScraperMore.page_loop_ends_at_last_page Scenario.session 0 7 1 []
           ScraperExamples.start); [lia|lia|reflexivity].
Defined.

Lemma page_loop_returns_all_pages_witness :
  exists s',
    Scraper.page_loop 2 two_pages 1 [] ScraperExamples.start
    = Some (Ok [("Paper C", Some "http://x/c.pdf"); ("Paper A", Some Scenario.url_a);
                ("Paper B", Some Scenario.url_b)], s').
Proof.
  apply (ScraperMore.page_loop_returns_all_pages two_pages 2
           (fun j => if (j =? 0)%nat
                     then [Scenario.note "Paper C" "http://x/c.pdf"]
                     else [Scenario.note "Paper A" Scenario.url_a;
                           Scenario.note "Paper B" Scenario.url_b])
           (fun j i => if (j =? 0)%nat then 700
                       else if (i =? 0)%nat then 900 else 1800)
           2 ScraperExamples.start).
  - intros [|[|j]] Hj; [reflexivity|reflexivity|lia].
  - intros [|[|j]] i Hj; [reflexivity|reflexivity|lia].
  - intros [|[|j]] i Hj; [reflexivity|reflexivity|lia].
  - intros [|[|j]] Hj; [reflexivity|reflexivity|lia].
  - intros [|[|j]] Hj; [reflexivity|reflexivity|lia].
  - lia.
Defined.

Lemma scrape_openreview_bounded_witness :
  exists r s' evs made,
    Scraper.scrape_openreview 5 (fun _ => ScraperExamples.flaky_session) "ICLR" 2024
      "Conference" (Some "oral") 3 ScraperExamples.start = Some (r, s')
    /\ Scraper.log s' = Scraper.log ScraperExamples.start ++ evs
    /\ 1 <= Z.of_nat made <= 3
    /\ length (List.filter ScraperFacts.is_setup evs) = made.
Proof.
  destruct (ScraperMore.scrape_openreview_bounded 5
              (fun _ => ScraperExamples.flaky_session) "ICLR" 2024 "Conference"
              (Some "oral") 3 ScraperExamples.start)
    as (r & s' & evs & made & Hrun & Hlog & _ & _ & _ & Hmade & _ & _ & Hsetups & _).
  - intros i s. eexists _, _. reflexivity.
  - exists r, s', evs, made. split; [exact Hrun|]. split; [exact Hlog|].
    split; [apply Hmade; lia|exact Hsetups].
Defined.

Lemma scrape_openreview_first_success_witness :
  exists s' evs,
    Scraper.scrape_openreview 5 second_time_lucky "ICLR" 2024 "Conference"
      (Some "oral") 3 ScraperExamples.start = Some (Ok (Some two_papers), s')
    /\ ScraperFacts.skeleton evs = [ESetupDriver 0; ESleep 5; ESetupDriver 1]
    /\ (EQuit 1 ∈ evs).
Proof.
  destruct (ScraperMore.scrape_openreview_first_success 5 second_time_lucky "ICLR"
              2024 "Conference" (Some "oral") 3 1
              (fun _ => External "WebDriverException") two_papers
              ScraperExamples.start)
    as (s' & evs & before & Hrun & _ & Hsk & _ & Hquit).
  - intros [|i] s Hi; [|lia]. eexists. reflexivity.
  - intros s. eexists. vm_compute. reflexivity.
  - lia.
  - exists s', evs. split; [exact Hrun|]. split; [exact Hsk|exact Hquit].
Defined.

(** The browser never loads the listing. *)
Definition world_flaky : World := {|
  browser := fun _ => ScraperExamples.flaky_session;
  requests_get := Scenario.server 200;
  parse_and_clean_pdf := fun _ _ => Ok "Text of the paper.";
  summarize_text := fun _ _ _ _ _ _ => Ok "A summary.";
  open_wb := fun _ => Ok tt;
  path_exists := fun _ => true;
  makedirs := fun _ => Ok tt
|}.

(** The server cannot be reached. *)
Definition world_offline : World := {|
  browser := fun _ => Scenario.session;
  requests_get := fun _ => Raised (External "ConnectionError");
  parse_and_clean_pdf := fun _ _ => Ok "Text of the paper.";
  summarize_text := fun _ _ _ _ _ _ => Ok "A summary.";
  open_wb := fun _ => Ok tt;
  path_exists := fun _ => true;
  makedirs := fun _ => Ok tt
|}.

Definition arxiv_cfg : Config := {|
  platform := "arXiv"; conference := "ICLR"; year := 2024;
  track := "Conference"; submission_type := None;
  delay := 2; output_dir := "papers"; content_cap := Some (-4);
  provider := "openai"; model_name := "gpt"; prefix := ""; suffix := "";
  param := []
|}.

Lemma unsupported_platform_witness :
  main 5 Scenario.world_ok arxiv_cfg Scenario.empty_store
  = Some (Raised (ValueError "Unsupported platform: arXiv"), Scenario.empty_store).
Proof.
  apply (MainMore.unsupported_platform 5 Scenario.world_ok arxiv_cfg
           Scenario.empty_store).
  vm_compute. discriminate.
Defined.

Lemma listing_failure_aborts_main_witness :
  exists s',
    main 5 world_flaky Scenario.cfg Scenario.done_store
    = Some (Raised (External "WebDriverException"), s')
    /\ db s' = db Scenario.done_store.
Proof.
  destruct (MainMore.listing_failure_aborts_main 5 world_flaky Scenario.cfg
              Scenario.done_store (fun _ => External "WebDriverException"))
    as (s' & evs & Hrun & Hdb & _).
  - reflexivity.
  - intros i s _. eexists. reflexivity.
  - exists s'. split; [exact Hrun|exact Hdb].
Defined.

Lemma loop_never_writes_witness :
  exists r s',
    process_papers Scenario.world_ok Scenario.cfg two_papers Scenario.partial_store
    = Some (r, s')
    /\ db s' = db Scenario.partial_store.
Proof.
  eexists _, _. split; [vm_compute; reflexivity|].
  eapply (MainMore.loop_never_writes Scenario.world_ok Scenario.cfg two_papers
            Scenario.partial_store).
  vm_compute. reflexivity.
Defined.

Lemma request_exception_ends_loop_witness :
  process_papers world_offline Scenario.cfg two_papers Scenario.empty_store
  = Some (Raised (External "ConnectionError"),
          logged Scenario.empty_store
            [EQuery (id_filter Scenario.cfg "Paper A"); EHttpGet Scenario.url_a]).
Proof.
  apply (MainMore.request_exception_ends_loop world_offline Scenario.cfg "Paper A"
           Scenario.url_a [("Paper B", Some Scenario.url_b)] Scenario.empty_store
           (External "ConnectionError")); reflexivity.
Defined.


Lemma download_pdf_path_witness :
  (exists s',
      download_pdf Scenario.world_ok "/etc/passwd.pdf" (Some Scenario.url_a) "papers"
        Scenario.empty_store
      = Some (Ok (Some "/etc/passwd.pdf"), s')
      /\ fs s' !! "/etc/passwd.pdf" = Some Scenario.pdf)
  /\ download_pdf Scenario.world_flat "/etc/passwd.pdf" (Some Scenario.url_a) "papers"
       Scenario.empty_store
     = Some (Raised (External "FileNotFoundError"),
             logged Scenario.empty_store [EHttpGet Scenario.url_a]).
Proof.
  split.
  - destruct (proj1 (MainMore.download_pdf_path Scenario.world_ok "/etc/passwd.pdf"
                       Scenario.url_a "papers" Scenario.empty_store _ eq_refl eq_refl)
                eq_refl)
      as (s' & Hrun & Hfile & _).
    exists s'. split; [exact Hrun|exact Hfile].
  - apply (proj1 (proj2 (MainMore.download_pdf_path Scenario.world_flat
                           "/etc/passwd.pdf" Scenario.url_a "papers"
                           Scenario.empty_store _ eq_refl eq_refl))
             (External "FileNotFoundError") eq_refl).
Defined.

Definition both_done : state := Scenario.store [Scenario.row_a "Done."; row_b].

(** The configuration of the scenario with no output directory given. *)
Definition no_dir_cfg : Config := {|
  platform := "openreview"; conference := "ICLR"; year := 2024;
  track := "Conference"; submission_type := Some "oral";
  delay := 2; output_dir := ""; content_cap := Some 9;
  provider := "openai"; model_name := "gpt"; prefix := "Summarize:"; suffix := "";
  param := []
|}.

Lemma main_over_finished_batch_witness :
  (exists tr,
      main 5 Scenario.world_ok Scenario.cfg both_done
      = Some (Ok [Skipped; Skipped], MainMore.with_trace both_done tr)
      /\ (EHttpGet Scenario.url_a ∉ tr))
  /\ (exists tr,
        main 5 Scenario.world_ok no_dir_cfg both_done
        = Some (Raised (External "FileNotFoundError"), MainMore.with_trace both_done tr)
        /\ (EQuery (id_filter no_dir_cfg "Paper A") ∉ tr)).
Proof.
  split.
  - eassert (Hlist : MainMore.listing 5 Scenario.world_ok Scenario.cfg
                       (MainMore.scraper_start both_done)
                     = Some (Ok (Some two_papers), _)).
    { vm_compute. reflexivity. }
    eexists. split.
    + apply (proj1 (MainMore.main_over_finished_batch 5 Scenario.world_ok Scenario.cfg
                      both_done two_papers _ eq_refl Hlist
                      ltac:(repeat constructor))).
      left. reflexivity.
    + apply (bool_decide_unpack _). vm_compute. exact I.
  - eassert (Hlist : MainMore.listing 5 Scenario.world_ok no_dir_cfg
                       (MainMore.scraper_start both_done)
                     = Some (Ok (Some two_papers), _)).
    { vm_compute. reflexivity. }
    eexists. split.
    + apply (proj2 (proj2 (MainMore.main_over_finished_batch 5 Scenario.world_ok
                             no_dir_cfg both_done two_papers _ eq_refl Hlist
                             ltac:(repeat constructor)))).
      reflexivity.
    + apply (bool_decide_unpack _). vm_compute. exact I.
Defined.

Lemma maintenance_steers_resume_witness :
  process_paper Scenario.world_ok Scenario.cfg ("Paper A", Some Scenario.url_a)
    {| db := (update_paper [Scenario.row_a ""] id_a [("summary", VStr "New.")]).2;
       fs := ∅; trace := [] |}
  = Some (Ok Skipped,
          logged {| db := (update_paper [Scenario.row_a ""] id_a
                             [("summary", VStr "New.")]).2;
                    fs := ∅; trace := [] |}
            [EQuery (id_filter Scenario.cfg "Paper A"); skip_line "Paper A"]).
Proof.
  apply (proj1 (MainMore.maintenance_steers_resume Scenario.world_ok Scenario.cfg
                  Scenario.partial_store "Paper A" Scenario.url_a (Scenario.row_a "")
                  "New." (one_row_key (Scenario.row_a ""))
                  ltac:(apply list_elem_of_here) eq_refl ltac:(discriminate))).
Defined.

End MoreExamples.
